(** * pysapweb: the RFP page objects and workflows of [rfp.py]

    The module drives MIT's SAPweb through a Selenium WebDriver.  The
    driver is an external collaborator: it is modelled by the interface
    the code uses (class [WebDriver]), over an abstract browser state.
    Python code becomes code in a state-and-exception monad that also
    records every call made on the driver, in order. *)

From Stdlib Require Import String Ascii List Arith Bool Lia DecimalString.
Import ListNotations.
Open Scope string_scope.

(** ** Python strings *)

(** The texts of the program are Unicode.  A [string] holds the UTF-8
    encoding of a text, one [ascii] per byte: equality, concatenation
    and the substring test of two texts are those of their encodings. *)
Definition utf8 (bytes : list nat) : string :=
  string_of_list_ascii (map ascii_of_nat bytes).

(** The characters that [str.strip()] removes, those [str.isspace]
    accepts, each in its encoding: U+0009 to U+000D, U+001C to U+0020,
    U+0085, U+00A0, U+1680, U+2000 to U+200A, U+2028, U+2029, U+202F,
    U+205F and U+3000. *)
Definition whitespace : list string :=
  map utf8
    [[9]; [10]; [11]; [12]; [13]; [28]; [29]; [30]; [31]; [32];
     [194; 133]; [194; 160]; [225; 154; 128];
     [226; 128; 128]; [226; 128; 129]; [226; 128; 130]; [226; 128; 131];
     [226; 128; 132]; [226; 128; 133]; [226; 128; 134]; [226; 128; 135];
     [226; 128; 136]; [226; 128; 137]; [226; 128; 138];
     [226; 128; 168]; [226; 128; 169]; [226; 128; 175]; [226; 129; 159];
     [227; 128; 128]].

(** The number of bytes of the whitespace character that [s] starts
    with, 0 when it starts with none. *)
Definition space_width (s : string) : nat :=
  match find (fun space => String.prefix space s) whitespace with
  | Some space => String.length space
  | None => 0
  end.

(** [s] without its leading whitespace, once [skip] more bytes of a
    whitespace character are passed. *)
Fixpoint drop_spaces (skip : nat) (s : string) : string :=
  match s with
  | EmptyString => EmptyString
  | String _ s' =>
      match skip with
      | S k => drop_spaces k s'
      | 0 =>
          match space_width s with
          | 0 => s
          | S k => drop_spaces k s'
          end
      end
  end.

(** [s.lstrip()] *)
Definition lstrip (s : string) : string := drop_spaces 0 s.

(** [s.rstrip()]: the end of [s] that is whitespace only is removed. *)
Fixpoint rstrip (s : string) : string :=
  match s with
  | EmptyString => EmptyString
  | String c s' =>
      if lstrip s =? "" then EmptyString else String c (rstrip s')
  end.

(** [s.strip()] *)
Definition strip (s : string) : string := rstrip (lstrip s).

(** [sub in s] *)
Fixpoint contains (sub s : string) : bool :=
  String.prefix sub s ||
  match s with
  | EmptyString => false
  | String _ s' => contains sub s'
  end.

(** ["%d" % n] *)
Definition fmt_d (n : nat) : string := NilEmpty.string_of_uint (Nat.to_uint n).

(** ** Exceptions *)

Inductive exn : Set :=
| TypeError
| NameError
| IndexError
| AssertionError
| AttributeError
| NoSuchElementException
| FailedTransitionError.

Inductive outcome (A : Type) : Type :=
| Return (a : A)
| Raise (e : exn).
Arguments Return {A} a.
Arguments Raise {A} e.

(** ** The WebDriver *)

(** A [WebElement] is a handle on a DOM node. *)
Definition WebElement : Set := nat.

(** What the code needs from the browser.  Queries read the current
    state; [get], [click], [clear] and [send_keys] change it. *)
Class WebDriver (W : Type) : Type := {
  drv_get : string -> W -> W;
  drv_title : W -> string;
  drv_css : string -> W -> list WebElement;
  drv_xpath : string -> W -> list WebElement;
  drv_css_in : WebElement -> string -> W -> list WebElement;
  drv_text : WebElement -> W -> string;
  drv_attribute : WebElement -> string -> W -> string;
  drv_selected : WebElement -> W -> bool;
  drv_displayed : WebElement -> W -> bool;
  drv_click : WebElement -> W -> W;
  drv_clear : WebElement -> W -> W;
  drv_send_keys : WebElement -> string -> W -> W
}.

(** One entry per call made on the driver or on an element. *)
Inductive call : Set :=
| Get (url : string)
| Title
| FindElementByCss (selector : string)
| FindElementsByCss (selector : string)
| FindElementByXpath (xpath : string)
| FindElementsByXpath (xpath : string)
| ElemFindElementByCss (e : WebElement) (selector : string)
| ElemFindElementsByCss (e : WebElement) (selector : string)
| Text (e : WebElement)
| GetAttribute (e : WebElement) (name : string)
| IsSelected (e : WebElement)
| IsDisplayed (e : WebElement)
| Click (e : WebElement)
| Clear (e : WebElement)
| SendKeys (e : WebElement) (keys : string).

(** A call that only reads the page. *)
Definition is_query (c : call) : bool :=
  match c with
  | Get _ | Click _ | Clear _ | SendKeys _ _ => false
  | _ => true
  end.

(** ** The monad: browser state, exceptions, and the trace of calls *)

Definition M (W A : Type) : Type := W -> outcome A * W * list call.

Definition result {W A} (r : outcome A * W * list call) : outcome A := fst (fst r).
Definition browser_after {W A} (r : outcome A * W * list call) : W := snd (fst r).
Definition calls {W A} (r : outcome A * W * list call) : list call := snd r.

Definition ret {W A} (a : A) : M W A := fun w => (Return a, w, []).

Definition raise {W A} (e : exn) : M W A := fun w => (Raise e, w, []).

Definition bind {W A B} (m : M W A) (f : A -> M W B) : M W B :=
  fun w =>
    match m w with
    | (Return a, w1, l1) =>
        match f a w1 with
        | (r, w2, l2) => (r, w2, (l1 ++ l2)%list)
        end
    | (Raise e, w1, l1) => (Raise e, w1, l1)
    end.

(** [try: m  except ...: handler]; [handler e = None] when no clause
    matches [e], which then propagates. *)
Definition try_except {W A} (m : M W A) (handler : exn -> option (M W A)) : M W A :=
  fun w =>
    match m w with
    | (Return a, w1, l1) => (Return a, w1, l1)
    | (Raise e, w1, l1) =>
        match handler e with
        | Some h =>
            match h w1 with
            | (r, w2, l2) => (r, w2, (l1 ++ l2)%list)
            end
        | None => (Raise e, w1, l1)
        end
    end.

Declare Scope py_scope.
Delimit Scope py_scope with py.
Notation "x <- m ;; k" := (bind m (fun x => k))
  (at level 61, m at next level, right associativity) : py_scope.
Notation "m ;; k" := (bind m (fun _ => k))
  (at level 61, right associativity) : py_scope.
Notation "' pat <- m ;; k" := (bind m (fun x => match x with pat => k end))
  (at level 61, pat pattern, m at next level, right associativity) : py_scope.
Open Scope py_scope.

(** [assert c] *)
Definition assert {W} (c : bool) : M W unit :=
  if c then ret tt else raise AssertionError.

(** [l[i]] *)
Definition getitem {W A} (l : list A) (i : nat) : M W A :=
  match nth_error l i with
  | Some a => ret a
  | None => raise IndexError
  end.

(** [l[-1]] *)
Definition getitem_last {W A} (l : list A) : M W A :=
  match rev l with
  | a :: _ => ret a
  | [] => raise IndexError
  end.

(** ** Driver calls, as the code makes them *)

Section Selenium.
Context {W : Type} {browser : WebDriver W}.

Definition first_or_raise (c : call) (found : list WebElement) : M W WebElement :=
  fun w =>
    (match found with
     | e :: _ => Return e
     | [] => Raise NoSuchElementException
     end, w, [c]).

Definition get (url : string) : M W unit :=
  fun w => (Return tt, drv_get url w, [Get url]).

Definition title : M W string :=
  fun w => (Return (drv_title w), w, [Title]).

Definition find_element_by_css_selector (selector : string) : M W WebElement :=
  fun w => first_or_raise (FindElementByCss selector) (drv_css selector w) w.

Definition find_elements_by_css_selector (selector : string) : M W (list WebElement) :=
  fun w => (Return (drv_css selector w), w, [FindElementsByCss selector]).

Definition find_element_by_xpath (xpath : string) : M W WebElement :=
  fun w => first_or_raise (FindElementByXpath xpath) (drv_xpath xpath w) w.

Definition find_elements_by_xpath (xpath : string) : M W (list WebElement) :=
  fun w => (Return (drv_xpath xpath w), w, [FindElementsByXpath xpath]).

Definition elem_find_element_by_css_selector (e : WebElement) (selector : string)
  : M W WebElement :=
  fun w => first_or_raise (ElemFindElementByCss e selector) (drv_css_in e selector w) w.

Definition elem_find_elements_by_css_selector (e : WebElement) (selector : string)
  : M W (list WebElement) :=
  fun w => (Return (drv_css_in e selector w), w, [ElemFindElementsByCss e selector]).

Definition text (e : WebElement) : M W string :=
  fun w => (Return (drv_text e w), w, [Text e]).

Definition get_attribute (e : WebElement) (name : string) : M W string :=
  fun w => (Return (drv_attribute e name w), w, [GetAttribute e name]).

Definition is_selected (e : WebElement) : M W bool :=
  fun w => (Return (drv_selected e w), w, [IsSelected e]).

Definition is_displayed (e : WebElement) : M W bool :=
  fun w => (Return (drv_displayed e w), w, [IsDisplayed e]).

Definition click (e : WebElement) : M W unit :=
  fun w => (Return tt, drv_click e w, [Click e]).

Definition clear (e : WebElement) : M W unit :=
  fun w => (Return tt, drv_clear e w, [Clear e]).

Definition send_keys (e : WebElement) (keys : string) : M W unit :=
  fun w => (Return tt, drv_send_keys e keys w, [SendKeys e keys]).

(** [[e.text for e in es]] *)
Fixpoint texts (es : list WebElement) : M W (list string) :=
  match es with
  | [] => ret []
  | e :: es' => t <- text e;; ts <- texts es';; ret (t :: ts)
  end.

(** [[e.text.strip() for e in es]] *)
Fixpoint stripped_texts (es : list WebElement) : M W (list string) :=
  match es with
  | [] => ret []
  | e :: es' => t <- text e;; ts <- stripped_texts es';; ret (strip t :: ts)
  end.

End Selenium.

(** ** Page objects *)

(** The page classes.  Only [RequestRfpPage] and its subclass
    [ViewAndEditPage] carry a field of their own, [index]; every page
    object also holds the browser, which is the state of the monad. *)
Inductive Page : Set :=
| Inbox
| SearchForPayee
| RequestRfp (index : nat)
| ViewAndEdit (index : nat)
| ViewOnly
| AttachReceipt
| SendTo
| Search.

(** *** BasePage *)

Module BasePage.
Section WithBrowser.
Context {W : Type} {browser : WebDriver W}.

(** [__init__]: an entry page navigates to its entry URL. *)
Definition init (entry_url : option string) : M W unit :=
  match entry_url with
  | Some url => get url
  | None => ret tt
  end.

Definition errors : M W (list string) :=
  es <- find_elements_by_css_selector ".portlet-msg-error";;
  errors <- texts es;;
  es' <- find_elements_by_css_selector "label.jqerror";;
  errors' <- texts es';;
  ret (errors ++ errors')%list.

Definition _pre_transition : M W unit :=
  errs <- errors;;
  match errs with
  | [] => ret tt
  | _ :: _ => raise FailedTransitionError
  end.

Definition info : M W (list string) :=
  es <- find_elements_by_css_selector ".portlet-msg-alert";;
  texts es.

Definition success : M W (list string) :=
  es <- find_elements_by_css_selector ".portlet-msg-success";;
  texts es.

(** [_radio]: the get form answers [Some value] or [None] (no button
    checked); the set form answers nothing. *)
Definition _radio (group_name : string) (val : option string) : M W (option string) :=
  match val with
  | None =>
      try_except
        (let selector := "input[type='radio'][name='" ++ group_name ++ "']:checked" in
         e <- find_element_by_css_selector selector;;
         v <- get_attribute e "value";;
         ret (Some v))
        (fun ex => match ex with
                   | NoSuchElementException => Some (ret None)
                   | _ => None
                   end)
  | Some val =>
      let selector :=
        "input[type='radio'][name='" ++ group_name ++ "'][value='" ++ val ++ "']" in
      e <- find_element_by_css_selector selector;;
      click e;;
      ret None
  end.

Definition _checkbox (selector : string) (val : option bool) : M W (option bool) :=
  elem <- find_element_by_css_selector selector;;
  match val with
  | None => b <- is_selected elem;; ret (Some b)
  | Some val =>
      b <- is_selected elem;;
      (if negb (Bool.eqb b val) then click elem else ret tt);;
      b' <- is_selected elem;;
      assert (Bool.eqb b' val);;
      ret None
  end.

Definition _textbox (selector : string) (val : option string) : M W (option string) :=
  elem <- find_element_by_css_selector selector;;
  match val with
  | None => v <- get_attribute elem "value";; ret (Some v)
  | Some val =>
      clear elem;;
      send_keys elem val;;
      ret None
  end.

(** The get form of [_select]. *)
Definition _select_get (fragment : string) : M W string :=
  let selector := "select" ++ fragment ++ " option:checked" in
  e <- find_element_by_css_selector selector;;
  t <- text e;;
  ret (strip t).

Definition tab : string := String (ascii_of_nat 9) EmptyString.

Definition _select (fragment : string) (val : option string) : M W (option string) :=
  match val with
  | None => t <- _select_get fragment;; ret (Some t)
  | Some val =>
      val <- try_except
               (let optselector :=
                  "select" ++ fragment ++ " option[value='" ++ val ++ "']" in
                e <- find_element_by_css_selector optselector;;
                t <- text e;;
                ret (strip t))
               (fun ex => match ex with
                          | NoSuchElementException => Some (ret val)
                          | _ => None
                          end);;
      sel <- find_element_by_css_selector ("select" ++ fragment);;
      send_keys sel (val ++ tab);;
      current <- _select_get fragment;;
      assert (current =? val);;
      ret None
  end.

Definition _datalist (label : string) : M W string :=
  let xpath :=
    "//div[normalize-space(.)='" ++ label ++ "']/../../td[@class='data']"
    ++ " | //th[normalize-space(.)='" ++ label ++ "']/../td" in
  e <- find_element_by_xpath xpath;;
  text e.

Definition _try_datalist (label : string) : M W (option string) :=
  try_except
    (t <- _datalist label;; ret (Some t))
    (fun ex => match ex with
               | NoSuchElementException => Some (ret None)
               | _ => None
               end).

Definition _row_element (rfp : string) : M W (list WebElement) :=
  find_elements_by_xpath ("//a[contains(text(), '" ++ rfp ++ "')]/../../td").

End WithBrowser.
End BasePage.

(** *** Constructing page objects: [ClassName(browser)] *)

(** [New.C] is the call [C(browser)].  A [RequestRfpPage] or
    [ViewAndEditPage] object is given by its [index] field; an object of
    another class has no field besides the browser. *)
Module New.
Section WithBrowser.
Context {W : Type} {browser : WebDriver W}.

Definition InboxPage : M W unit :=
  BasePage.init
    (Some "https://insidemit-apps.mit.edu/apps/rfp/InboxEntry.action?gatewayType=admin&sapSystemId=PS1").

Definition SearchForPayeePage : M W unit := BasePage.init None.

(** [self.index = 1 if "Payment" in browser.title else 2] *)
Definition RequestRfpPage : M W nat :=
  BasePage.init None;;
  t <- title;;
  ret (if contains "Payment" t then 1 else 2).

(** [ViewAndEditPage] inherits the constructor of [RequestRfpPage]. *)
Definition ViewAndEditPage : M W nat := RequestRfpPage.

Definition ViewOnlyPage : M W unit := BasePage.init None.

Definition AttachReceiptPage : M W unit :=
  BasePage.init None;;
  e <- find_element_by_css_selector "#doUpload";;
  shown <- is_displayed e;;
  if negb shown then raise FailedTransitionError else ret tt.

Definition SendToPage : M W unit := BasePage.init None.

Definition SearchPage : M W unit :=
  BasePage.init
    (Some "https://insidemit-apps.mit.edu/apps/rfp/SearchEntry.action?sapSystemId=PS1").

End WithBrowser.
End New.

(** *** InboxPage *)

Module InboxPage.
Section WithBrowser.
Context {W : Type} {browser : WebDriver W}.

Definition select (rfp : string) : M W Page :=
  let xpath := "//a[contains(text(), '" ++ rfp ++ "')]/../../td//a" in
  e <- find_element_by_xpath xpath;;
  click e;;
  BasePage._pre_transition;;
  index <- New.ViewAndEditPage;;
  ret (ViewAndEdit index).

Definition _clone_button (rfp : string) : M W WebElement :=
  let xpath :=
    "//a[contains(text(), '" ++ rfp ++ "')]/../../td//"
    ++ "button[contains(@class, '.clone')]" in
  find_element_by_xpath xpath.

Definition is_cloneable (rfp : string) : M W bool :=
  try_except
    (_clone_button rfp;; ret true)
    (fun ex => match ex with
               | NoSuchElementException => Some (ret false)
               | _ => None
               end).

Definition clone (rfp : string) : M W Page :=
  e <- _clone_button rfp;;
  click e;;
  index <- New.ViewAndEditPage;;
  ret (ViewAndEdit index).

Definition delete_selected : M W unit :=
  e <- find_element_by_css_selector ".deleteButton";;
  click e.

Definition is_deletable (rfp : string) : M W bool :=
  cells <- BasePage._row_element rfp;;
  c <- getitem cells 9;;
  t <- text c;;
  ret (negb (t =? "n/a")).

Definition mark_for_deletion (rfp : string) (val : option bool) : M W (option bool) :=
  let xpath :=
    "//a[contains(text(), '" ++ rfp ++ "')]/../../td//"
    ++ "input[@type='checkbox']" in
  elem <- find_element_by_xpath xpath;;
  match val with
  | None => b <- is_selected elem;; ret (Some b)
  | Some val =>
      b <- is_selected elem;;
      (if negb (Bool.eqb b val) then click elem else ret tt);;
      b' <- is_selected elem;;
      assert (Bool.eqb b' val);;
      ret None
  end.

Definition receipt (rfp : string) : M W bool :=
  cells <- BasePage._row_element rfp;;
  c <- getitem cells 2;;
  t <- text c;;
  ret (t =? "Yes").

Definition creation_date (rfp : string) : M W string :=
  cells <- BasePage._row_element rfp;; c <- getitem cells 4;; text c.

Definition payee (rfp : string) : M W string :=
  cells <- BasePage._row_element rfp;; c <- getitem cells 5;; text c.

Definition created_by (rfp : string) : M W string :=
  cells <- BasePage._row_element rfp;; c <- getitem cells 6;; text c.

Definition cost_object (rfp : string) : M W string :=
  cells <- BasePage._row_element rfp;; c <- getitem cells 7;; text c.

Definition amount (rfp : string) : M W string :=
  cells <- BasePage._row_element rfp;; c <- getitem cells 8;; text c.

(** [list()]: the displayed RFPs, by number. *)
Definition list : M W (Datatypes.list string) :=
  es <- find_elements_by_css_selector "td.data > a";;
  texts es.

End WithBrowser.
End InboxPage.

(** *** SearchForPayeePage and its entry points *)

Section EntryPoints.
Context {W : Type} {browser : WebDriver W}.

Definition CreateReimbursementPage : M W unit :=
  let entry_url :=
    "https://insidemit-apps.mit.edu/apps/rfp/SelectPayeeReimbursementEntry.action?sapSystemId=PS1" in
  get entry_url;;
  New.SearchForPayeePage.

Definition CreatePaymentPage : M W unit :=
  let entry_url :=
    "https://insidemit-apps.mit.edu/apps/rfp/SelectPayeePaymentEntry.action?sapSystemId=PS1" in
  get entry_url;;
  New.SearchForPayeePage.

End EntryPoints.

Module SearchForPayeePage.
Section WithBrowser.
Context {W : Type} {browser : WebDriver W}.

Definition is_mit (val : option bool) : M W (option bool) :=
  match val with
  | None =>
      v <- BasePage._radio "payeeType" None;;
      ret (Some (match v with
                 | Some s => s =? "MIT"
                 | None => false
                 end))
  | Some val =>
      let text := if val then "MIT" else "NONMIT" in
      BasePage._radio "payeeType" (Some text);;
      ret None
  end.

Definition payee_name (val : option string) : M W (option string) :=
  BasePage._textbox "#payeeName" val.

Definition search : M W unit :=
  e <- find_element_by_css_selector "#searchButton";;
  click e.

(** [results()], the form without an index: the displayed results. *)
Definition results : M W (list string) :=
  results <- find_elements_by_css_selector "#mit a";;
  stripped_texts results.

(** [results(index)]: click on a result; answers the [index] field of
    the [RequestRfpPage] reached. *)
Definition results_at (index : nat) : M W nat :=
  results <- find_elements_by_css_selector "#mit a";;
  e <- getitem results index;;
  click e;;
  BasePage._pre_transition;;
  New.RequestRfpPage.

End WithBrowser.
End SearchForPayeePage.

(** *** RequestRfpPage

    The first argument [index] of a method is [self.index]. *)

Module RequestRfpPage.
Section WithBrowser.
Context {W : Type} {browser : WebDriver W}.

Definition payee (val : option string) : M W (option string) :=
  BasePage._textbox "#payee" val.

Definition change_payee : M W Page :=
  e <- find_element_by_css_selector ".changePayeeAction";;
  click e;;
  BasePage._pre_transition;;
  New.SearchForPayeePage;;
  ret SearchForPayee.

Definition charge_to (val : option string) : M W (option string) :=
  BasePage._select "#coCode" val.

Definition rfp_name (val : option string) : M W (option string) :=
  BasePage._textbox "#rfpName" val.

Definition country (index : nat) (val : option string) : M W (option string) :=
  let selector := "#country" ++ fmt_d index in
  BasePage._select selector val.

Definition address (index : nat) (val : option string) : M W (option string) :=
  let selector := "#address" ++ fmt_d index in
  BasePage._textbox selector val.

Definition city (index : nat) (val : option string) : M W (option string) :=
  let selector := "#city" ++ fmt_d index in
  BasePage._textbox selector val.

Definition state (index : nat) (val : option string) : M W (option string) :=
  let selector := "#region" ++ fmt_d index in
  BasePage._select selector val.

Definition postal_code (index : nat) (val : option string) : M W (option string) :=
  let selector := "#zip" ++ fmt_d index in
  BasePage._textbox selector val.

Definition citizenship (val : option string) : M W (option string) :=
  BasePage._select "#citizenship" val.

Definition line_item_count : M W nat :=
  es <- find_elements_by_css_selector ".lineItem";;
  ret (length es).

Definition date_of_service (li : nat) (val : option string) : M W (option string) :=
  BasePage._textbox ("#serviceDate-" ++ fmt_d li) val.

Definition gl_account (li : nat) (val : option string) : M W (option string) :=
  BasePage._textbox ("#glAccount-" ++ fmt_d li) val.

Definition cost_object (li : nat) (val : option string) : M W (option string) :=
  BasePage._textbox ("#costObject-" ++ fmt_d li) val.

Definition amount (li : nat) (val : option string) : M W (option string) :=
  BasePage._textbox ("#amount-" ++ fmt_d li) val.

Definition explanation (li : nat) (val : option string) : M W (option string) :=
  BasePage._textbox ("#description-" ++ fmt_d li) val.

Definition add_line : M W unit :=
  e <- find_element_by_css_selector "#addLine";;
  click e.

Definition office_note (val : option string) : M W (option string) :=
  BasePage._textbox "#messageForAP" val.

Definition save : M W Page :=
  e <- find_element_by_css_selector ".saveAction";;
  click e;;
  BasePage._pre_transition;;
  New.AttachReceiptPage;;
  ret AttachReceipt.

Definition citizen_alien (val : option string) : M W (option string) :=
  BasePage._radio "rfpDocument.payee.usCitizenType" val.

Definition ssn_tin (val : option string) : M W (option string) :=
  BasePage._textbox "#ssnTin" val.

Definition visa (val : option string) : M W (option string) :=
  BasePage._textbox "#visaType" val.

Definition mail_check (val : option bool) : M W (option bool) :=
  match val with
  | None =>
      v <- BasePage._radio "rfpDocument.mailToMit" None;;
      ret (Some (match v with
                 | Some s => s =? "false"
                 | None => false
                 end))
  | Some val =>
      let val := if val then "false" else "true" in
      BasePage._radio "rfpDocument.mailToMit" (Some val);;
      ret None
  end.

Definition hold_check (val : option bool) : M W (option bool) :=
  BasePage._checkbox "#holdCheck" val.

Definition addressee (val : option string) : M W (option string) :=
  BasePage._textbox "#addressee" val.

Definition building_room (val : option string) : M W (option string) :=
  BasePage._textbox "#bldg-rm" val.

(** "Technically, this is the same field as 'building_room', above." *)
Definition phone (val : option string) : M W (option string) :=
  BasePage._textbox "#bldg-rm" val.

End WithBrowser.
End RequestRfpPage.

(** *** ViewAndEditPage (extends RequestRfpPage) *)

Module ViewAndEditPage.
Section WithBrowser.
Context {W : Type} {browser : WebDriver W}.

Definition rfp_number : M W string := BasePage._datalist "RFP Number".

Definition payee : M W string := BasePage._datalist "Payee".

Definition charge_to : M W string := BasePage._datalist "Charge to".

Definition ssn_tin : M W string := BasePage._datalist "SSN/TIN".

(** "Do not perform checking because errors on this page will persist." *)
Definition attach_receipt : M W Page :=
  e <- find_element_by_css_selector ".attachReceipts";;
  click e;;
  New.AttachReceiptPage;;
  ret AttachReceipt.

(** The page refreshes in place; nothing is returned. *)
Definition save : M W unit :=
  e <- find_element_by_css_selector ".saveAction";;
  click e.

Definition send_to : M W Page :=
  e <- find_element_by_css_selector ".sendToAction";;
  click e;;
  BasePage._pre_transition;;
  New.SendToPage;;
  ret SendTo.

End WithBrowser.
End ViewAndEditPage.

(** *** ViewOnlyPage *)

(** [range(0, n, 3)] *)
Definition range3 (n : nat) : list nat :=
  map (fun k => 3 * k) (seq 0 ((n + 2) / 3)).

Module ViewOnlyPage.
Section WithBrowser.
Context {W : Type} {browser : WebDriver W}.

Definition inbox : M W (option string) := BasePage._try_datalist "Inbox".

Definition rfp_number : M W string := BasePage._datalist "RFP Number".

Definition payee : M W string := BasePage._datalist "Payee".

Definition company_code : M W string := BasePage._datalist "Company Code".

Definition rfp_name : M W string := BasePage._datalist "Name of RFP".

Definition rfp_type : M W string := BasePage._datalist "Type of RFP".

Definition payment_method : M W string := BasePage._datalist "Payment Method".

Definition mailing_instructions : M W (option string) :=
  try_except
    (let xpath :=
       "//h2[normalize-space(.)='Mailing Instructions']"
       ++ "/following-sibling::div[@class='sectionContainer'][1]//h4" in
     e <- find_element_by_xpath xpath;;
     t <- text e;;
     ret (Some t))
    (fun ex => match ex with
               | NoSuchElementException => Some (ret None)
               | _ => None
               end).

Definition addressee : M W (option string) := BasePage._try_datalist "Name".

Definition phone : M W (option string) := BasePage._try_datalist "Phone".

Definition address : M W (option string) := BasePage._try_datalist "Address".

Definition city : M W (option string) := BasePage._try_datalist "City".

Definition state : M W (option string) := BasePage._try_datalist "State/Region".

Definition postal_code : M W (option string) := BasePage._try_datalist "Postal Code".

Definition country : M W (option string) := BasePage._try_datalist "Country".

Definition tax_type : M W (option string) := BasePage._try_datalist "Tax Entity Type".

Definition ssn_tin : M W (option string) := BasePage._try_datalist "SSN/TIN".

Definition line_item_count : M W nat :=
  es <- find_elements_by_css_selector ".lineItem";;
  ret (length es).

Definition _line_item_cells (li : nat) : M W (list WebElement) :=
  divs <- find_elements_by_css_selector ".lineItem";;
  lidiv <- getitem divs li;;
  elem_find_elements_by_css_selector lidiv "td".

Definition date_of_service (li : nat) : M W string :=
  cells <- _line_item_cells li;; c <- getitem cells 0;; text c.

Definition gl_account (li : nat) : M W string :=
  cells <- _line_item_cells li;; c <- getitem cells 1;; text c.

Definition cost_object (li : nat) : M W string :=
  cells <- _line_item_cells li;; c <- getitem cells 2;; text c.

Definition amount (li : nat) : M W string :=
  cells <- _line_item_cells li;; c <- getitem cells 3;; text c.

Definition explanation (li : nat) : M W string :=
  divs <- find_elements_by_css_selector ".lineItem";;
  lidiv <- getitem divs li;;
  e <- elem_find_element_by_css_selector lidiv "div.data.indent1";;
  text e.

Definition office_note : M W (option string) :=
  try_except
    (let xpath :=
       "//h3[normalize-space(.)='Note to Central Office']/"
       ++ "following-sibling::div[@class='sectionContainer'][1]" in
     e <- find_element_by_xpath xpath;;
     t <- text e;;
     ret (Some t))
    (fun ex => match ex with
               | NoSuchElementException => Some (ret None)
               | _ => None
               end).

(** "Do not perform checking because errors on this page will persist." *)
Definition attach_receipt : M W Page :=
  e <- find_element_by_css_selector ".attachReceipts";;
  click e;;
  New.AttachReceiptPage;;
  ret AttachReceipt.

(** The body of the loop of [history], over the indices [i] left. *)
Fixpoint history_rows (cells : list WebElement) (indices : list nat)
  : M W (list (string * string * string)) :=
  match indices with
  | [] => ret []
  | i :: rest =>
      c0 <- getitem cells i;;
      date <- text c0;;
      c1 <- getitem cells (i + 1);;
      time <- text c1;;
      c2 <- getitem cells (i + 2);;
      action <- text c2;;
      rows <- history_rows cells rest;;
      ret ((date, time, action) :: rows)
  end.

Definition history : M W (list (string * string * string)) :=
  tables <- find_elements_by_css_selector ".topHeadersTable";;
  historydiv <- getitem_last tables;;
  cells <- elem_find_elements_by_css_selector historydiv "td";;
  history_rows cells (range3 (length cells)).

End WithBrowser.
End ViewOnlyPage.

(** *** AttachReceiptPage *)

Module AttachReceiptPage.
Section WithBrowser.
Context {W : Type} {browser : WebDriver W}.

Definition select_file (path : string) : M W unit :=
  e <- find_element_by_css_selector "#upload";;
  send_keys e path.

(** The [for ... else] of [_overlay_button]: click the first button
    showing [text]. *)
Fixpoint click_button (buttons : list WebElement) (label : string) : M W unit :=
  match buttons with
  | [] => raise NoSuchElementException
  | button :: rest =>
      t <- text button;;
      if t =? label then click button else click_button rest label
  end.

Definition _overlay_button (label : string) : M W Page :=
  buttons <- find_elements_by_css_selector ".ui-dialog button";;
  click_button buttons label;;
  t <- title;;
  if contains "Display RFP" t
  then New.ViewOnlyPage;; ret ViewOnly
  else index <- New.ViewAndEditPage;; ret (ViewAndEdit index).

Definition cancel : M W Page := _overlay_button "Cancel".

Definition attach : M W Page := _overlay_button "Attach".

End WithBrowser.
End AttachReceiptPage.

(** *** SendToPage *)

Module SendToPage.
Section WithBrowser.
Context {W : Type} {browser : WebDriver W}.

Definition return_to_rfp : M W Page :=
  e <- find_element_by_css_selector "a[href='ReturnToRfp.action']";;
  click e;;
  BasePage._pre_transition;;
  index <- New.ViewAndEditPage;;
  ret (ViewAndEdit index).

Definition recipient_name (val : option string) : M W (option string) :=
  BasePage._textbox "#recipientName" val.

Definition search : M W unit :=
  e <- find_element_by_css_selector ".searchForRecipient";;
  click e.

(** [results()] *)
Definition results : M W (list string) :=
  results <- find_elements_by_css_selector "td.data label[for^='addressee-']";;
  stripped_texts results.

(** [results(index)] *)
Definition results_at (index : nat) : M W unit :=
  results <- find_elements_by_css_selector "td.data label[for^='addressee-']";;
  e <- getitem results index;;
  click e.

Definition note (val : option string) : M W (option string) :=
  BasePage._textbox "#recipientNote" val.

Definition send : M W Page :=
  e <- find_element_by_css_selector ".sendToAction";;
  click e;;
  BasePage._pre_transition;;
  New.ViewOnlyPage;;
  ret ViewOnly.

End WithBrowser.
End SendToPage.

(** *** SearchPage *)

Module SearchPage.
Section WithBrowser.
Context {W : Type} {browser : WebDriver W}.

Definition company_code (val : option string) : M W (option string) :=
  BasePage._select "#coCode" val.

Definition rfp_number (val : option string) : M W (option string) :=
  BasePage._textbox "#rfpNumber" val.

(** Answers a [ViewOnlyPage], or [self]. *)
Definition search : M W Page :=
  e <- find_element_by_css_selector "#searchButton";;
  click e;;
  BasePage._pre_transition;;
  t <- title;;
  if contains "Display RFP" t
  then New.ViewOnlyPage;; ret ViewOnly
  else ret Search.

(** [results()] *)
Definition results : M W (list string) :=
  results <- find_elements_by_css_selector "td.data a[href^='SearchDrillDown']";;
  stripped_texts results.

(** [results(index)] *)
Definition results_at (index : nat) : M W Page :=
  results <- find_elements_by_css_selector "td.data a[href^='SearchDrillDown']";;
  e <- getitem results index;;
  click e;;
  BasePage._pre_transition;;
  New.ViewOnlyPage;;
  ret ViewOnly.

(** The result of the first [_checkbox] is bound to [Is_parked]; the
    name [is_parked] that the return statement reads is bound nowhere,
    in the method or in the module: evaluating it raises [NameError]. *)
Definition rfp_types (parked posted deleted : option bool)
  : M W (option bool * option bool * option bool) :=
  Is_parked <- BasePage._checkbox "#parked" parked;;
  is_posted <- BasePage._checkbox "#posted" posted;;
  is_deleted <- BasePage._checkbox "#deleted" deleted;;
  is_parked <- raise NameError;;
  ret (is_parked, is_posted, is_deleted).

Definition creation_start (val : option string) : M W (option string) :=
  BasePage._textbox "#creationStartDate" val.

Definition creation_end (val : option string) : M W (option string) :=
  BasePage._textbox "#creationEndDate" val.

Definition payee (val : option string) : M W (option string) :=
  BasePage._textbox "#payee" val.

Definition rfp_name (val : option string) : M W (option string) :=
  BasePage._textbox "#filingLabel" val.

Definition cost_object (val : option string) : M W (option string) :=
  BasePage._textbox "#costObject" val.

Definition gl_account (val : option string) : M W (option string) :=
  BasePage._textbox "#glAccount" val.

Definition result_creation_date (rfp : string) : M W string :=
  cells <- BasePage._row_element rfp;; c <- getitem cells 1;; text c.

Definition result_payee (rfp : string) : M W string :=
  cells <- BasePage._row_element rfp;; c <- getitem cells 2;; text c.

Definition result_created_by (rfp : string) : M W string :=
  cells <- BasePage._row_element rfp;; c <- getitem cells 3;; text c.

Definition result_rfp_name (rfp : string) : M W string :=
  cells <- BasePage._row_element rfp;; c <- getitem cells 4;; text c.

Definition result_location_status (rfp : string) : M W string :=
  cells <- BasePage._row_element rfp;; c <- getitem cells 5;; text c.

Definition result_cost_object (rfp : string) : M W string :=
  cells <- BasePage._row_element rfp;; c <- getitem cells 6;; text c.

Definition result_amount (rfp : string) : M W string :=
  cells <- BasePage._row_element rfp;; c <- getitem cells 7;; text c.

End WithBrowser.
End SearchPage.

(** ** The workflows *)

(** The result of [view]: the dictionary [details], one field per key. *)
Module LineItem.
Record t : Set := {
  date_of_service : string;
  gl_account : string;
  cost_object : string;
  amount : string;
  explanation : string
}.
End LineItem.

Module Details.
Record t : Set := {
  rfp_number : string;
  inbox : option string;
  payee : string;
  company_code : string;
  rfp_name : string;
  rfp_type : string;
  payment_method : string;
  mailing_instructions : option string;
  addressee : option string;
  phone : option string;
  address : option string;
  city : option string;
  state : option string;
  postal_code : option string;
  country : option string;
  tax_type : option string;
  ssn_tin : option string;
  line_items : list LineItem.t;
  office_note : option string;
  history : list (string * string * string)
}.
End Details.

Section Workflows.
Context {W : Type} {browser : WebDriver W}.

(** *** create *)

(** Lines 49-56, "Search for Payee": answers the [index] of the
    [RequestRfpPage] reached. *)
Definition create_search_for_payee (is_mit : bool) (payee_name : string) : M W nat :=
  CreateReimbursementPage;;
  SearchForPayeePage.is_mit (Some is_mit);;
  SearchForPayeePage.payee_name (Some payee_name);;
  SearchForPayeePage.search;;
  rs <- SearchForPayeePage.results;;
  assert (length rs =? 1)%nat;;
  SearchForPayeePage.results_at 0.

(** Lines 62-77, "Mailing Address", on the [RequestRfpPage] with field
    [index].  The local variable [state] is bound only by the
    five-element unpacking; reading it unbound raises [NameError]. *)
Definition create_mailing_address (index : nat) (address : option (list string))
  : M W unit :=
  match address with
  | None | Some [] => ret tt
  | Some address =>
      '(address_line, city, state, postal_code, country) <-
        match address with
        | [address_line; city; state; postal_code; country] =>
            ret (address_line, city, Some state, postal_code, country)
        | [address_line; city; postal_code; country] =>
            ret (address_line, city, None, postal_code, country)
        | _ => raise IndexError
        end;;
      RequestRfpPage.country index (Some country);;
      RequestRfpPage.address index (Some address_line);;
      RequestRfpPage.city index (Some city);;
      try_except
        (state <- match state with
                  | Some state => ret state
                  | None => raise NameError
                  end;;
         RequestRfpPage.state index (Some state);;
         ret tt)
        (fun ex => match ex with
                   | NameError => Some (ret tt)
                   | _ => None
                   end);;
      RequestRfpPage.postal_code index (Some postal_code);;
      ret tt
  end.

(** Lines 80-91, "Line Items": the loop, entered with counter [i]. *)
Fixpoint create_line_items (i : nat)
  (line_items : list (string * string * string * string * string)) : M W unit :=
  match line_items with
  | [] => ret tt
  | (date_of_service, gl_account, cost_object, amount, explanation) :: rest =>
      (if (0 <? i)%nat then RequestRfpPage.add_line else ret tt);;
      RequestRfpPage.date_of_service i (Some date_of_service);;
      RequestRfpPage.gl_account i (Some gl_account);;
      RequestRfpPage.cost_object i (Some cost_object);;
      RequestRfpPage.amount i (Some amount);;
      RequestRfpPage.explanation i (Some explanation);;
      create_line_items (i + 1) rest
  end.

(** Method lookup on the page object held by the variable [page] in the
    second half of [create]: an [AttachReceiptPage], or what
    [_overlay_button] answered.  A class without the method gives
    [AttributeError]. *)
Definition page_select_file (page : Page) (path : string) : M W unit :=
  match page with
  | AttachReceipt => AttachReceiptPage.select_file path
  | _ => raise AttributeError
  end.

Definition page_attach (page : Page) : M W Page :=
  match page with
  | AttachReceipt => AttachReceiptPage.attach
  | _ => raise AttributeError
  end.

Definition page_cancel (page : Page) : M W Page :=
  match page with
  | AttachReceipt => AttachReceiptPage.cancel
  | _ => raise AttributeError
  end.

Definition page_rfp_number (page : Page) : M W string :=
  match page with
  | ViewAndEdit _ => ViewAndEditPage.rfp_number
  | ViewOnly => ViewOnlyPage.rfp_number
  | _ => raise AttributeError
  end.

Definition page_send_to (page : Page) : M W Page :=
  match page with
  | ViewAndEdit _ => ViewAndEditPage.send_to
  | _ => raise AttributeError
  end.

(** Lines 98-102, "Attach Receipts": the loop. *)
Fixpoint create_attach_receipts (page : Page) (receipts : list string) : M W Page :=
  match receipts with
  | [] => ret page
  | receipt :: rest =>
      page <- match page with
              | ViewAndEdit _ => ViewAndEditPage.attach_receipt
              | _ => ret page
              end;;
      page_select_file page receipt;;
      page <- page_attach page;;
      create_attach_receipts page rest
  end.

(** Lines 109-118, "Send To?". *)
Definition create_send_to (page : Page) (send_to : option (string * string)) : M W unit :=
  match send_to with
  | None => ret tt
  | Some (recipient, note) =>
      page_send_to page;;
      SendToPage.recipient_name (Some recipient);;
      SendToPage.search;;
      rs <- SendToPage.results;;
      assert (length rs =? 1)%nat;;
      SendToPage.note (Some note);;
      SendToPage.send;;
      ret tt
  end.

Definition create (name : string) (payee : option (bool * string))
  (address : option (list string))
  (line_items : list (string * string * string * string * string))
  (office_note : string) (receipts : list string)
  (send_to : option (string * string)) : M W string :=
  (* is_mit = payee[0]; payee_name = payee[1] *)
  '(is_mit, payee_name) <- match payee with
                           | Some p => ret p
                           | None => raise TypeError
                           end;;
  index <- create_search_for_payee is_mit payee_name;;
  RequestRfpPage.rfp_name (Some name);;
  create_mailing_address index address;;
  create_line_items 0 line_items;;
  RequestRfpPage.office_note (Some office_note);;
  page <- RequestRfpPage.save;;
  page <- create_attach_receipts page receipts;;
  page <- match receipts with
          | [] => page_cancel page
          | _ :: _ => ret page
          end;;
  rfp_number <- page_rfp_number page;;
  create_send_to page send_to;;
  ret rfp_number.

(** *** view *)

(** The loop over [range(page.line_item_count())]. *)
Fixpoint view_line_items (indices : list nat) : M W (list LineItem.t) :=
  match indices with
  | [] => ret []
  | i :: rest =>
      date_of_service <- ViewOnlyPage.date_of_service i;;
      gl_account <- ViewOnlyPage.gl_account i;;
      cost_object <- ViewOnlyPage.cost_object i;;
      amount <- ViewOnlyPage.amount i;;
      explanation <- ViewOnlyPage.explanation i;;
      lis <- view_line_items rest;;
      ret ({| LineItem.date_of_service := date_of_service;
              LineItem.gl_account := gl_account;
              LineItem.cost_object := cost_object;
              LineItem.amount := amount;
              LineItem.explanation := explanation |} :: lis)
  end.

Definition view (rfp_number : string) : M W Details.t :=
  New.SearchPage;;
  SearchPage.rfp_number (Some rfp_number);;
  page <- SearchPage.search;;
  assert (match page with ViewOnly => true | _ => false end);;
  inbox <- ViewOnlyPage.inbox;;
  shown <- ViewOnlyPage.rfp_number;;
  assert (shown =? rfp_number);;
  payee <- ViewOnlyPage.payee;;
  company_code <- ViewOnlyPage.company_code;;
  rfp_name <- ViewOnlyPage.rfp_name;;
  rfp_type <- ViewOnlyPage.rfp_type;;
  payment_method <- ViewOnlyPage.payment_method;;
  mailing_instructions <- ViewOnlyPage.mailing_instructions;;
  addressee <- ViewOnlyPage.addressee;;
  phone <- ViewOnlyPage.phone;;
  address <- ViewOnlyPage.address;;
  city <- ViewOnlyPage.city;;
  state <- ViewOnlyPage.state;;
  postal_code <- ViewOnlyPage.postal_code;;
  country <- ViewOnlyPage.country;;
  tax_type <- ViewOnlyPage.tax_type;;
  ssn_tin <- ViewOnlyPage.ssn_tin;;
  n <- ViewOnlyPage.line_item_count;;
  line_items <- view_line_items (seq 0 n);;
  office_note <- ViewOnlyPage.office_note;;
  history <- ViewOnlyPage.history;;
  ret {| Details.rfp_number := rfp_number;
         Details.inbox := inbox;
         Details.payee := payee;
         Details.company_code := company_code;
         Details.rfp_name := rfp_name;
         Details.rfp_type := rfp_type;
         Details.payment_method := payment_method;
         Details.mailing_instructions := mailing_instructions;
         Details.addressee := addressee;
         Details.phone := phone;
         Details.address := address;
         Details.city := city;
         Details.state := state;
         Details.postal_code := postal_code;
         Details.country := country;
         Details.tax_type := tax_type;
         Details.ssn_tin := ssn_tin;
         Details.line_items := line_items;
         Details.office_note := office_note;
         Details.history := history |}.

End Workflows.

(** ** What a run shows *)

Section Observations.
Context {W : Type} {browser : WebDriver W}.

(** The error messages a browser state displays: what [errors()]
    answers there. *)
Definition errors_shown (w : W) : list string :=
  (map (fun e => drv_text e w) (drv_css ".portlet-msg-error" w)
   ++ map (fun e => drv_text e w) (drv_css "label.jqerror" w))%list.

(** The displayed texts of elements, stripped. *)
Definition shown_stripped (es : list WebElement) (w : W) : list string :=
  map (fun e => strip (drv_text e w)) es.

End Observations.

(** The CSS selectors looked up with [find_element_by_css_selector], in
    order. *)
Fixpoint located (l : list call) : list string :=
  match l with
  | [] => []
  | FindElementByCss selector :: l' => selector :: located l'
  | _ :: l' => located l'
  end.

(** The keys sent, in order. *)
Fixpoint typed (l : list call) : list string :=
  match l with
  | [] => []
  | SendKeys _ keys :: l' => keys :: typed l'
  | _ :: l' => typed l'
  end.

(** The number of clicks. *)
Fixpoint clicks (l : list call) : nat :=
  match l with
  | [] => 0
  | Click _ :: l' => S (clicks l')
  | _ :: l' => clicks l'
  end.

(** A call that is not a lookup of a selector in [bad]. *)
Definition avoids (bad : string -> bool) (c : call) : Prop :=
  match c with
  | FindElementByCss s => bad s = false
  | _ => True
  end.

(** Every call of [m], from any state, satisfies [P]. *)
Definition Traces {W A} (P : call -> Prop) (m : M W A) : Prop :=
  forall w, Forall P (calls (m w)).

(** [m] leaves the browser as it found it. *)
Definition Reads {W A} (m : M W A) : Prop :=
  forall w, browser_after (m w) = w.

(** ** Vocabulary of the statements *)

(** A flat sequence taken three at a time. *)
Fixpoint triples (l : list string) : list (string * string * string) :=
  match l with
  | a :: b :: c :: rest => (a, b, c) :: triples rest
  | _ => []
  end.

(** The selectors [create] looks up for its line items, starting at
    counter [i]: for every item but the first, "#addLine", and then its
    five fields. *)
Definition line_fields (i : nat) : list string :=
  ["#serviceDate-" ++ fmt_d i; "#glAccount-" ++ fmt_d i;
   "#costObject-" ++ fmt_d i; "#amount-" ++ fmt_d i;
   "#description-" ++ fmt_d i].

Fixpoint line_item_selectors (i : nat)
  (line_items : list (string * string * string * string * string)) : list string :=
  match line_items with
  | [] => []
  | _ :: rest =>
      ((if (0 <? i)%nat then ["#addLine"] else [])
       ++ line_fields i
       ++ line_item_selectors (i + 1) rest)%list
  end.

(** The keys [create] sends for its line items. *)
Fixpoint line_item_keys
  (line_items : list (string * string * string * string * string)) : list string :=
  match line_items with
  | [] => []
  | (date_of_service, gl_account, cost_object, amount, explanation) :: rest =>
      date_of_service :: gl_account :: cost_object :: amount :: explanation
      :: line_item_keys rest
  end.

(** The number of lookups of "#addLine" in a trace: one per call of
    [add_line], which nothing else looks up. *)
Definition add_line_lookups (l : list call) : nat :=
  count_occ string_dec (located l) "#addLine".

(** The selectors of a select field's set form. *)
Definition select_selectors (fragment val : string) : list string :=
  ["select" ++ fragment ++ " option[value='" ++ val ++ "']";
   "select" ++ fragment;
   "select" ++ fragment ++ " option:checked"].

(** The selectors [create] looks up for a mailing address, on the page
    with field [index]: [state] is the state given, if one is. *)
Definition address_selectors (index : nat) (country : string) (state : option string)
  : list string :=
  (select_selectors ("#country" ++ fmt_d index) country
   ++ ("#address" ++ fmt_d index)%string
   :: ("#city" ++ fmt_d index)%string
   :: match state with
      | Some state => select_selectors ("#region" ++ fmt_d index) state
      | None => []
      end
   ++ [("#zip" ++ fmt_d index)%string])%list.

(** The actions expected to move to a new page. *)
Inductive action : Set :=
| Inbox_select (rfp : string)
| Inbox_clone (rfp : string)
| SearchForPayee_results (index : nat)
| RequestRfp_change_payee
| RequestRfp_save
| ViewAndEdit_attach_receipt
| ViewAndEdit_send_to
| SendTo_return_to_rfp
| SendTo_send
| Search_search
| Search_results (index : nat)
| ViewOnly_attach_receipt.

(** The actions that call [_pre_transition]. *)
Definition calls_pre_transition (a : action) : bool :=
  match a with
  | Inbox_clone _ | ViewAndEdit_attach_receipt | ViewOnly_attach_receipt => false
  | _ => true
  end.

Definition is_attach_receipt (a : action) : bool :=
  match a with
  | ViewAndEdit_attach_receipt | ViewOnly_attach_receipt => true
  | _ => false
  end.

(** The number of lookups of [selector] in a trace. *)
Definition lookups (selector : string) (l : list call) : nat :=
  count_occ string_dec (located l) selector.

(** The selectors [create] looks up to attach [receipts], starting on
    the upload overlay ([opened]) or on the RFP: for each receipt but
    one that finds the overlay open, ".attachReceipts" and the
    "#doUpload" of the constructor of [AttachReceiptPage], and then
    "#upload". *)
Fixpoint receipt_selectors (opened : bool) (receipts : list string) : list string :=
  match receipts with
  | [] => []
  | _ :: rest =>
      ((if opened then [] else [".attachReceipts"; "#doUpload"])
       ++ "#upload" :: receipt_selectors false rest)%list
  end.

(** A page object that has [select_file] and [attach]. *)
Definition is_overlay (page : Page) : bool :=
  match page with
  | AttachReceipt => true
  | _ => false
  end.

(** A call that sends no keys. *)
Definition types_nothing (c : call) : Prop :=
  match c with
  | SendKeys _ _ => False
  | _ => True
  end.

(** The exceptions [m] can end in are among [allowed]. *)
Definition raises_only {W A} (allowed : list exn) (m : M W A) : Prop :=
  forall w,
    match result (m w) with
    | Return _ => True
    | Raise e => In e allowed
    end.

(** [m] only asks: each of its calls is a query. *)
Definition Queries {W A} (m : M W A) : Prop :=
  Traces (fun c => is_query c = true) m.

Section Vocabulary.
Context {W : Type} {browser : WebDriver W}.

(** What a select field's set form makes of [val] in state [w]: the
    stripped text of the option whose value is [val], if there is one,
    and [val] itself otherwise. *)
Definition normalized (fragment val : string) (w : W) : string :=
  match drv_css ("select" ++ fragment ++ " option[value='" ++ val ++ "']") w with
  | e :: _ => strip (drv_text e w)
  | [] => val
  end.

(** The start of [create], up to the search for the payee (lines
    50-53), and up to the RFP name (lines 50-59). *)
Definition create_payee_search (is_mit : bool) (payee_name : string) : M W unit :=
  CreateReimbursementPage;;
  SearchForPayeePage.is_mit (Some is_mit);;
  SearchForPayeePage.payee_name (Some payee_name);;
  SearchForPayeePage.search.

Definition create_until_address (name : string) (is_mit : bool) (payee_name : string)
  : M W nat :=
  index <- create_search_for_payee is_mit payee_name;;
  RequestRfpPage.rfp_name (Some name);;
  ret index.

(** The rest of [create], from the mailing address on (lines 62-119),
    on the [RequestRfpPage] with field [index]. *)
Definition create_from_address (index : nat) (address : option (list string))
  (line_items : list (string * string * string * string * string))
  (office_note : string) (receipts : list string)
  (send_to : option (string * string)) : M W string :=
  create_mailing_address index address;;
  create_line_items 0 line_items;;
  RequestRfpPage.office_note (Some office_note);;
  page <- RequestRfpPage.save;;
  page <- create_attach_receipts page receipts;;
  page <- match receipts with
          | [] => page_cancel page
          | _ :: _ => ret page
          end;;
  rfp_number <- page_rfp_number page;;
  create_send_to page send_to;;
  ret rfp_number.

(** The address fields [create] sets before the state (lines 70-72). *)
Definition create_address_until_state (index : nat) (country address_line city : string)
  : M W unit :=
  RequestRfpPage.country index (Some country);;
  RequestRfpPage.address index (Some address_line);;
  RequestRfpPage.city index (Some city);;
  ret tt.

(** The search for the recipient in [create] (lines 110-115). *)
Definition create_recipient_search (recipient : string) : M W unit :=
  ViewAndEditPage.send_to;;
  SendToPage.recipient_name (Some recipient);;
  SendToPage.search.

(** The start of [view], up to the search (lines 143-145). *)
Definition view_search (rfp_number : string) : M W Page :=
  New.SearchPage;;
  SearchPage.rfp_number (Some rfp_number);;
  SearchPage.search.

(** The three [_checkbox] calls of [rfp_types] (lines 1202-1204). *)
Definition rfp_types_boxes (parked posted deleted : option bool)
  : M W (option bool * option bool * option bool) :=
  a <- BasePage._checkbox "#parked" parked;;
  b <- BasePage._checkbox "#posted" posted;;
  c <- BasePage._checkbox "#deleted" deleted;;
  ret (a, b, c).

(** The path of the cells of the row of [rfp], as [_row_element]
    writes it, and of its "Clone" button, as [_clone_button] does. *)
Definition row_cells (rfp : string) : string :=
  "//a[contains(text(), '" ++ rfp ++ "')]/../../td".

Definition row_clone_button (rfp : string) : string :=
  "//a[contains(text(), '" ++ rfp ++ "')]/../../td//"
  ++ "button[contains(@class, '.clone')]".

(** The path of a labelled table cell, as [_datalist] writes it. *)
Definition labelled_cell (label : string) : string :=
  "//div[normalize-space(.)='" ++ label ++ "']/../../td[@class='data']"
  ++ " | //th[normalize-space(.)='" ++ label ++ "']/../td".

(** The path of the check box in the row of [rfp], as
    [mark_for_deletion] writes it. *)
Definition row_checkbox (rfp : string) : string :=
  "//a[contains(text(), '" ++ rfp ++ "')]/../../td//" ++ "input[@type='checkbox']".

(** The calls of [errors()] in state [w]. *)
Definition errors_calls (w : W) : list call :=
  (FindElementsByCss ".portlet-msg-error"
   :: map Text (drv_css ".portlet-msg-error" w)
   ++ FindElementsByCss "label.jqerror"
   :: map Text (drv_css "label.jqerror" w))%list.

Definition perform (a : action) : M W Page :=
  match a with
  | Inbox_select rfp => InboxPage.select rfp
  | Inbox_clone rfp => InboxPage.clone rfp
  | SearchForPayee_results index =>
      i <- SearchForPayeePage.results_at index;; ret (RequestRfp i)
  | RequestRfp_change_payee => RequestRfpPage.change_payee
  | RequestRfp_save => RequestRfpPage.save
  | ViewAndEdit_attach_receipt => ViewAndEditPage.attach_receipt
  | ViewAndEdit_send_to => ViewAndEditPage.send_to
  | SendTo_return_to_rfp => SendToPage.return_to_rfp
  | SendTo_send => SendToPage.send
  | Search_search => SearchPage.search
  | Search_results index => SearchPage.results_at index
  | ViewOnly_attach_receipt => ViewOnlyPage.attach_receipt
  end.

(** How each action locates the element it clicks on. *)
Definition locates (a : action) : M W WebElement :=
  match a with
  | Inbox_select rfp =>
      find_element_by_xpath ("//a[contains(text(), '" ++ rfp ++ "')]/../../td//a")
  | Inbox_clone rfp => InboxPage._clone_button rfp
  | SearchForPayee_results index =>
      results <- find_elements_by_css_selector "#mit a";; getitem results index
  | RequestRfp_change_payee => find_element_by_css_selector ".changePayeeAction"
  | RequestRfp_save => find_element_by_css_selector ".saveAction"
  | ViewAndEdit_attach_receipt => find_element_by_css_selector ".attachReceipts"
  | ViewAndEdit_send_to => find_element_by_css_selector ".sendToAction"
  | SendTo_return_to_rfp => find_element_by_css_selector "a[href='ReturnToRfp.action']"
  | SendTo_send => find_element_by_css_selector ".sendToAction"
  | Search_search => find_element_by_css_selector "#searchButton"
  | Search_results index =>
      results <- find_elements_by_css_selector "td.data a[href^='SearchDrillDown']";;
      getitem results index
  | ViewOnly_attach_receipt => find_element_by_css_selector ".attachReceipts"
  end.

(** The construction of the page object each action answers: the
    expression of its [return]. *)
Definition destination (a : action) : M W Page :=
  match a with
  | Inbox_select _ | Inbox_clone _ | SendTo_return_to_rfp =>
      index <- New.ViewAndEditPage;; ret (ViewAndEdit index)
  | SearchForPayee_results _ => index <- New.RequestRfpPage;; ret (RequestRfp index)
  | RequestRfp_change_payee => New.SearchForPayeePage;; ret SearchForPayee
  | RequestRfp_save | ViewAndEdit_attach_receipt | ViewOnly_attach_receipt =>
      New.AttachReceiptPage;; ret AttachReceipt
  | ViewAndEdit_send_to => New.SendToPage;; ret SendTo
  | SendTo_send | Search_results _ => New.ViewOnlyPage;; ret ViewOnly
  | Search_search =>
      t <- title;;
      if contains "Display RFP" t
      then New.ViewOnlyPage;; ret ViewOnly
      else ret Search
  end.

End Vocabulary.

(** ** A scripted browser

    A finite browser to run the code on: each state lists what its
    queries answer and which state a navigation, click or key entry
    leads to (none listed: the state stays). *)

Definition call_eqb (c c' : call) : bool :=
  match c, c' with
  | Get u, Get u' => u =? u'
  | Title, Title => true
  | FindElementByCss s, FindElementByCss s' => s =? s'
  | FindElementsByCss s, FindElementsByCss s' => s =? s'
  | FindElementByXpath s, FindElementByXpath s' => s =? s'
  | FindElementsByXpath s, FindElementsByXpath s' => s =? s'
  | ElemFindElementByCss e s, ElemFindElementByCss e' s' => Nat.eqb e e' && (s =? s')
  | ElemFindElementsByCss e s, ElemFindElementsByCss e' s' => Nat.eqb e e' && (s =? s')
  | Text e, Text e' => Nat.eqb e e'
  | GetAttribute e s, GetAttribute e' s' => Nat.eqb e e' && (s =? s')
  | IsSelected e, IsSelected e' => Nat.eqb e e'
  | IsDisplayed e, IsDisplayed e' => Nat.eqb e e'
  | Click e, Click e' => Nat.eqb e e'
  | Clear e, Clear e' => Nat.eqb e e'
  | SendKeys e s, SendKeys e' s' => Nat.eqb e e' && (s =? s')
  | _, _ => false
  end.

#[local] Set Warnings "-register-all".

Inductive Dom : Set :=
  mkDom {
    dom_title : string;
    dom_css : list (string * list WebElement);
    dom_xpath : list (string * list WebElement);
    dom_inside : list (WebElement * string * list WebElement);
    dom_text : list (WebElement * string);
    dom_hidden : list WebElement;
    dom_next : list (call * Dom)
  }.

Fixpoint lookup {A} (key : string) (table : list (string * list A)) : list A :=
  match table with
  | [] => []
  | (k, v) :: rest => if k =? key then v else lookup key rest
  end.

Fixpoint lookup_inside (e : WebElement) (key : string)
  (table : list (WebElement * string * list WebElement)) : list WebElement :=
  match table with
  | [] => []
  | (e', k, v) :: rest =>
      if Nat.eqb e' e && (k =? key) then v else lookup_inside e key rest
  end.

Fixpoint lookup_text (e : WebElement) (table : list (WebElement * string)) : string :=
  match table with
  | [] => ""
  | (e', t) :: rest => if Nat.eqb e' e then t else lookup_text e rest
  end.

Definition dom_step (c : call) (d : Dom) : Dom :=
  match find (fun p => call_eqb (fst p) c) (dom_next d) with
  | Some (_, d') => d'
  | None => d
  end.

#[global] Instance scripted : WebDriver Dom := {
  drv_get url := dom_step (Get url);
  drv_title := dom_title;
  drv_css selector d := lookup selector (dom_css d);
  drv_xpath xpath d := lookup xpath (dom_xpath d);
  drv_css_in e selector d := lookup_inside e selector (dom_inside d);
  drv_text e d := lookup_text e (dom_text d);
  drv_attribute _ _ _ := "";
  drv_selected _ _ := false;
  drv_displayed e d := negb (existsb (Nat.eqb e) (dom_hidden d));
  drv_click e := dom_step (Click e);
  drv_clear e := dom_step (Clear e);
  drv_send_keys e keys := dom_step (SendKeys e keys)
}.

(** *** A small SAPweb *)

Module Site.

(** The path of a labelled table cell, as [_datalist] writes it. *)
Definition cell (label : string) : string :=
  "//div[normalize-space(.)='" ++ label ++ "']/../../td[@class='data']"
  ++ " | //th[normalize-space(.)='" ++ label ++ "']/../td".

(** A displayed, read-only RFP with two line items and two history rows. *)
Definition display : Dom :=
  mkDom "Display RFP"
    [(".lineItem", [20; 21]); (".topHeadersTable", [30; 31]);
     (".attachReceipts", [52]); ("#doUpload", [40])]
    [(cell "RFP Number", [41]); (cell "Payee", [42]); (cell "Company Code", [43]);
     (cell "Name of RFP", [44]); (cell "Type of RFP", [45]);
     (cell "Payment Method", [46]); (cell "City", [47])]
    [(20, "td", [200; 201; 202; 203]); (20, "div.data.indent1", [204]);
     (21, "td", [210; 211; 212; 213]); (21, "div.data.indent1", [214]);
     (31, "td", [310; 311; 312; 313; 314; 315])]
    [(41, "4500123"); (42, "Ben Bitdiddle"); (43, "CUR"); (44, "Lunch");
     (45, "Reimbursement"); (46, "Check"); (47, "Cambridge");
     (200, "11/01/2013"); (201, "420050"); (202, "2720209"); (203, "12.50");
     (204, "Sandwiches");
     (210, "11/02/2013"); (211, "420226"); (212, "2720209"); (213, "7.25");
     (214, "Coffee");
     (310, "11/03/2013"); (311, "10:15"); (312, "Created");
     (313, "11/04/2013"); (314, "16:40"); (315, "Sent to Alyssa")]
    [40]
    [].

(** The search page; its button leads to [found]. *)
Definition search (found : Dom) : Dom :=
  mkDom "Search for RFP"
    [("#rfpNumber", [1]); ("#searchButton", [2])]
    [] [] [] []
    [(Click 2, found)].

(** A search page listing one result, still titled as the search. *)
Definition one_listed : Dom :=
  mkDom "Search for RFP"
    [("#rfpNumber", [1]); ("#searchButton", [2]);
     ("td.data a[href^='SearchDrillDown']", [5])]
    [] []
    [(5, "04500123")] []
    [].

(** A search page after a search that found nothing. *)
Definition none_found : Dom :=
  mkDom "Search for RFP"
    [("#rfpNumber", [1]); ("#searchButton", [2]); (".portlet-msg-error", [70])]
    [] []
    [(70, "No RFPs matched your search.")] []
    [].

(** The Send To page once the recipient search has answered [found]. *)
Definition send_to_results (found : list WebElement) : Dom :=
  mkDom "Send RFP"
    [("#recipientName", [60]); (".searchForRecipient", [61]);
     ("td.data label[for^='addressee-']", found);
     ("#recipientNote", [63]); (".sendToAction", [64])]
    [] []
    [(62, " Alyssa P Hacker (aph,EECS) "); (65, "Alyssa Q Hacker (aqh,Math)")] []
    [(Click 64, display)].

Definition send_to (found : list WebElement) : Dom :=
  mkDom "Send RFP"
    [("#recipientName", [60]); (".searchForRecipient", [61]);
     ("#recipientNote", [63]); (".sendToAction", [64])]
    [] [] [] []
    [(Click 61, send_to_results found)].

(** The upload overlay, over the page [back] that both buttons lead to;
    [messages] are the error messages it shows. *)
Definition overlay (messages : list WebElement) (back : Dom) : Dom :=
  mkDom "RFP Reimbursement"
    [("#doUpload", [40]); (".ui-dialog button", [41; 42]); ("#upload", [43]);
     (".portlet-msg-error", messages)]
    [] []
    [(41, "Attach"); (42, "Cancel"); (70, "Amount is required.")] []
    [(Click 41, back); (Click 42, back)].

(** The editable RFP; the overlay can be opened [n] more times. *)
Fixpoint edit (recipients : list WebElement) (n : nat) : Dom :=
  mkDom "Edit RFP"
    [("#doUpload", [40]); (".attachReceipts", [52]); (".sendToAction", [51])]
    [(cell "RFP Number", [50])]
    []
    [(50, "4500123")]
    [40]
    ((Click 51, send_to recipients)
     :: match n with
        | 0 => []
        | S k => [(Click 52, overlay [] (edit recipients k))]
        end).

(** An editable RFP showing an error message, which stays when the
    overlay opens. *)
Definition edit_with_error : Dom :=
  mkDom "Edit RFP"
    [("#doUpload", [40]); (".attachReceipts", [52]); (".portlet-msg-error", [70])]
    [] []
    [(70, "Amount is required.")]
    [40]
    [(Click 52, overlay [70] display)].

(** The five fields of line row [i]. *)
Definition line_row (i : nat) : list (string * list WebElement) :=
  [("#serviceDate-" ++ fmt_d i, [100 + 10 * i]);
   ("#glAccount-" ++ fmt_d i, [101 + 10 * i]);
   ("#costObject-" ++ fmt_d i, [102 + 10 * i]);
   ("#amount-" ++ fmt_d i, [103 + 10 * i]);
   ("#description-" ++ fmt_d i, [104 + 10 * i])].

(** The second step of creation, for a payee in [country]; [region]
    lists the state select of the page, if it has one; [rows] more line
    rows can be added to the [line] there are after the first. *)
Fixpoint request (country : string) (region : list WebElement)
  (recipients : list WebElement) (rows : nat) (line : nat) : Dom :=
  mkDom "RFP Reimbursement"
    ([("#rfpName", [10]);
      ("select#country2", [11]);
      ("select#country2 option[value='US']", [12]);
      ("select#country2 option[value='FR']", [18]);
      ("select#country2 option:checked", [if country =? "US" then 12 else 18]);
      ("#address2", [13]); ("#city2", [14]);
      ("select#region2", region);
      ("select#region2 option[value='MA']", map (fun _ => 15) region);
      ("select#region2 option:checked", map (fun _ => 15) region);
      ("#zip2", [17]);
      ("#addLine", [30]); ("#messageForAP", [31]); (".saveAction", [32])]
     ++ flat_map line_row (seq 0 (S line)))%list
    [] []
    [(12, " United States "); (18, "France"); (15, "Massachusetts")]
    []
    ((Click 32, overlay [] (edit recipients 2))
     :: match rows with
        | 0 => []
        | S k => [(Click 30, request country region recipients k (S line))]
        end).

(** The payee search, showing the results [found]. *)
Definition payee_search (found : list WebElement) (next : Dom) (after : list (call * Dom))
  : Dom :=
  mkDom "Select Payee"
    [("input[type='radio'][name='payeeType'][value='MIT']", [1]);
     ("input[type='radio'][name='payeeType'][value='NONMIT']", [2]);
     ("#payeeName", [3]); ("#searchButton", [4]); ("#mit a", found)]
    [] []
    [(5, " No results found: Continue "); (6, "Ben Bitdiddle (bitdiddle,EECS)")]
    []
    ((Click 5, next) :: (Click 6, next) :: after).

(** The browser before anything is loaded: the payee search answers
    [payees] and leads to [next]; so does the search for an RFP. *)
Definition start (payees : list WebElement) (next : Dom) : Dom :=
  mkDom "" [] [] [] [] []
    [(Get "https://insidemit-apps.mit.edu/apps/rfp/SelectPayeeReimbursementEntry.action?sapSystemId=PS1",
      payee_search [] next [(Click 4, payee_search payees next [])]);
     (Get "https://insidemit-apps.mit.edu/apps/rfp/SearchEntry.action?sapSystemId=PS1",
      search next)].

(** A payee in the United States, on a page with a state select. *)
Definition us : Dom := start [5] (request "US" [16] [62] 3 0).

(** A payee in France: the page has no state select. *)
Definition fr : Dom := start [5] (request "FR" [] [62] 3 0).

End Site.

(** ** A form of check boxes and radio buttons

    A second browser to run the code on.  Its state is the list of the
    elements that are checked: a click on a check box toggles it, a
    click on a radio button checks it and unchecks the other button of
    its group, a click on anything else (the disabled box 9) does
    nothing. *)

Record Form : Set := mkForm { form_on : list WebElement }.

Module Fields.

Definition boxes : list (string * list WebElement) :=
  [("#parked", [1]); ("#posted", [2]); ("#deleted", [3]); ("#holdCheck", [4]);
   ("#delete-4500123", [5]); ("#disabled", [9])].

Definition rows : list (string * list WebElement) :=
  [(row_checkbox "4500123", [5])].

(** The group "rfpDocument.mailToMit": button 6 has value "true",
    button 7 has value "false". *)
Definition radios : list (string * list WebElement) :=
  [("input[type='radio'][name='rfpDocument.mailToMit'][value='true']", [6]);
   ("input[type='radio'][name='rfpDocument.mailToMit'][value='false']", [7])].

Definition checked_radio : string :=
  "input[type='radio'][name='rfpDocument.mailToMit']:checked".

Definition is_on (e : WebElement) (f : Form) : bool :=
  existsb (Nat.eqb e) (form_on f).

Definition toggle (e : WebElement) (f : Form) : Form :=
  if is_on e f
  then mkForm (filter (fun e' => negb (Nat.eqb e e')) (form_on f))
  else mkForm (e :: form_on f).

Definition press (e : WebElement) (f : Form) : Form :=
  if existsb (Nat.eqb e) [1; 2; 3; 4; 5] then toggle e f
  else if existsb (Nat.eqb e) [6; 7]
       then mkForm (e :: filter (fun e' => negb (existsb (Nat.eqb e') [6; 7])) (form_on f))
       else f.

End Fields.

#[global] Instance form : WebDriver Form := {
  drv_get _ f := f;
  drv_title _ := "RFP Reimbursement";
  drv_css selector f :=
    if selector =? Fields.checked_radio
    then filter (fun e => Fields.is_on e f) [6; 7]
    else lookup selector (Fields.boxes ++ Fields.radios);
  drv_xpath xpath _ := lookup xpath Fields.rows;
  drv_css_in _ _ _ := [];
  drv_text _ _ := "";
  drv_attribute e name _ :=
    if name =? "value"
    then (if Nat.eqb e 6 then "true" else if Nat.eqb e 7 then "false" else "on")
    else "";
  drv_selected e f := Fields.is_on e f;
  drv_displayed _ _ := true;
  drv_click e f := Fields.press e f;
  drv_clear _ f := f;
  drv_send_keys _ _ f := f
}.
(** * Properties *)

(** ** Running the monad *)

Section MonadLemmas.
Context {W : Type}.

Lemma bind_Return {A B} (m : M W A) (f : A -> M W B) w a w1 l1 :
  m w = (Return a, w1, l1) ->
  bind m f w = (result (f a w1), browser_after (f a w1), (l1 ++ calls (f a w1))%list).
Proof.
  intros H. unfold bind. rewrite H.
  destruct (f a w1) as [[r w2] l2]. reflexivity.
Qed.

Lemma bind_Raise {A B} (m : M W A) (f : A -> M W B) w e w1 l1 :
  m w = (Raise e, w1, l1) ->
  bind m f w = (Raise e, w1, l1).
Proof.
  intros H. unfold bind. rewrite H. reflexivity.
Qed.

Lemma bind_Return_inv {A B} (m : M W A) (f : A -> M W B) w b w2 l :
  bind m f w = (Return b, w2, l) ->
  exists a w1 l1 l2,
    m w = (Return a, w1, l1) /\ f a w1 = (Return b, w2, l2) /\ l = (l1 ++ l2)%list.
Proof.
  unfold bind. destruct (m w) as [[[a | e] w1] l1]; [ | discriminate ].
  destruct (f a w1) as [[r w2'] l2] eqn:Hf. intros H. inversion H; subst.
  exists a, w1, l1, l2. auto.
Qed.

Lemma run_eta {A} (r : outcome A * W * list call) :
  r = (result r, browser_after r, calls r).
Proof. destruct r as [[? ?] ?]. reflexivity. Qed.

Lemma calls_bind {A B} (m : M W A) (f : A -> M W B) w :
  calls (bind m f w) =
  match result (m w) with
  | Return a => (calls (m w) ++ calls (f a (browser_after (m w))))%list
  | Raise _ => calls (m w)
  end.
Proof.
  unfold bind, result, browser_after, calls.
  destruct (m w) as [[[a | e] w1] l1]; simpl; [ | reflexivity ].
  destruct (f a w1) as [[r w2] l2]. reflexivity.
Qed.

Lemma browser_after_bind {A B} (m : M W A) (f : A -> M W B) w :
  browser_after (bind m f w) =
  match result (m w) with
  | Return a => browser_after (f a (browser_after (m w)))
  | Raise _ => browser_after (m w)
  end.
Proof.
  unfold bind, result, browser_after, calls.
  destruct (m w) as [[[a | e] w1] l1]; simpl; [ | reflexivity ].
  destruct (f a w1) as [[r w2] l2]. reflexivity.
Qed.

Lemma result_bind {A B} (m : M W A) (f : A -> M W B) w :
  result (bind m f w) =
  match result (m w) with
  | Return a => result (f a (browser_after (m w)))
  | Raise e => Raise e
  end.
Proof.
  unfold bind, result, browser_after, calls.
  destruct (m w) as [[[a | e] w1] l1]; simpl; [ | reflexivity ].
  destruct (f a w1) as [[r w2] l2]. reflexivity.
Qed.

(** *** Traces *)

Lemma Traces_ret {A} P (a : A) : Traces P (ret (W:=W) a).
Proof. intros w. constructor. Qed.

Lemma Traces_raise {A} P e : Traces P (raise (W:=W) (A:=A) e).
Proof. intros w. constructor. Qed.

Lemma Traces_bind {A B} P (m : M W A) (f : A -> M W B) :
  Traces P m -> (forall a, Traces P (f a)) -> Traces P (bind m f).
Proof.
  intros Hm Hf w. rewrite calls_bind.
  destruct (result (m w)); [ | apply Hm ].
  apply Forall_app. split; [ apply Hm | apply Hf ].
Qed.

Lemma Traces_try_except {A} P (m : M W A) handler :
  Traces P m -> (forall e h, handler e = Some h -> Traces P h) ->
  Traces P (try_except m handler).
Proof.
  intros Hm Hh w. unfold try_except.
  specialize (Hm w). destruct (m w) as [[[a | e] w1] l1]; [ exact Hm | ].
  destruct (handler e) as [h | ] eqn:E; [ | exact Hm ].
  specialize (Hh e h E w1). destruct (h w1) as [[r w2] l2].
  apply Forall_app. split; assumption.
Qed.

Lemma Traces_assert P c : Traces P (assert (W:=W) c).
Proof. destruct c; [ apply Traces_ret | apply Traces_raise ]. Qed.

Lemma Traces_getitem {A} P (l : list A) i : Traces P (getitem (W:=W) l i).
Proof.
  unfold getitem. destruct (nth_error l i); [ apply Traces_ret | apply Traces_raise ].
Qed.

Lemma Traces_getitem_last {A} P (l : list A) : Traces P (getitem_last (W:=W) l).
Proof.
  unfold getitem_last. destruct (rev l); [ apply Traces_raise | apply Traces_ret ].
Qed.

(** *** Reads *)

Lemma Reads_ret {A} (a : A) : Reads (ret (W:=W) a).
Proof. intros w. reflexivity. Qed.

Lemma Reads_raise {A} e : Reads (raise (W:=W) (A:=A) e).
Proof. intros w. reflexivity. Qed.

Lemma Reads_bind {A B} (m : M W A) (f : A -> M W B) :
  Reads m -> (forall a, Reads (f a)) -> Reads (bind m f).
Proof.
  intros Hm Hf w. rewrite browser_after_bind.
  destruct (result (m w)); [ rewrite Hf; apply Hm | apply Hm ].
Qed.

Lemma Reads_try_except {A} (m : M W A) handler :
  Reads m -> (forall e h, handler e = Some h -> Reads h) ->
  Reads (try_except m handler).
Proof.
  intros Hm Hh w. unfold try_except.
  specialize (Hm w). destruct (m w) as [[[a | e] w1] l1]; [ exact Hm | ].
  destruct (handler e) as [h | ] eqn:E; [ | exact Hm ].
  specialize (Hh e h E w1). destruct (h w1) as [[r w2] l2].
  unfold browser_after in *. simpl in *. congruence.
Qed.

Lemma Reads_assert c : Reads (assert (W:=W) c).
Proof. destruct c; [ apply Reads_ret | apply Reads_raise ]. Qed.

Lemma Reads_getitem {A} (l : list A) i : Reads (getitem (W:=W) l i).
Proof.
  unfold getitem. destruct (nth_error l i); [ apply Reads_ret | apply Reads_raise ].
Qed.

Lemma Reads_getitem_last {A} (l : list A) : Reads (getitem_last (W:=W) l).
Proof.
  unfold getitem_last. destruct (rev l); [ apply Reads_raise | apply Reads_ret ].
Qed.

End MonadLemmas.

(** ** The driver calls *)

Section CallLemmas.
Context {W : Type} {browser : WebDriver W}.

Lemma bind_assoc {A B C} (m : M W A) (f : A -> M W B) (g : B -> M W C) w :
  bind (bind m f) g w = bind m (fun a => bind (f a) g) w.
Proof.
  unfold bind. destruct (m w) as [[[a | e] w1] l1]; [ | reflexivity ].
  destruct (f a w1) as [[[b | e] w2] l2]; [ | reflexivity ].
  destruct (g b w2) as [[r w3] l3]. rewrite app_assoc. reflexivity.
Qed.

Lemma bind_ret_l {A B} (a : A) (f : A -> M W B) w : bind (ret a) f w = f a w.
Proof. unfold bind, ret. destruct (f a w) as [[r w2] l2]. reflexivity. Qed.

Lemma texts_run es w :
  texts es w = (Return (map (fun e => drv_text e w) es), w, map Text es).
Proof.
  induction es as [ | e es IH ]; [ reflexivity | ].
  simpl. unfold bind, text. rewrite IH. unfold ret. simpl.
  rewrite app_nil_r. reflexivity.
Qed.

Lemma stripped_texts_run es w :
  stripped_texts es w = (Return (shown_stripped es w), w, map Text es).
Proof.
  induction es as [ | e es IH ]; [ reflexivity | ].
  simpl. unfold bind, text. rewrite IH. unfold ret. simpl.
  rewrite app_nil_r. reflexivity.
Qed.

Lemma errors_run w :
  BasePage.errors w = (Return (errors_shown w), w, errors_calls w).
Proof.
  unfold BasePage.errors, bind, find_elements_by_css_selector.
  rewrite !texts_run.
  unfold ret, errors_shown, errors_calls. simpl. rewrite app_nil_r. reflexivity.
Qed.

Lemma _pre_transition_run w :
  BasePage._pre_transition w =
  (match errors_shown w with
   | [] => Return tt
   | _ :: _ => Raise FailedTransitionError
   end, w, errors_calls w).
Proof.
  unfold BasePage._pre_transition, bind. rewrite errors_run.
  destruct (errors_shown w); simpl; rewrite app_nil_r; reflexivity.
Qed.

(** *** Every call but [get], [click], [clear] and [send_keys] reads *)

Lemma Reads_title : Reads title.
Proof. intros w. reflexivity. Qed.

Lemma Reads_find_element_by_css_selector s : Reads (find_element_by_css_selector s).
Proof. intros w. reflexivity. Qed.

Lemma Reads_find_elements_by_css_selector s : Reads (find_elements_by_css_selector s).
Proof. intros w. reflexivity. Qed.

Lemma Reads_find_element_by_xpath s : Reads (find_element_by_xpath s).
Proof. intros w. reflexivity. Qed.

Lemma Reads_find_elements_by_xpath s : Reads (find_elements_by_xpath s).
Proof. intros w. reflexivity. Qed.

Lemma Reads_elem_find_element_by_css_selector e s :
  Reads (elem_find_element_by_css_selector e s).
Proof. intros w. reflexivity. Qed.

Lemma Reads_elem_find_elements_by_css_selector e s :
  Reads (elem_find_elements_by_css_selector e s).
Proof. intros w. reflexivity. Qed.

Lemma Reads_text e : Reads (text e).
Proof. intros w. reflexivity. Qed.

Lemma Reads_get_attribute e n : Reads (get_attribute e n).
Proof. intros w. reflexivity. Qed.

Lemma Reads_is_selected e : Reads (is_selected e).
Proof. intros w. reflexivity. Qed.

Lemma Reads_is_displayed e : Reads (is_displayed e).
Proof. intros w. reflexivity. Qed.

Lemma Reads_texts es : Reads (texts es).
Proof. intros w. rewrite texts_run. reflexivity. Qed.

Lemma Reads_stripped_texts es : Reads (stripped_texts es).
Proof. intros w. rewrite stripped_texts_run. reflexivity. Qed.

Lemma Reads__pre_transition : Reads BasePage._pre_transition.
Proof. intros w. rewrite _pre_transition_run. reflexivity. Qed.

(** *** The trace of each call *)

Lemma Traces_get P url : P (Get url) -> Traces P (get url).
Proof. intros H w. repeat constructor. exact H. Qed.

Lemma Traces_title P : P Title -> Traces P title.
Proof. intros H w. repeat constructor. exact H. Qed.

Lemma Traces_find_element_by_css_selector P s :
  P (FindElementByCss s) -> Traces P (find_element_by_css_selector s).
Proof. intros H w. repeat constructor. exact H. Qed.

Lemma Traces_find_elements_by_css_selector P s :
  P (FindElementsByCss s) -> Traces P (find_elements_by_css_selector s).
Proof. intros H w. repeat constructor. exact H. Qed.

Lemma Traces_find_element_by_xpath P s :
  P (FindElementByXpath s) -> Traces P (find_element_by_xpath s).
Proof. intros H w. repeat constructor. exact H. Qed.

Lemma Traces_find_elements_by_xpath P s :
  P (FindElementsByXpath s) -> Traces P (find_elements_by_xpath s).
Proof. intros H w. repeat constructor. exact H. Qed.

Lemma Traces_elem_find_element_by_css_selector P e s :
  P (ElemFindElementByCss e s) -> Traces P (elem_find_element_by_css_selector e s).
Proof. intros H w. repeat constructor. exact H. Qed.

Lemma Traces_elem_find_elements_by_css_selector P e s :
  P (ElemFindElementsByCss e s) -> Traces P (elem_find_elements_by_css_selector e s).
Proof. intros H w. repeat constructor. exact H. Qed.

Lemma Traces_text P e : P (Text e) -> Traces P (text e).
Proof. intros H w. repeat constructor. exact H. Qed.

Lemma Traces_get_attribute P e n : P (GetAttribute e n) -> Traces P (get_attribute e n).
Proof. intros H w. repeat constructor. exact H. Qed.

Lemma Traces_is_selected P e : P (IsSelected e) -> Traces P (is_selected e).
Proof. intros H w. repeat constructor. exact H. Qed.

Lemma Traces_is_displayed P e : P (IsDisplayed e) -> Traces P (is_displayed e).
Proof. intros H w. repeat constructor. exact H. Qed.

Lemma Traces_click P e : P (Click e) -> Traces P (click e).
Proof. intros H w. repeat constructor. exact H. Qed.

Lemma Traces_clear P e : P (Clear e) -> Traces P (clear e).
Proof. intros H w. repeat constructor. exact H. Qed.

Lemma Traces_send_keys P e k : P (SendKeys e k) -> Traces P (send_keys e k).
Proof. intros H w. repeat constructor. exact H. Qed.

Lemma Traces_texts P es : (forall e, P (Text e)) -> Traces P (texts es).
Proof.
  intros H w. rewrite texts_run. apply Forall_forall. intros c Hc.
  apply in_map_iff in Hc. destruct Hc as [e [<- _]]. apply H.
Qed.

Lemma Traces_stripped_texts P es : (forall e, P (Text e)) -> Traces P (stripped_texts es).
Proof.
  intros H w. rewrite stripped_texts_run. apply Forall_forall. intros c Hc.
  apply in_map_iff in Hc. destruct Hc as [e [<- _]]. apply H.
Qed.

End CallLemmas.

(** Unfolding the page methods down to driver calls. *)
Create HintDb pages.
#[global] Hint Unfold
  BasePage.init BasePage.errors BasePage._pre_transition BasePage._radio
  BasePage._checkbox BasePage._textbox BasePage._select_get BasePage._select
  BasePage._datalist BasePage._try_datalist
  New.InboxPage New.SearchForPayeePage New.RequestRfpPage New.ViewAndEditPage
  New.ViewOnlyPage New.AttachReceiptPage New.SendToPage New.SearchPage
  InboxPage.select InboxPage._clone_button InboxPage.clone
  CreateReimbursementPage
  SearchForPayeePage.is_mit SearchForPayeePage.payee_name SearchForPayeePage.search
  SearchForPayeePage.results SearchForPayeePage.results_at
  RequestRfpPage.change_payee RequestRfpPage.rfp_name RequestRfpPage.country
  RequestRfpPage.address RequestRfpPage.city RequestRfpPage.state
  RequestRfpPage.postal_code RequestRfpPage.date_of_service RequestRfpPage.gl_account
  RequestRfpPage.cost_object RequestRfpPage.amount RequestRfpPage.explanation
  RequestRfpPage.add_line RequestRfpPage.office_note RequestRfpPage.save
  ViewAndEditPage.rfp_number ViewAndEditPage.attach_receipt ViewAndEditPage.send_to
  ViewOnlyPage.inbox ViewOnlyPage.rfp_number ViewOnlyPage.payee
  ViewOnlyPage.company_code ViewOnlyPage.rfp_name ViewOnlyPage.rfp_type
  ViewOnlyPage.payment_method ViewOnlyPage.mailing_instructions
  ViewOnlyPage.addressee ViewOnlyPage.phone ViewOnlyPage.address ViewOnlyPage.city
  ViewOnlyPage.state ViewOnlyPage.postal_code ViewOnlyPage.country
  ViewOnlyPage.tax_type ViewOnlyPage.ssn_tin ViewOnlyPage.line_item_count
  ViewOnlyPage._line_item_cells ViewOnlyPage.date_of_service ViewOnlyPage.gl_account
  ViewOnlyPage.cost_object ViewOnlyPage.amount ViewOnlyPage.explanation
  ViewOnlyPage.office_note ViewOnlyPage.attach_receipt ViewOnlyPage.history
  AttachReceiptPage.select_file AttachReceiptPage._overlay_button
  AttachReceiptPage.cancel AttachReceiptPage.attach
  SendToPage.return_to_rfp SendToPage.recipient_name SendToPage.search
  SendToPage.results SendToPage.note SendToPage.send
  SearchPage.rfp_number SearchPage.search SearchPage.results SearchPage.results_at
  : pages.

Create HintDb reads.

(** [Reads m], for [m] built from reading calls. *)
Ltac reads_step :=
  match goal with
  | |- Reads (bind _ _) => apply Reads_bind; [ | intros ]
  | |- Reads (try_except _ _) =>
      apply Reads_try_except;
      [ | let e := fresh "e" in let h := fresh "h" in let E := fresh "E" in
          intros e h E; destruct e; try discriminate E;
          injection E as <- ]
  | |- Reads (ret _) => apply Reads_ret
  | |- Reads (raise _) => apply Reads_raise
  | |- Reads (assert _) => apply Reads_assert
  | |- Reads (getitem _ _) => apply Reads_getitem
  | |- Reads (getitem_last _) => apply Reads_getitem_last
  | |- Reads title => apply Reads_title
  | |- Reads (find_element_by_css_selector _) => apply Reads_find_element_by_css_selector
  | |- Reads (find_elements_by_css_selector _) => apply Reads_find_elements_by_css_selector
  | |- Reads (find_element_by_xpath _) => apply Reads_find_element_by_xpath
  | |- Reads (find_elements_by_xpath _) => apply Reads_find_elements_by_xpath
  | |- Reads (elem_find_element_by_css_selector _ _) =>
      apply Reads_elem_find_element_by_css_selector
  | |- Reads (elem_find_elements_by_css_selector _ _) =>
      apply Reads_elem_find_elements_by_css_selector
  | |- Reads (text _) => apply Reads_text
  | |- Reads (get_attribute _ _) => apply Reads_get_attribute
  | |- Reads (is_selected _) => apply Reads_is_selected
  | |- Reads (is_displayed _) => apply Reads_is_displayed
  | |- Reads (texts _) => apply Reads_texts
  | |- Reads (stripped_texts _) => apply Reads_stripped_texts
  | |- Reads (match ?x with _ => _ end) => destruct x
  | |- Reads _ => solve [ auto with reads ]
  end.

Ltac reads := autounfold with pages; repeat reads_step.

(** [Traces P m]: what is left is [P] of each call [m] can make. *)
Ltac traces_step :=
  match goal with
  | |- Traces _ (bind _ _) => apply Traces_bind; [ | intros ]
  | |- Traces _ (try_except _ _) =>
      apply Traces_try_except;
      [ | let e := fresh "e" in let h := fresh "h" in let E := fresh "E" in
          intros e h E; destruct e; try discriminate E;
          injection E as <- ]
  | |- Traces _ (ret _) => apply Traces_ret
  | |- Traces _ (raise _) => apply Traces_raise
  | |- Traces _ (assert _) => apply Traces_assert
  | |- Traces _ (getitem _ _) => apply Traces_getitem
  | |- Traces _ (getitem_last _) => apply Traces_getitem_last
  | |- Traces _ (get _) => apply Traces_get
  | |- Traces _ title => apply Traces_title
  | |- Traces _ (find_element_by_css_selector _) =>
      apply Traces_find_element_by_css_selector
  | |- Traces _ (find_elements_by_css_selector _) =>
      apply Traces_find_elements_by_css_selector
  | |- Traces _ (find_element_by_xpath _) => apply Traces_find_element_by_xpath
  | |- Traces _ (find_elements_by_xpath _) => apply Traces_find_elements_by_xpath
  | |- Traces _ (elem_find_element_by_css_selector _ _) =>
      apply Traces_elem_find_element_by_css_selector
  | |- Traces _ (elem_find_elements_by_css_selector _ _) =>
      apply Traces_elem_find_elements_by_css_selector
  | |- Traces _ (text _) => apply Traces_text
  | |- Traces _ (get_attribute _ _) => apply Traces_get_attribute
  | |- Traces _ (is_selected _) => apply Traces_is_selected
  | |- Traces _ (is_displayed _) => apply Traces_is_displayed
  | |- Traces _ (click _) => apply Traces_click
  | |- Traces _ (clear _) => apply Traces_clear
  | |- Traces _ (send_keys _ _) => apply Traces_send_keys
  | |- Traces _ (texts _) => apply Traces_texts; intros
  | |- Traces _ (stripped_texts _) => apply Traces_stripped_texts; intros
  | |- Traces _ (match ?x with _ => _ end) => destruct x
  end.

Ltac traces := autounfold with pages; repeat traces_step.

(** ** Transitions between pages *)

Section TransitionLemmas.
Context {W : Type} {browser : WebDriver W}.

(** The shape of a checked transition: locate an element, click it,
    call [_pre_transition], build the next page object. *)
Lemma checked_run {B} (locate : M W WebElement) (next : M W B) w :
  Reads locate ->
  (e <- locate;; click e;; BasePage._pre_transition;; next) w
  = match result (locate w) with
    | Raise x => (Raise x, w, calls (locate w))
    | Return e =>
        (match errors_shown (drv_click e w) with
         | [] => result (next (drv_click e w))
         | _ :: _ => Raise FailedTransitionError
         end,
         match errors_shown (drv_click e w) with
         | [] => browser_after (next (drv_click e w))
         | _ :: _ => drv_click e w
         end,
         (calls (locate w) ++ Click e :: errors_calls (drv_click e w)
          ++ match errors_shown (drv_click e w) with
             | [] => calls (next (drv_click e w))
             | _ :: _ => []
             end)%list)
    end.
Proof.
  intros Hl. specialize (Hl w). unfold bind at 1.
  destruct (locate w) as [[[e | x] w1] l1];
    unfold browser_after, result, calls in *; cbn [fst snd] in *; subst w1;
    [ | reflexivity ].
  unfold bind, click. rewrite _pre_transition_run.
  destruct (errors_shown (drv_click e w)).
  - destruct (next (drv_click e w)) as [[r w2] l2]. reflexivity.
  - cbn [app]. rewrite app_nil_r. reflexivity.
Qed.

Lemma bind_ret_map {A B} (m : M W A) (f : A -> B) w :
  bind m (fun a => ret (f a)) w =
  (match result (m w) with
   | Return a => Return (f a)
   | Raise e => Raise e
   end, browser_after (m w), calls (m w)).
Proof.
  unfold bind, ret, result, browser_after, calls.
  destruct (m w) as [[[a | e] w1] l1]; simpl; [ rewrite app_nil_r | ]; reflexivity.
Qed.

Lemma locate_in_results_assoc {B} selector index (rest : WebElement -> M W B) w :
  (results <- find_elements_by_css_selector selector;;
   e <- getitem results index;; rest e) w
  = (e <- (results <- find_elements_by_css_selector selector;;
           getitem results index);; rest e) w.
Proof. symmetry. apply bind_assoc. Qed.

Lemma bind_pointwise {A B} (m : M W A) (f g : A -> M W B) w :
  (forall a w', f a w' = g a w') -> bind m f w = bind m g w.
Proof.
  intros H. unfold bind. destruct (m w) as [[[a | e] w1] l1]; [ | reflexivity ].
  rewrite H. reflexivity.
Qed.

(** Every checked action is of that shape. *)
Lemma perform_checked (a : action) w :
  calls_pre_transition a = true ->
  perform a w
  = (e <- locates a;; click e;; BasePage._pre_transition;; destination a) w.
Proof.
  intros Ha. destruct a; try discriminate Ha; try reflexivity.
  - cbn [perform locates destination]. unfold SearchForPayeePage.results_at.
    rewrite !bind_assoc. apply bind_pointwise. intros results w1.
    rewrite !bind_assoc. apply bind_pointwise. intros e w2.
    rewrite !bind_assoc. apply bind_pointwise. intros u w3.
    rewrite !bind_assoc. reflexivity.
  - cbn [perform locates destination]. unfold SearchPage.results_at.
    rewrite !bind_assoc. reflexivity.
Qed.

Lemma Reads_locates (a : action) : Reads (locates a).
Proof. destruct a; cbn [locates]; unfold InboxPage._clone_button; reads. Qed.

Lemma Queries_locates (a : action) : Queries (locates a).
Proof.
  unfold Queries. destruct a; cbn [locates]; unfold InboxPage._clone_button;
    traces; reflexivity.
Qed.

Lemma Queries_destination (a : action) : Queries (destination a).
Proof. unfold Queries. destruct a; cbn [destination]; traces; reflexivity. Qed.

(** [attach_receipt], of either class: a click, then the constructor of
    [AttachReceiptPage]; [errors()] is not consulted. *)
Lemma attach_receipt_run (a : action) w e rest :
  is_attach_receipt a = true ->
  drv_css ".attachReceipts" w = e :: rest ->
  perform a w =
  (match drv_css "#doUpload" (drv_click e w) with
   | [] => Raise NoSuchElementException
   | u :: _ =>
       if drv_displayed u (drv_click e w) then Return AttachReceipt
       else Raise FailedTransitionError
   end,
   drv_click e w,
   FindElementByCss ".attachReceipts" :: Click e :: FindElementByCss "#doUpload"
   :: match drv_css "#doUpload" (drv_click e w) with
      | [] => []
      | u :: _ => [IsDisplayed u]
      end).
Proof.
  intros Ha He.
  assert (H : perform a w = ViewAndEditPage.attach_receipt w)
    by (destruct a; try discriminate Ha; reflexivity).
  rewrite H. clear H Ha.
  unfold ViewAndEditPage.attach_receipt, New.AttachReceiptPage, BasePage.init.
  unfold bind, find_element_by_css_selector, first_or_raise, click, is_displayed,
    ret, raise.
  rewrite He. simpl.
  destruct (drv_css "#doUpload" (drv_click e w)) as [ | u us ]; [ reflexivity | ].
  destruct (drv_displayed u (drv_click e w)); reflexivity.
Qed.

End TransitionLemmas.

(** C1, as the code has it.  The actions that call [_pre_transition]
    (Inbox select, SearchForPayee results(i), RequestRfp change_payee and
    save, ViewAndEdit send_to, SendTo return_to_rfp and send, Search
    search and results(i)) locate an element, which only asks the
    browser, and click it; right after the click they read the error
    messages of the page the click led to; if there are some they
    raise [FailedTransitionError] there, with no further call: the
    destination page object is not constructed; if there are none they
    construct it, which again only asks the browser.  When the element
    is not found nothing is clicked or checked.  The two
    [attach_receipt] actions click and then construct the
    [AttachReceiptPage] without consulting [errors()]: they succeed
    exactly when the upload control is displayed. *)
Theorem checked_transitions_raise_on_errors :
  forall {W : Type} {browser : WebDriver W} (a : action),
    (calls_pre_transition a = true ->
     (forall w : W,
        match result (locates a w) with
        | Raise x => perform a w = (Raise x, w, calls (locates a w))
        | Return e =>
            perform a w
            = (match errors_shown (drv_click e w) with
               | [] => result (destination a (drv_click e w))
               | _ :: _ => Raise FailedTransitionError
               end,
               match errors_shown (drv_click e w) with
               | [] => browser_after (destination a (drv_click e w))
               | _ :: _ => drv_click e w
               end,
               (calls (locates a w) ++ Click e :: errors_calls (drv_click e w)
                ++ match errors_shown (drv_click e w) with
                   | [] => calls (destination a (drv_click e w))
                   | _ :: _ => []
                   end)%list)
        end)
     /\ Queries (locates a) /\ Queries (destination a)) /\
    (is_attach_receipt a = true ->
     forall (w : W) e rest,
       drv_css ".attachReceipts" w = e :: rest ->
       perform a w =
       (match drv_css "#doUpload" (drv_click e w) with
        | [] => Raise NoSuchElementException
        | u :: _ =>
            if drv_displayed u (drv_click e w) then Return AttachReceipt
            else Raise FailedTransitionError
        end,
        drv_click e w,
        FindElementByCss ".attachReceipts" :: Click e :: FindElementByCss "#doUpload"
        :: match drv_css "#doUpload" (drv_click e w) with
           | [] => []
           | u :: _ => [IsDisplayed u]
           end)).
Proof.
  intros W browser a. split.
  - intros Ha. split; [ | split; [ apply Queries_locates | apply Queries_destination ] ].
    intros w. rewrite (perform_checked a w Ha).
    rewrite (checked_run (locates a) (destination a) w (Reads_locates a)).
    destruct (result (locates a w)); reflexivity.
  - intros Ha w e rest He. apply (attach_receipt_run a w e rest Ha He).
Qed.

(** A search that ends on a page showing an error message fails, after
    the click, the two lookups of the messages and the text of the one
    shown; the "Attach Receipt" of an RFP showing one opens the
    overlay. *)
Lemma checked_transitions_raise_on_errors_witness :
  perform Search_search (Site.search Site.none_found)
  = (Raise FailedTransitionError, Site.none_found,
     [FindElementByCss "#searchButton"; Click 2;
      FindElementsByCss ".portlet-msg-error"; Text 70;
      FindElementsByCss "label.jqerror"])
  /\ perform ViewAndEdit_attach_receipt Site.edit_with_error
     = (Return AttachReceipt, Site.overlay [70] Site.display,
        [FindElementByCss ".attachReceipts"; Click 52;
         FindElementByCss "#doUpload"; IsDisplayed 40]).
Proof.
  split.
  - assert (L : result (locates Search_search (Site.search Site.none_found)) = Return 2)
      by (vm_compute; reflexivity).
    pose proof (proj1 (proj1 (@checked_transitions_raise_on_errors Dom scripted
                                Search_search) eq_refl)
                  (Site.search Site.none_found)) as H.
    rewrite L in H. rewrite H. vm_compute. reflexivity.
  - etransitivity.
    + apply (proj2 (checked_transitions_raise_on_errors ViewAndEdit_attach_receipt)
               eq_refl Site.edit_with_error 52 []).
      reflexivity.
    + vm_compute. reflexivity.
Defined.

(** C1 as stated fails for [ViewAndEditPage.attach_receipt]: the page
    it ends on after its click shows an error message, and it answers
    the [AttachReceiptPage]. *)
Lemma attach_receipt_ignores_errors :
  clicks (calls (perform ViewAndEdit_attach_receipt Site.edit_with_error)) = 1
  /\ errors_shown (browser_after (perform ViewAndEdit_attach_receipt Site.edit_with_error))
     = ["Amount is required."]
  /\ result (perform ViewAndEdit_attach_receipt Site.edit_with_error)
     = Return AttachReceipt.
Proof. vm_compute. repeat split. Qed.

(** C2, as the code has it.  [search()] clicks the Search button; if
    the page then shows error messages it raises
    [FailedTransitionError]; otherwise it answers a [ViewOnlyPage] when
    the title of that page contains "Display RFP", and the same
    [SearchPage] when it does not. *)
Theorem search_answers_by_title :
  forall {W : Type} {browser : WebDriver W} (w : W) (e : WebElement) rest,
    drv_css "#searchButton" w = e :: rest ->
    SearchPage.search w =
    (match errors_shown (drv_click e w) with
     | _ :: _ => Raise FailedTransitionError
     | [] => Return (if contains "Display RFP" (drv_title (drv_click e w))
                     then ViewOnly else Search)
     end,
     drv_click e w,
     (FindElementByCss "#searchButton" :: Click e :: errors_calls (drv_click e w)
      ++ match errors_shown (drv_click e w) with
         | _ :: _ => []
         | [] => [Title]
         end)%list).
Proof.
  intros W browser w e rest He.
  unfold SearchPage.search, New.ViewOnlyPage, BasePage.init.
  unfold bind at 1. unfold find_element_by_css_selector, first_or_raise. rewrite He.
  unfold bind at 1. unfold click at 1.
  unfold bind at 1. rewrite _pre_transition_run.
  destruct (errors_shown (drv_click e w)).
  - unfold bind, title, ret.
    destruct (contains "Display RFP" (drv_title (drv_click e w))); reflexivity.
  - simpl. rewrite app_nil_r. reflexivity.
Qed.

(** A search leading to the page of one RFP, titled "Display RFP". *)
Lemma search_answers_by_title_witness :
  SearchPage.search (Site.search Site.display)
  = (Return ViewOnly, Site.display,
     [FindElementByCss "#searchButton"; Click 2;
      FindElementsByCss ".portlet-msg-error"; FindElementsByCss "label.jqerror";
      Title]).
Proof.
  etransitivity.
  - apply (search_answers_by_title (Site.search Site.display) 2 []). reflexivity.
  - vm_compute. reflexivity.
Defined.

(** C2 as stated fails where the page shows an error message after
    the click, the case [_pre_transition] is there for: here the search
    page says that nothing matched and lists no result; [search()]
    answers neither page object, it raises [FailedTransitionError]. *)
Lemma search_with_an_error_answers_no_page :
  errors_shown (browser_after (SearchPage.search (Site.search Site.none_found)))
  = ["No RFPs matched your search."]
  /\ result (SearchPage.results
               (browser_after (SearchPage.search (Site.search Site.none_found))))
     = Return []
  /\ result (SearchPage.search (Site.search Site.none_found))
     = Raise FailedTransitionError.
Proof. vm_compute. repeat split. Qed.

(** C8, as the code has it.  Constructing an [AttachReceiptPage]
    locates the upload control "#doUpload".  Where the page has none,
    the lookup raises [NoSuchElementException].  Where it has one that
    is not displayed, the constructor raises [FailedTransitionError],
    and where it is displayed it succeeds; in both cases it has only
    located the control and asked whether it is displayed.  The browser
    is as it was in every case. *)
Theorem AttachReceiptPage_requires_upload_control :
  forall {W : Type} {browser : WebDriver W} (w : W),
    New.AttachReceiptPage w
    = match drv_css "#doUpload" w with
      | [] => (Raise NoSuchElementException, w, [FindElementByCss "#doUpload"])
      | u :: _ =>
          (if drv_displayed u w then Return tt else Raise FailedTransitionError,
           w, [FindElementByCss "#doUpload"; IsDisplayed u])
      end.
Proof.
  intros W browser w.
  unfold New.AttachReceiptPage, BasePage.init.
  unfold bind, find_element_by_css_selector, first_or_raise, is_displayed, ret, raise.
  destruct (drv_css "#doUpload" w) as [ | u us ]; [ reflexivity | ].
  simpl. destruct (drv_displayed u w); reflexivity.
Qed.

(** C8 as stated fails on a page without the upload control, here the
    page of the request on which the overlay has not opened: the
    control is not visible there, and the constructor raises
    [NoSuchElementException], not [FailedTransitionError]. *)
Lemma AttachReceiptPage_without_upload_control :
  drv_css "#doUpload" (Site.request "US" [16] [62] 3 0) = []
  /\ New.AttachReceiptPage (Site.request "US" [16] [62] 3 0)
     = (Raise NoSuchElementException, Site.request "US" [16] [62] 3 0,
        [FindElementByCss "#doUpload"]).
Proof. vm_compute. split; reflexivity. Qed.

(** C10.  [create] without a payee raises [TypeError] at once: the
    browser is untouched and no call has been made on it. *)
Theorem create_without_payee :
  forall {W : Type} {browser : WebDriver W} (w : W) name address line_items
         office_note receipts send_to,
    create name None address line_items office_note receipts send_to w
    = (Raise TypeError, w, []).
Proof. reflexivity. Qed.

(** ** Texts and their whitespace *)

(** [strip] on texts with whitespace beyond ASCII: the unit separator
    U+001F, the no-break space U+00A0, the em space U+2003 and the
    ideographic space U+3000 are removed at both ends, whitespace
    inside stays, and the zero width space U+200B is no whitespace. *)
Lemma strip_examples :
  strip " United States " = "United States"
  /\ strip (utf8 [31] ++ "France" ++ utf8 [31]) = "France"
  /\ strip (utf8 [194; 160] ++ "New York" ++ utf8 [226; 128; 131; 10]) = "New York"
  /\ strip (utf8 [9; 32; 227; 128; 128]) = ""
  /\ strip (utf8 [226; 128; 139] ++ "MA " ++ utf8 [194; 133])
     = utf8 [226; 128; 139] ++ "MA".
Proof. vm_compute. repeat split. Qed.

(** ** Select fields *)

Section SelectLemmas.
Context {W : Type} {browser : WebDriver W}.

#[local] Opaque String.append.

Lemma _select_get_run fragment w :
  BasePage._select_get fragment w =
  match drv_css ("select" ++ fragment ++ " option:checked") w with
  | [] => (Raise NoSuchElementException, w,
           [FindElementByCss ("select" ++ fragment ++ " option:checked")])
  | e :: _ => (Return (strip (drv_text e w)), w,
               [FindElementByCss ("select" ++ fragment ++ " option:checked"); Text e])
  end.
Proof.
  unfold BasePage._select_get, bind, find_element_by_css_selector, first_or_raise,
    text, ret.
  destruct (drv_css ("select" ++ fragment ++ " option:checked") w); reflexivity.
Qed.

(** The set form, step by step. *)
Lemma _select_set_run fragment val w :
  BasePage._select fragment (Some val) w =
  let shown := normalized fragment val w in
  let lookup :=
    FindElementByCss ("select" ++ fragment ++ " option[value='" ++ val ++ "']")
    :: match drv_css ("select" ++ fragment ++ " option[value='" ++ val ++ "']") w with
       | [] => []
       | e :: _ => [Text e]
       end in
  match drv_css ("select" ++ fragment) w with
  | [] => (Raise NoSuchElementException, w,
           (lookup ++ [FindElementByCss ("select" ++ fragment)])%list)
  | sel :: _ =>
      let w' := drv_send_keys sel (shown ++ BasePage.tab) w in
      (match result (BasePage._select_get fragment w') with
       | Return current =>
           if current =? shown then Return None else Raise AssertionError
       | Raise e => Raise e
       end,
       w',
       (lookup ++ FindElementByCss ("select" ++ fragment)
        :: SendKeys sel (shown ++ BasePage.tab)
        :: calls (BasePage._select_get fragment w'))%list)
  end.
Proof.
  unfold BasePage._select, normalized.
  unfold bind at 1. unfold try_except.
  unfold bind at 1. unfold find_element_by_css_selector at 1, first_or_raise.
  destruct (drv_css ("select" ++ fragment ++ " option[value='" ++ val ++ "']") w)
    as [ | e es ].
  - unfold ret at 1. cbv zeta. simpl.
    unfold bind at 1. unfold find_element_by_css_selector at 1, first_or_raise.
    destruct (drv_css ("select" ++ fragment) w) as [ | sel sels ]; [ reflexivity | ].
    unfold bind at 1. unfold send_keys at 1.
    unfold bind at 1. rewrite _select_get_run.
    destruct (drv_css ("select" ++ fragment ++ " option:checked")
                (drv_send_keys sel (val ++ BasePage.tab) w)) as [ | c cs ]; [ reflexivity | ].
    unfold result, calls, bind, assert, ret, raise. simpl.
    destruct (strip (drv_text c (drv_send_keys sel (val ++ BasePage.tab) w)) =? val);
      reflexivity.
  - unfold bind at 1. unfold text at 1. unfold ret at 1. cbv zeta. simpl.
    unfold bind at 1. unfold find_element_by_css_selector at 1, first_or_raise.
    destruct (drv_css ("select" ++ fragment) w) as [ | sel sels ]; [ reflexivity | ].
    unfold bind at 1. unfold send_keys at 1.
    unfold bind at 1. rewrite _select_get_run.
    destruct (drv_css ("select" ++ fragment ++ " option:checked")
                (drv_send_keys sel (strip (drv_text e w) ++ BasePage.tab) w)) as [ | c cs ];
      [ reflexivity | ].
    unfold result, calls, bind, assert, ret, raise. simpl.
    destruct (strip (drv_text c (drv_send_keys sel (strip (drv_text e w) ++ BasePage.tab) w))
              =? strip (drv_text e w)); reflexivity.
Qed.

Lemma typed_app l l' : typed (l ++ l') = (typed l ++ typed l')%list.
Proof.
  induction l as [ | c l IH ]; [ reflexivity | ].
  destruct c; simpl; rewrite IH; reflexivity.
Qed.

Lemma located_app l l' : located (l ++ l') = (located l ++ located l')%list.
Proof.
  induction l as [ | c l IH ]; [ reflexivity | ].
  destruct c; simpl; rewrite IH; reflexivity.
Qed.

Lemma clicks_app l l' : clicks (l ++ l') = clicks l + clicks l'.
Proof.
  induction l as [ | c l IH ]; [ reflexivity | ].
  destruct c; simpl; rewrite IH; reflexivity.
Qed.

End SelectLemmas.

#[local] Opaque String.append.

(** C6.  A successful set of a select field with [val] has sent the
    normalized selection (the stripped display text of the option whose
    value is [val], or [val] itself when no option has that value)
    followed by a tab, and a get then answers that selection.  Setting
    with the display text of that option, when the text is not itself
    the value of an option, has the same outcome and leaves the browser
    in the same state. *)
Theorem select_set_then_get :
  forall {W : Type} {browser : WebDriver W} (fragment val : string) (w : W)
         r w' l,
    BasePage._select fragment (Some val) w = (Return r, w', l) ->
    (typed l = [normalized fragment val w ++ BasePage.tab]
     /\ located l = select_selectors fragment val
     /\ result (BasePage._select fragment None w')
        = Return (Some (normalized fragment val w)))
    /\ (drv_css ("select" ++ fragment ++ " option[value='"
                 ++ normalized fragment val w ++ "']") w = [] ->
        result (BasePage._select fragment (Some (normalized fragment val w)) w)
        = Return r
        /\ browser_after
             (BasePage._select fragment (Some (normalized fragment val w)) w) = w'
        /\ typed (calls (BasePage._select fragment (Some (normalized fragment val w)) w))
           = [normalized fragment val w ++ BasePage.tab]).
Proof.
  intros W browser fragment val w r w' l H.
  assert (Hget : forall w0,
    result (BasePage._select fragment None w0) =
    match result (BasePage._select_get fragment w0) with
    | Return t => Return (Some t)
    | Raise e => Raise e
    end).
  { intros w0. unfold BasePage._select. rewrite bind_ret_map. reflexivity. }
  rewrite _select_set_run in H. cbv zeta in H.
  destruct (drv_css ("select" ++ fragment) w) as [ | sel sels ] eqn:Hsel;
    [ discriminate H | ].
  set (shown := normalized fragment val w) in *.
  set (w1 := drv_send_keys sel (shown ++ BasePage.tab) w) in *.
  assert (Hrun := _select_get_run fragment w1).
  destruct (drv_css ("select" ++ fragment ++ " option:checked") w1) as [ | c cs ] eqn:Hc.
  { rewrite Hrun in H. discriminate H. }
  rewrite Hrun in H. unfold result, calls in H. cbn [fst snd] in H.
  destruct (strip (drv_text c w1) =? shown) eqn:Heq; [ | discriminate H ].
  apply String.eqb_eq in Heq.
  injection H as <- <- <-.
  split; [ split; [ | split ] | ].
  - match goal with
    | |- context [match ?x with [] => [] | _ :: _ => _ end] => destruct x
    end; reflexivity.
  - match goal with
    | |- context [match ?x with [] => [] | _ :: _ => _ end] => destruct x
    end; reflexivity.
  - rewrite Hget, Hrun. unfold result. simpl. rewrite Heq. reflexivity.
  - intros Hnone.
    assert (Hn : normalized fragment shown w = shown)
      by (unfold normalized at 1; rewrite Hnone; reflexivity).
    rewrite _select_set_run. cbv zeta. rewrite Hsel, Hn. fold w1. rewrite Hrun.
    unfold result, browser_after, calls. simpl.
    rewrite Heq, String.eqb_refl, Hnone. repeat split.
Qed.

#[local] Transparent String.append.

(** Setting the country by its code "US", and by its display text. *)
Lemma select_set_then_get_witness :
  result (BasePage._select "#country2" None (Site.request "US" [16] [62] 3 0))
  = Return (Some "United States")
  /\ result (BasePage._select "#country2" (Some "United States")
               (Site.request "US" [16] [62] 3 0))
     = Return None.
Proof.
  pose proof (select_set_then_get "#country2" "US" (Site.request "US" [16] [62] 3 0)
                None (Site.request "US" [16] [62] 3 0) _ eq_refl)
    as [[_ [_ H1]] H2].
  split.
  - vm_compute in H1 |- *. exact H1.
  - specialize (H2 eq_refl). destruct H2 as [H2 _].
    vm_compute in H2 |- *. exact H2.
Defined.

(** ** view *)

(** Inverting a successful run. *)
Ltac bind_inv H :=
  let a := fresh "a" in
  let w1 := fresh "w" in
  let l1 := fresh "l" in
  let l2 := fresh "l" in
  let H1 := fresh "H" in
  apply bind_Return_inv in H;
  destruct H as (a & w1 & l1 & l2 & H1 & H & ->).

Ltac bind_inv_as H a H1 :=
  let w1 := fresh "w" in
  let l1 := fresh "l" in
  let l2 := fresh "l" in
  apply bind_Return_inv in H;
  destruct H as (a & w1 & l1 & l2 & H1 & H & ->).

Section ViewLemmas.
Context {W : Type} {browser : WebDriver W}.

Lemma Reads_inv {A} (m : M W A) w r w' l : Reads m -> m w = (r, w', l) -> w' = w.
Proof. intros Hm H. specialize (Hm w). rewrite H in Hm. exact Hm. Qed.

Lemma getitem_inv {A} (l : list A) i (w : W) a w' c :
  getitem l i w = (Return a, w', c) -> nth_error l i = Some a /\ w' = w /\ c = [].
Proof.
  unfold getitem. destruct (nth_error l i); [ | discriminate ].
  unfold ret. intros H. injection H as <- <- <-. auto.
Qed.

Lemma getitem_last_inv {A} (l : list A) (w : W) a w' c :
  getitem_last l w = (Return a, w', c) ->
  (exists earlier, l = (earlier ++ [a])%list) /\ w' = w /\ c = [].
Proof.
  unfold getitem_last. destruct (rev l) as [ | x xs ] eqn:E; [ discriminate | ].
  unfold ret. intros H. injection H as <- <- <-. repeat split.
  exists (rev xs). rewrite <- (rev_involutive l), E. reflexivity.
Qed.

Lemma text_inv e (w : W) t w' c :
  text e w = (Return t, w', c) -> t = drv_text e w /\ w' = w /\ c = [Text e].
Proof. unfold text. intros H. injection H as <- <- <-. auto. Qed.

Lemma nth_error_skipn {A} (l : list A) i x :
  nth_error l i = Some x -> skipn i l = x :: skipn (S i) l.
Proof.
  revert l. induction i as [ | i IH ]; intros [ | y l ] H; try discriminate H.
  - injection H as <-. reflexivity.
  - simpl in H. apply IH in H. exact H.
Qed.

Lemma Reads_history_rows cells indices : Reads (ViewOnlyPage.history_rows cells indices).
Proof.
  induction indices as [ | i rest IH ]; [ apply Reads_ret | ].
  simpl. repeat reads_step.
Qed.

Lemma Reads_view_line_items indices : Reads (view_line_items indices).
Proof.
  induction indices as [ | i rest IH ]; [ apply Reads_ret | ].
  simpl. reads.
Qed.

#[local] Hint Resolve Reads_history_rows Reads_view_line_items : reads.

Lemma Reads_history : Reads ViewOnlyPage.history.
Proof. reads. Qed.

(** The loop of [view] answers one item per index. *)
Lemma view_line_items_length indices : forall w items w' l,
  view_line_items indices w = (Return items, w', l) ->
  length items = length indices.
Proof.
  induction indices as [ | i rest IH ]; intros w items w' l H.
  - injection H as <- _ _. reflexivity.
  - simpl in H. do 6 bind_inv H. injection H as <- _ _.
    simpl. f_equal. eapply IH. eassumption.
Qed.

(** The loop of [history], over the rows [a], [a + 1], ..., [a + m - 1]. *)
Lemma history_rows_triples cells w : forall m a rows w' l,
  ViewOnlyPage.history_rows cells (map (fun k => 3 * k) (seq a m)) w
  = (Return rows, w', l) ->
  (m <> 0 -> 3 * (a + m) <= length cells)
  /\ rows = triples (map (fun c => drv_text c w) (firstn (3 * m) (skipn (3 * a) cells))).
Proof.
  induction m as [ | m IH ]; intros a rows w' l H.
  - injection H as <- _ _. split; [ intros E; contradiction | reflexivity ].
  - cbn [seq map ViewOnlyPage.history_rows] in H.
    bind_inv H. apply getitem_inv in H0. destruct H0 as (N0 & -> & ->).
    bind_inv H. apply text_inv in H0. destruct H0 as (-> & -> & ->).
    bind_inv H. apply getitem_inv in H0. destruct H0 as (N1 & -> & ->).
    bind_inv H. apply text_inv in H0. destruct H0 as (-> & -> & ->).
    bind_inv H. apply getitem_inv in H0. destruct H0 as (N2 & -> & ->).
    bind_inv H. apply text_inv in H0. destruct H0 as (-> & -> & ->).
    bind_inv H. injection H as <- _ _.
    apply IH in H0. destruct H0 as [Hlen ->].
    assert (L2 : 3 * a + 2 < length cells)
      by (apply nth_error_Some; rewrite N2; discriminate).
    split.
    + intros _. destruct m as [ | m' ]; [ lia | ].
      specialize (Hlen ltac:(discriminate)). lia.
    + rewrite (nth_error_skipn _ _ _ N0).
      replace (S (3 * a)) with (3 * a + 1) by lia.
      rewrite (nth_error_skipn _ _ _ N1).
      replace (S (3 * a + 1)) with (3 * a + 2) by lia.
      rewrite (nth_error_skipn _ _ _ N2).
      replace (S (3 * a + 2)) with (3 * S a) by lia.
      replace (3 * S m) with (S (S (S (3 * m)))) by lia.
      reflexivity.
Qed.

Lemma triples_length l : length l = 3 * length (triples l) + length l mod 3.
Proof.
  assert (H : forall n l, length l <= n ->
                length l = 3 * length (triples l) + length l mod 3).
  { clear l. induction n as [ | n IH ]; intros l Hl.
    - destruct l; [ reflexivity | simpl in Hl; lia ].
    - destruct l as [ | a [ | b [ | c rest ] ] ]; try reflexivity.
      cbn [triples length]. cbn [length] in Hl.
      rewrite (IH rest) at 1 by lia.
      replace (S (S (S (length rest)))) with (length rest + 1 * 3) by lia.
      rewrite Nat.Div0.mod_add. lia. }
  apply (H (length l)). lia.
Qed.

Lemma history_run w rows w' l :
  ViewOnlyPage.history w = (Return rows, w', l) ->
  w' = w
  /\ exists table earlier,
       drv_css ".topHeadersTable" w = (earlier ++ [table])%list
       /\ rows = triples (map (fun c => drv_text c w) (drv_css_in table "td" w))
       /\ length (drv_css_in table "td" w) = 3 * length rows.
Proof.
  intros H. split; [ exact (Reads_inv _ _ _ _ _ Reads_history H) | ].
  unfold ViewOnlyPage.history in H.
  bind_inv_as H tables Ht. unfold find_elements_by_css_selector in Ht.
  injection Ht as <- <- <-.
  bind_inv_as H table Hl. apply getitem_last_inv in Hl.
  destruct Hl as ([earlier E] & -> & ->).
  bind_inv_as H cells' Hc. unfold elem_find_elements_by_css_selector in Hc.
  injection Hc as <- <- <-.
  exists table, earlier. split; [ exact E | ].
  set (cells := drv_css_in table "td" w) in *.
  unfold range3 in H. apply history_rows_triples in H. destruct H as [Hlen ->].
  rewrite skipn_O in *.
  assert (Hdiv : 3 * ((length cells + 2) / 3) <= length cells + 2)
    by (apply Nat.Div0.mul_div_le).
  assert (Hmod : length cells + 2 < 3 * S ((length cells + 2) / 3)).
  { pose proof (Nat.div_mod_eq (length cells + 2) 3).
    pose proof (Nat.mod_upper_bound (length cells + 2) 3). lia. }
  assert (Hexact : 3 * ((length cells + 2) / 3) = length cells).
  { destruct ((length cells + 2) / 3) as [ | k ] eqn:Ek; [ lia | ].
    specialize (Hlen ltac:(discriminate)). lia. }
  rewrite Hexact, firstn_all. split; [ reflexivity | ].
  pose proof (triples_length (map (fun c => drv_text c w) cells)) as T.
  rewrite length_map in T.
  assert (length cells mod 3 = 0).
  { rewrite <- Hexact, Nat.mul_comm. apply Nat.Div0.mod_mul. }
  lia.
Qed.

End ViewLemmas.

#[global] Hint Resolve Reads_history_rows Reads_view_line_items : reads.

(** Inverting a step that reads. *)
Ltac read_inv_as H a H1 :=
  bind_inv_as H a H1;
  match type of H1 with
  | ?m ?w = (_, ?w', _) =>
      let E := fresh "E" in
      assert (E : w' = w)
        by (refine (Reads_inv m w _ w' _ _ H1); reads);
      subst w'
  end.

Ltac read_inv H :=
  let a := fresh "a" in
  let H1 := fresh "H" in
  read_inv_as H a H1; clear H1.

(** C5.  The result of a successful [view] has one line item per
    element ".lineItem" of the page the search ended on, and its history
    is the texts of the cells of the last ".topHeadersTable" of that
    page taken three at a time, in order: the cells are three times as
    many as the history entries. *)
Theorem view_line_items_and_history :
  forall {W : Type} {browser : WebDriver W} (rfp_number : string) (w : W)
         details w' l,
    view rfp_number w = (Return details, w', l) ->
    length (Details.line_items details) = length (drv_css ".lineItem" w')
    /\ exists table earlier,
         drv_css ".topHeadersTable" w' = (earlier ++ [table])%list
         /\ Details.history details
            = triples (map (fun c => drv_text c w') (drv_css_in table "td" w'))
         /\ length (drv_css_in table "td" w') = 3 * length (Details.history details).
Proof.
  intros W browser rfp_number w details w' l H.
  unfold view in H.
  bind_inv_as H u1 H1. bind_inv_as H u2 H2. bind_inv_as H page H3.
  do 19 (read_inv H).
  read_inv_as H n Hn. read_inv_as H items Hitems. read_inv H.
  read_inv_as H rows Hrows.
  injection H as <- <- _. cbn [Details.line_items Details.history].
  split.
  - apply view_line_items_length in Hitems. rewrite Hitems, length_seq.
    unfold ViewOnlyPage.line_item_count, bind, find_elements_by_css_selector, ret in Hn.
    injection Hn as <- _. reflexivity.
  - apply history_run in Hrows. destruct Hrows as [_ Hrows]. exact Hrows.
Qed.

(** The RFP 4500123 of the scripted site: two line items, two history
    rows. *)
Lemma view_line_items_and_history_witness :
  exists details,
    result (view "4500123" (Site.start [] Site.display)) = Return details
    /\ length (Details.line_items details) = 2
    /\ Details.history details
       = [("11/03/2013", "10:15", "Created"); ("11/04/2013", "16:40", "Sent to Alyssa")].
Proof.
  pose proof (view_line_items_and_history "4500123" (Site.start [] Site.display)
                _ _ _ eq_refl) as [H1 (table & earlier & _ & H2 & _)].
  eexists. split; [ reflexivity | ]. split.
  - vm_compute in H1 |- *. exact H1.
  - vm_compute. reflexivity.
Defined.

(** ** create *)

Ltac bind_inv_tr H a H1 l1 :=
  let w1 := fresh "w" in
  let l2 := fresh "rest" in
  apply bind_Return_inv in H;
  destruct H as (a & w1 & l1 & l2 & H1 & H & ->).

Section CreateLemmas.
Context {W : Type} {browser : WebDriver W}.

Lemma Traces_inv {A} P (m : M W A) w r w' l :
  Traces P m -> m w = (r, w', l) -> Forall P l.
Proof. intros Hm H. specialize (Hm w). rewrite H in Hm. exact Hm. Qed.

Lemma Traces_bind_raise {A B} P e (f : A -> M W B) : Traces P (bind (raise e) f).
Proof. intros w. constructor. Qed.

Lemma ret_inv {A} (a b : A) (w w' : W) l :
  ret a w = (Return b, w', l) -> b = a /\ w' = w /\ l = [].
Proof. unfold ret. intros H. injection H as <- <- <-. auto. Qed.

(** *** The loops *)

Lemma Traces_create_line_items bad items :
  bad "#addLine" = false ->
  (forall i, forallb (fun s => negb (bad s)) (line_fields i) = true) ->
  forall i, Traces (avoids bad) (create_line_items i items).
Proof.
  intros Ha Hf. induction items as [ | [[[[d g] c] a] e] rest IH ]; intros i.
  - apply Traces_ret.
  - specialize (Hf i). unfold line_fields in Hf. cbn [forallb] in Hf.
    repeat (apply andb_prop in Hf; destruct Hf as [?H Hf]).
    repeat match goal with
           | H : negb _ = true |- _ => apply negb_true_iff in H
           end.
    cbn [create_line_items].
    unfold RequestRfpPage.date_of_service, RequestRfpPage.gl_account,
      RequestRfpPage.cost_object, RequestRfpPage.amount, RequestRfpPage.explanation,
      RequestRfpPage.add_line.
    traces; try exact I; try assumption. apply IH.
Qed.

Lemma Traces_click_button bad buttons label :
  Traces (avoids bad) (AttachReceiptPage.click_button buttons label).
Proof.
  induction buttons as [ | b bs IHb ]; simpl.
  - apply Traces_raise.
  - traces; try exact I. apply IHb.
Qed.

Lemma Traces_create_attach_receipts bad receipts :
  bad ".attachReceipts" = false -> bad "#doUpload" = false -> bad "#upload" = false ->
  forall page, Traces (avoids bad) (create_attach_receipts page receipts).
Proof.
  intros H1 H2 H3. induction receipts as [ | receipt rest IH ]; intros page.
  - apply Traces_ret.
  - cbn [create_attach_receipts]. unfold page_select_file, page_attach.
    traces; try exact I; try assumption; try apply Traces_click_button; try apply IH.
Qed.

Lemma _textbox_set_inv selector val w r w' l :
  BasePage._textbox selector (Some val) w = (Return r, w', l) ->
  exists e, l = [FindElementByCss selector; Clear e; SendKeys e val].
Proof.
  unfold BasePage._textbox, bind, find_element_by_css_selector, first_or_raise,
    clear, send_keys, ret.
  destruct (drv_css selector w) as [ | e es ]; [ discriminate | ].
  intros H. injection H as _ _ <-. exists e. reflexivity.
Qed.

Lemma add_line_inv w r w' l :
  RequestRfpPage.add_line w = (Return r, w', l) ->
  exists e, l = [FindElementByCss "#addLine"; Click e].
Proof.
  unfold RequestRfpPage.add_line, bind, find_element_by_css_selector, first_or_raise,
    click.
  destruct (drv_css "#addLine" w) as [ | e es ]; [ discriminate | ].
  intros H. injection H as _ _ <-. exists e. reflexivity.
Qed.

#[local] Opaque String.append.

(** What the loop over the line items has looked up and typed. *)
Lemma create_line_items_trace items : forall i w r w' l,
  create_line_items i items w = (Return r, w', l) ->
  located l = line_item_selectors i items /\ typed l = line_item_keys items.
Proof.
  induction items as [ | [[[[d g] c] a] e] rest IH ]; intros i w r w' l H.
  - apply ret_inv in H. destruct H as (_ & _ & ->). split; reflexivity.
  - cbn [create_line_items] in H.
    bind_inv_tr H u0 H0 t0. bind_inv_tr H u1 H1 t1. bind_inv_tr H u2 H2 t2.
    bind_inv_tr H u3 H3 t3. bind_inv_tr H u4 H4 t4. bind_inv_tr H u5 H5 t5.
    apply _textbox_set_inv in H1, H2, H3, H4, H5.
    destruct H1 as [e1 ->], H2 as [e2 ->], H3 as [e3 ->], H4 as [e4 ->], H5 as [e5 ->].
    apply IH in H. destruct H as [Hl Ht].
    cbn [line_item_selectors line_item_keys]. unfold line_fields.
    rewrite !located_app, !typed_app, Hl, Ht.
    destruct (0 <? i)%nat.
    + apply add_line_inv in H0. destruct H0 as [e0 ->]. split; reflexivity.
    + apply ret_inv in H0. destruct H0 as (_ & _ & ->). split; reflexivity.
Qed.

#[local] Transparent String.append.

Lemma line_fields_not_add_line i : ~ In "#addLine" (line_fields i).
Proof. unfold line_fields. simpl. intuition discriminate. Qed.

Lemma count_add_line_selectors items : forall i,
  count_occ string_dec (line_item_selectors i items) "#addLine"
  = if (0 <? i)%nat then length items else length items - 1.
Proof.
  induction items as [ | item rest IH ]; intros i.
  - destruct (0 <? i)%nat; reflexivity.
  - cbn [line_item_selectors length]. rewrite !count_occ_app, IH.
    rewrite (proj1 (count_occ_not_In string_dec _ _) (line_fields_not_add_line i)).
    replace (0 <? i + 1)%nat with true by (symmetry; apply Nat.ltb_lt; lia).
    destruct (0 <? i)%nat; simpl; lia.
Qed.

Lemma add_line_lookups_app l l' :
  add_line_lookups (l ++ l') = add_line_lookups l + add_line_lookups l'.
Proof. unfold add_line_lookups. rewrite located_app. apply count_occ_app. Qed.

Lemma avoids_add_line_lookups l :
  Forall (avoids (String.eqb "#addLine")) l -> add_line_lookups l = 0.
Proof.
  unfold add_line_lookups. induction 1 as [ | c l Hc Hl IH ]; [ reflexivity | ].
  destruct c; try exact IH.
  unfold avoids in Hc. cbn [located count_occ].
  destruct (string_dec selector "#addLine") as [-> | _]; [ | exact IH ].
  rewrite String.eqb_refl in Hc. discriminate Hc.
Qed.

End CreateLemmas.

(** [Traces (avoids bad) m] for a part [m] of [create] and a given
    [bad]. *)
Ltac create_traces_step :=
  match goal with
  | |- Traces _ (bind (raise _) _) => apply Traces_bind_raise
  | |- Traces _ (create_line_items _ _) => apply Traces_create_line_items; intros
  | |- Traces _ (create_attach_receipts _ _) => apply Traces_create_attach_receipts
  | |- Traces _ (AttachReceiptPage.click_button _ _) => apply Traces_click_button
  | |- _ => traces_step
  end.

Ltac create_traces :=
  unfold create, create_search_for_payee, create_mailing_address, create_send_to,
    create_until_address, create_payee_search, create_address_until_state,
    create_recipient_search,
    page_cancel, page_rfp_number, page_send_to;
  autounfold with pages;
  repeat create_traces_step;
  try exact I; try (vm_compute; reflexivity).

(** A successful step of [create] that does not look up "#addLine". *)
Ltac no_add_line H :=
  match type of H with
  | ?m ?w = (_, _, ?l) =>
      let F := fresh "F" in
      assert (F : add_line_lookups l = 0)
        by (apply avoids_add_line_lookups;
            refine (Traces_inv _ m w _ _ _ _ H); create_traces)
  end.

(** C9.  In a successful [create] with N line items, "#addLine" is
    looked up (and so [add_line] called) N - 1 times, none when there
    are no items.  The calls of the loop over the items are a segment of
    the trace, with no [add_line] before or after it; in the segment
    the selectors looked up are, for each item in order, "#addLine"
    unless the item is the first and then its five fields (date, G/L
    account, cost object, amount, explanation), and the keys sent are
    the five values of each item in order. *)
Theorem create_adds_a_line_for_each_further_item :
  forall {W : Type} {browser : WebDriver W} name payee address line_items
         office_note receipts send_to (w : W) n w' l,
    create name payee address line_items office_note receipts send_to w
    = (Return n, w', l) ->
    add_line_lookups l = length line_items - 1
    /\ exists before loop after,
         l = (before ++ loop ++ after)%list
         /\ add_line_lookups before = 0
         /\ add_line_lookups after = 0
         /\ located loop = line_item_selectors 0 line_items
         /\ typed loop = line_item_keys line_items.
Proof.
  intros W browser name payee address line_items office_note receipts send_to
    w n w' l H.
  destruct payee as [[is_mit payee_name] | ]; [ | discriminate H ].
  unfold create in H.
  bind_inv_tr H p Hp t0. apply ret_inv in Hp. destruct Hp as (-> & -> & ->).
  bind_inv_tr H idx H1 t1. bind_inv_tr H u2 H2 t2. bind_inv_tr H u3 H3 t3.
  bind_inv_tr H u4 H4 t4. bind_inv_tr H u5 H5 t5. bind_inv_tr H page6 H6 t6.
  bind_inv_tr H page7 H7 t7. bind_inv_tr H page8 H8 t8. bind_inv_tr H n9 H9 t9.
  bind_inv_tr H u10 H10 t10. apply ret_inv in H. destruct H as (_ & _ & ->).
  no_add_line H1. no_add_line H2. no_add_line H3. no_add_line H5. no_add_line H6.
  no_add_line H7.
  assert (F8 : add_line_lookups t8 = 0).
  { destruct receipts; [ no_add_line H8; assumption | ].
    apply ret_inv in H8. destruct H8 as (_ & _ & ->). reflexivity. }
  no_add_line H9. no_add_line H10.
  apply create_line_items_trace in H4. destruct H4 as [Hl Ht].
  assert (Hloop : add_line_lookups t4 = length line_items - 1).
  { unfold add_line_lookups. rewrite Hl. apply count_add_line_selectors. }
  split.
  - cbn [app]. rewrite !add_line_lookups_app.
    change (add_line_lookups []) with 0. lia.
  - exists (t1 ++ t2 ++ t3)%list, t4, (t5 ++ t6 ++ t7 ++ t8 ++ t9 ++ t10)%list.
    repeat split.
    + cbn [app]. rewrite <- !app_assoc, app_nil_r. reflexivity.
    + rewrite !add_line_lookups_app. lia.
    + rewrite !add_line_lookups_app. lia.
    + exact Hl.
    + exact Ht.
Qed.

(** Two line items on the scripted site: one "Add Line". *)
Lemma create_adds_a_line_for_each_further_item_witness :
  add_line_lookups
    (calls (create "Lunch" (Some (false, "Ben"))
              (Some ["77 Mass Ave"; "Cambridge"; "MA"; "02139"; "US"])
              [("11/01/2013", "420050", "2720209", "12.50", "Sandwiches");
               ("11/02/2013", "420226", "2720209", "7.25", "Coffee")]
              "thanks" ["a.pdf"; "b.pdf"] (Some ("Alyssa", "please approve"))
              Site.us)) = 1.
Proof.
  destruct (create "Lunch" (Some (false, "Ben"))
              (Some ["77 Mass Ave"; "Cambridge"; "MA"; "02139"; "US"])
              [("11/01/2013", "420050", "2720209", "12.50", "Sandwiches");
               ("11/02/2013", "420226", "2720209", "7.25", "Coffee")]
              "thanks" ["a.pdf"; "b.pdf"] (Some ("Alyssa", "please approve"))
              Site.us) as [[[n | e] w'] l] eqn:E.
  - exact (proj1 (create_adds_a_line_for_each_further_item _ _ _ _ _ _ _ _ _ _ _ E)).
  - vm_compute in E. discriminate E.
Defined.

(** ** The mailing address in create *)

Section AddressLemmas.
Context {W : Type} {browser : WebDriver W}.

Lemma hd_error_calls_bind {A B} (m : M W A) (f : A -> M W B) w c :
  hd_error (calls (m w)) = Some c -> hd_error (calls (bind m f w)) = Some c.
Proof.
  intros H. rewrite calls_bind. destruct (result (m w)); [ | exact H ].
  destruct (calls (m w)); [ discriminate H | exact H ].
Qed.

Lemma create_until_address_starts_with_get name is_mit payee_name w :
  hd_error (calls (create_until_address name is_mit payee_name w))
  = Some (Get "https://insidemit-apps.mit.edu/apps/rfp/SelectPayeeReimbursementEntry.action?sapSystemId=PS1").
Proof.
  unfold create_until_address, create_search_for_payee, CreateReimbursementPage.
  do 3 apply hd_error_calls_bind. reflexivity.
Qed.

Lemma create_mailing_address_bad_length index address w :
  address <> [] -> length address <> 4 -> length address <> 5 ->
  create_mailing_address index (Some address) w = (Raise IndexError, w, []).
Proof.
  intros H0 H4 H5.
  destruct address as [ | a [ | b [ | c [ | d [ | e [ | f r ] ] ] ] ] ];
    try reflexivity; simpl in *; contradiction.
Qed.

Lemma bind_ext {A B} (m : M W A) (f g : A -> M W B) w :
  (forall a w', f a w' = g a w') -> bind m f w = bind m g w.
Proof.
  intros H. unfold bind. destruct (m w) as [[[a | e] w1] l1]; [ | reflexivity ].
  rewrite H. reflexivity.
Qed.

(** [create] is its start, up to the RFP name, and then the rest. *)
Lemma create_split name is_mit payee_name address line_items office_note receipts
    send_to w :
  create name (Some (is_mit, payee_name)) address line_items office_note receipts
    send_to w
  = bind (create_until_address name is_mit payee_name)
      (fun index =>
         create_from_address index address line_items office_note receipts send_to) w.
Proof.
  unfold create, create_until_address, create_from_address.
  rewrite bind_ret_l, bind_assoc.
  apply bind_ext. intros index w1. rewrite bind_assoc.
  apply bind_ext. intros u w2. rewrite bind_ret_l. reflexivity.
Qed.

End AddressLemmas.

(** C3, as the code has it.  An empty address tuple is no address.  A
    non-empty one whose length is neither 4 nor 5 makes [create] raise
    [IndexError], but only once it has loaded the entry page, searched
    for and selected the payee and set the RFP name: [create] ends as
    that start of it ends, with its calls and in its browser state, and
    with [IndexError] if the start succeeded (with the exception of the
    start otherwise).  Its first call is the navigation to the entry
    page. *)
Theorem create_checks_address_length_after_payee :
  forall {W : Type} {browser : WebDriver W} name is_mit payee_name address
         line_items office_note receipts send_to (w : W),
    create name (Some (is_mit, payee_name)) (Some []) line_items office_note
      receipts send_to w
    = create name (Some (is_mit, payee_name)) None line_items office_note
        receipts send_to w
    /\ (address <> [] -> length address <> 4 -> length address <> 5 ->
        create name (Some (is_mit, payee_name)) (Some address) line_items
          office_note receipts send_to w
        = (match result (create_until_address name is_mit payee_name w) with
           | Return _ => Raise IndexError
           | Raise e => Raise e
           end,
           browser_after (create_until_address name is_mit payee_name w),
           calls (create_until_address name is_mit payee_name w))
        /\ hd_error
             (calls (create name (Some (is_mit, payee_name)) (Some address)
                       line_items office_note receipts send_to w))
           = Some (Get "https://insidemit-apps.mit.edu/apps/rfp/SelectPayeeReimbursementEntry.action?sapSystemId=PS1")).
Proof.
  intros W browser name is_mit payee_name address line_items office_note receipts
    send_to w.
  split; [ reflexivity | ].
  intros H0 H4 H5.
  assert (E : create name (Some (is_mit, payee_name)) (Some address) line_items
                office_note receipts send_to w
              = (match result (create_until_address name is_mit payee_name w) with
                 | Return _ => Raise IndexError
                 | Raise e => Raise e
                 end,
                 browser_after (create_until_address name is_mit payee_name w),
                 calls (create_until_address name is_mit payee_name w))).
  { rewrite create_split. unfold bind at 1.
    destruct (create_until_address name is_mit payee_name w) as [[[index | e] w1] l1];
      [ | reflexivity ].
    unfold create_from_address, bind at 1.
    rewrite (create_mailing_address_bad_length index address w1 H0 H4 H5).
    unfold result, browser_after, calls. simpl. rewrite app_nil_r. reflexivity. }
  split; [ exact E | ].
  rewrite E. apply create_until_address_starts_with_get.
Qed.

(** A three-element address on the scripted site. *)
Lemma create_checks_address_length_after_payee_witness :
  create "Lunch" (Some (false, "Ben")) (Some ["77 Mass Ave"; "Cambridge"; "US"])
    [] "" [] None Site.us
  = (Raise IndexError,
     browser_after (create_until_address "Lunch" false "Ben" Site.us),
     calls (create_until_address "Lunch" false "Ben" Site.us)).
Proof.
  etransitivity.
  - apply (proj2 (create_checks_address_length_after_payee
                    "Lunch" false "Ben" ["77 Mass Ave"; "Cambridge"; "US"]
                    [] "" [] None Site.us));
      simpl; discriminate.
  - vm_compute. reflexivity.
Defined.

(** C3 as stated fails: with a three-element address [create] has
    loaded the entry page, clicked three times (the payee type, the
    search, the result) and typed the payee and the RFP name when it
    raises [IndexError]; with an empty address it raises nothing. *)
Lemma create_reaches_the_browser_before_the_length_check :
  result (create "Lunch" (Some (false, "Ben"))
            (Some ["77 Mass Ave"; "Cambridge"; "US"]) [] "" [] None Site.us)
  = Raise IndexError
  /\ hd_error (calls (create "Lunch" (Some (false, "Ben"))
                        (Some ["77 Mass Ave"; "Cambridge"; "US"]) [] "" [] None
                        Site.us))
     = Some (Get "https://insidemit-apps.mit.edu/apps/rfp/SelectPayeeReimbursementEntry.action?sapSystemId=PS1")
  /\ clicks (calls (create "Lunch" (Some (false, "Ben"))
                      (Some ["77 Mass Ave"; "Cambridge"; "US"]) [] "" [] None
                      Site.us)) = 3
  /\ typed (calls (create "Lunch" (Some (false, "Ben"))
                     (Some ["77 Mass Ave"; "Cambridge"; "US"]) [] "" [] None
                     Site.us)) = ["Ben"; "Lunch"]
  /\ result (create "Lunch" (Some (false, "Ben")) (Some []) [] "" [] None Site.us)
     = Return "4500123".
Proof. vm_compute. repeat split. Qed.

(** ** Check boxes, radio buttons and optional fields *)

Section FieldLemmas.
Context {W : Type} {browser : WebDriver W}.

(** Locating an element, and going on with it. *)
Lemma bind_find_css {B} selector (k : WebElement -> M W B) w :
  bind (find_element_by_css_selector selector) k w
  = match drv_css selector w with
    | [] => (Raise NoSuchElementException, w, [FindElementByCss selector])
    | e :: _ => (result (k e w), browser_after (k e w),
                 FindElementByCss selector :: calls (k e w))
    end.
Proof.
  unfold bind, find_element_by_css_selector, first_or_raise.
  destruct (drv_css selector w) as [ | e es ]; [ reflexivity | ].
  destruct (k e w) as [[r w'] l]. reflexivity.
Qed.

Lemma bind_find_xpath {B} xpath (k : WebElement -> M W B) w :
  bind (find_element_by_xpath xpath) k w
  = match drv_xpath xpath w with
    | [] => (Raise NoSuchElementException, w, [FindElementByXpath xpath])
    | e :: _ => (result (k e w), browser_after (k e w),
                 FindElementByXpath xpath :: calls (k e w))
    end.
Proof.
  unfold bind, find_element_by_xpath, first_or_raise.
  destruct (drv_xpath xpath w) as [ | e es ]; [ reflexivity | ].
  destruct (k e w) as [[r w'] l]. reflexivity.
Qed.

(** The set form of a check box whose element is [elem], once located. *)
Lemma checkbox_set_run (elem : WebElement) (val : bool) (w : W) :
  (b <- is_selected elem;;
   (if negb (Bool.eqb b val) then click elem else ret tt);;
   b' <- is_selected elem;;
   assert (Bool.eqb b' val);;
   ret (@None bool)) w
  = let w' := if Bool.eqb (drv_selected elem w) val then w else drv_click elem w in
    (if Bool.eqb (drv_selected elem w') val then Return None else Raise AssertionError,
     w',
     (IsSelected elem
      :: (if Bool.eqb (drv_selected elem w) val then [] else [Click elem])
      ++ [IsSelected elem])%list).
Proof.
  unfold bind, is_selected, click, ret, assert, raise. cbv zeta.
  destruct (Bool.eqb (drv_selected elem w) val) eqn:E; cbn [negb].
  - rewrite E. reflexivity.
  - destruct (Bool.eqb (drv_selected elem (drv_click elem w)) val); reflexivity.
Qed.

Lemma _checkbox_set_run selector val w elem rest :
  drv_css selector w = elem :: rest ->
  BasePage._checkbox selector (Some val) w
  = let w' := if Bool.eqb (drv_selected elem w) val then w else drv_click elem w in
    (if Bool.eqb (drv_selected elem w') val then Return None else Raise AssertionError,
     w',
     (FindElementByCss selector :: IsSelected elem
      :: (if Bool.eqb (drv_selected elem w) val then [] else [Click elem])
      ++ [IsSelected elem])%list).
Proof.
  intros H. unfold BasePage._checkbox. rewrite bind_find_css, H.
  rewrite checkbox_set_run. reflexivity.
Qed.

Lemma _radio_get_run group_name w :
  BasePage._radio group_name None w
  = match drv_css ("input[type='radio'][name='" ++ group_name ++ "']:checked") w with
    | [] => (Return None, w,
             [FindElementByCss ("input[type='radio'][name='" ++ group_name ++ "']:checked")])
    | e :: _ => (Return (Some (drv_attribute e "value" w)), w,
                 [FindElementByCss ("input[type='radio'][name='" ++ group_name ++ "']:checked");
                  GetAttribute e "value"])
    end.
Proof.
  unfold BasePage._radio, try_except, bind, find_element_by_css_selector, first_or_raise,
    get_attribute, ret.
  destruct (drv_css ("input[type='radio'][name='" ++ group_name ++ "']:checked") w);
    reflexivity.
Qed.

Lemma _radio_set_run group_name val w :
  BasePage._radio group_name (Some val) w
  = match drv_css ("input[type='radio'][name='" ++ group_name ++ "'][value='" ++ val ++ "']") w with
    | [] => (Raise NoSuchElementException, w,
             [FindElementByCss
                ("input[type='radio'][name='" ++ group_name ++ "'][value='" ++ val ++ "']")])
    | e :: _ => (Return None, drv_click e w,
                 [FindElementByCss
                    ("input[type='radio'][name='" ++ group_name ++ "'][value='" ++ val ++ "']");
                  Click e])
    end.
Proof.
  unfold BasePage._radio, bind, find_element_by_css_selector, first_or_raise, click, ret.
  destruct (drv_css ("input[type='radio'][name='" ++ group_name ++ "'][value='" ++ val ++ "']") w);
    reflexivity.
Qed.

Lemma _datalist_run label w :
  BasePage._datalist label w
  = match drv_xpath (labelled_cell label) w with
    | [] => (Raise NoSuchElementException, w, [FindElementByXpath (labelled_cell label)])
    | e :: _ => (Return (drv_text e w), w,
                 [FindElementByXpath (labelled_cell label); Text e])
    end.
Proof.
  unfold BasePage._datalist, bind, find_element_by_xpath, first_or_raise, text.
  fold (labelled_cell label).
  destruct (drv_xpath (labelled_cell label) w); reflexivity.
Qed.

(** A field read by XPath that is absent is [None]. *)
Lemma optional_xpath_run xpath w :
  try_except
    (e <- find_element_by_xpath xpath;;
     t <- text e;;
     ret (Some t))
    (fun ex => match ex with
               | NoSuchElementException => Some (ret None)
               | _ => None
               end) w
  = match drv_xpath xpath w with
    | [] => (Return None, w, [FindElementByXpath xpath])
    | e :: _ => (Return (Some (drv_text e w)), w, [FindElementByXpath xpath; Text e])
    end.
Proof.
  unfold try_except, bind, find_element_by_xpath, first_or_raise, text, ret.
  destruct (drv_xpath xpath w); reflexivity.
Qed.

Lemma _try_datalist_run label w :
  BasePage._try_datalist label w
  = (match result (BasePage._datalist label w) with
     | Return t => Return (Some t)
     | Raise _ => Return None
     end, w, calls (BasePage._datalist label w)).
Proof.
  unfold BasePage._try_datalist, try_except, bind. rewrite _datalist_run.
  destruct (drv_xpath (labelled_cell label) w); reflexivity.
Qed.

Lemma _clone_button_run rfp w :
  InboxPage._clone_button rfp w
  = (match drv_xpath (row_clone_button rfp) w with
     | [] => Raise NoSuchElementException
     | e :: _ => Return e
     end, w, [FindElementByXpath (row_clone_button rfp)]).
Proof. reflexivity. Qed.

End FieldLemmas.

(** Setting a check box located by [selector] to [val] clicks it only
    when its state differs from [val]: otherwise nothing is clicked and
    the browser stays as it is.  The call answers when the box then
    shows [val], and raises [AssertionError] when it does not (the
    click had no effect). *)
Theorem checkbox_set_clicks_only_to_change :
  forall {W : Type} {browser : WebDriver W} (selector : string) (val : bool) (w : W)
         elem rest,
    drv_css selector w = elem :: rest ->
    browser_after (BasePage._checkbox selector (Some val) w)
    = (if Bool.eqb (drv_selected elem w) val then w else drv_click elem w)
    /\ clicks (calls (BasePage._checkbox selector (Some val) w))
       = (if Bool.eqb (drv_selected elem w) val then 0 else 1)
    /\ result (BasePage._checkbox selector (Some val) w)
       = (if Bool.eqb
               (drv_selected elem
                  (browser_after (BasePage._checkbox selector (Some val) w))) val
          then Return None
          else Raise AssertionError).
Proof.
  intros W browser selector val w elem rest H.
  rewrite (_checkbox_set_run selector val w elem rest H). cbv zeta.
  unfold browser_after, calls, result. cbn [fst snd].
  repeat split.
  destruct (Bool.eqb (drv_selected elem w) val); reflexivity.
Qed.

(** On the form: checking "#parked" clicks it once; the disabled box
    stays unchecked and the call raises. *)
Lemma checkbox_set_clicks_only_to_change_witness :
  (browser_after (BasePage._checkbox "#parked" (Some true) (mkForm [])) = mkForm [1]
   /\ clicks (calls (BasePage._checkbox "#parked" (Some true) (mkForm []))) = 1
   /\ result (BasePage._checkbox "#parked" (Some true) (mkForm [])) = Return None)
  /\ result (BasePage._checkbox "#disabled" (Some true) (mkForm []))
     = Raise AssertionError.
Proof.
  pose proof (@checkbox_set_clicks_only_to_change Form form "#parked" true (mkForm []) 1 []
                ltac:(vm_compute; reflexivity)) as H1.
  pose proof (@checkbox_set_clicks_only_to_change Form form "#disabled" true (mkForm []) 9 []
                ltac:(vm_compute; reflexivity)) as [_ [_ H2]].
  split.
  - vm_compute in H1 |- *. exact H1.
  - vm_compute in H2 |- *. exact H2.
Defined.

(** [InboxPage.mark_for_deletion] is [_checkbox] on the check box of
    the row, located by XPath: where the path finds what a selector
    finds, the two end with the same result, in the same browser state,
    after the same calls on the element. *)
Theorem mark_for_deletion_is_a_checkbox :
  forall {W : Type} {browser : WebDriver W} (rfp selector : string)
         (val : option bool) (w : W),
    drv_xpath (row_checkbox rfp) w = drv_css selector w ->
    result (InboxPage.mark_for_deletion rfp val w)
    = result (BasePage._checkbox selector val w)
    /\ browser_after (InboxPage.mark_for_deletion rfp val w)
       = browser_after (BasePage._checkbox selector val w)
    /\ tl (calls (InboxPage.mark_for_deletion rfp val w))
       = tl (calls (BasePage._checkbox selector val w)).
Proof.
  intros W browser rfp selector val w H.
  unfold InboxPage.mark_for_deletion, BasePage._checkbox. cbv zeta.
  fold (row_checkbox rfp).
  rewrite bind_find_css, bind_find_xpath, H.
  destruct (drv_css selector w) as [ | elem rest ]; repeat split.
Qed.

(** On the form, the check box of the row of RFP 4500123 is also
    "#delete-4500123". *)
Lemma mark_for_deletion_is_a_checkbox_witness :
  result (InboxPage.mark_for_deletion "4500123" (Some true) (mkForm []))
  = result (BasePage._checkbox "#delete-4500123" (Some true) (mkForm []))
  /\ browser_after (InboxPage.mark_for_deletion "4500123" (Some true) (mkForm []))
     = browser_after (BasePage._checkbox "#delete-4500123" (Some true) (mkForm []))
  /\ tl (calls (InboxPage.mark_for_deletion "4500123" (Some true) (mkForm [])))
     = tl (calls (BasePage._checkbox "#delete-4500123" (Some true) (mkForm []))).
Proof.
  apply (mark_for_deletion_is_a_checkbox "4500123" "#delete-4500123" (Some true)
           (mkForm [])).
  vm_compute. reflexivity.
Defined.

(** [mail_check] is the radio group "rfpDocument.mailToMit" inverted:
    setting it to [val] clicks, once, the button whose value is "false"
    for [True] and "true" for [False], and nothing else.  If the
    browser then shows that button as the checked one of the group,
    with the value it was found by, a get answers [val]. *)
Theorem mail_check_inverts_mail_to_mit :
  forall {W : Type} {browser : WebDriver W} (val : bool) (w : W) r w' l,
    RequestRfpPage.mail_check (Some val) w = (Return r, w', l) ->
    exists e,
      hd_error
        (drv_css ("input[type='radio'][name='rfpDocument.mailToMit'][value='"
                  ++ (if val then "false" else "true") ++ "']") w) = Some e
      /\ w' = drv_click e w
      /\ clicks l = 1
      /\ typed l = []
      /\ (hd_error
            (drv_css "input[type='radio'][name='rfpDocument.mailToMit']:checked" w')
          = Some e ->
          drv_attribute e "value" w' = (if val then "false" else "true") ->
          result (RequestRfpPage.mail_check None w') = Return (Some val)).
Proof.
  intros W browser val w r w' l H.
  unfold RequestRfpPage.mail_check in H. cbv zeta in H.
  apply bind_Return_inv in H. destruct H as (a & w1 & l1 & l2 & H1 & H2 & ->).
  unfold ret in H2. injection H2 as _ <- <-.
  rewrite _radio_set_run in H1.
  change ("input[type='radio'][name='" ++ "rfpDocument.mailToMit" ++ "'][value='"
          ++ (if val then "false" else "true") ++ "']")
    with ("input[type='radio'][name='rfpDocument.mailToMit'][value='"
          ++ (if val then "false" else "true") ++ "']") in H1.
  destruct (drv_css ("input[type='radio'][name='rfpDocument.mailToMit'][value='"
                     ++ (if val then "false" else "true") ++ "']") w) as [ | e es ];
    [ discriminate H1 | ].
  injection H1 as _ <- <-. exists e. repeat split.
  intros Hc Hv. unfold RequestRfpPage.mail_check.
  rewrite result_bind, _radio_get_run.
  change ("input[type='radio'][name='" ++ "rfpDocument.mailToMit" ++ "']:checked")
    with "input[type='radio'][name='rfpDocument.mailToMit']:checked".
  destruct (drv_css "input[type='radio'][name='rfpDocument.mailToMit']:checked"
              (drv_click e w)) as [ | c cs ]; [ discriminate Hc | ].
  injection Hc as ->. unfold result, browser_after, ret. cbn [fst snd].
  rewrite Hv. destruct val; reflexivity.
Qed.

(** On the form: mailing the check clicks button 7, of value "false",
    and reads back as [True]. *)
Lemma mail_check_inverts_mail_to_mit_witness :
  RequestRfpPage.mail_check (Some true) (mkForm [6])
  = (Return None, mkForm [7],
     [FindElementByCss "input[type='radio'][name='rfpDocument.mailToMit'][value='false']";
      Click 7])
  /\ result (RequestRfpPage.mail_check None (mkForm [7])) = Return (Some true).
Proof.
  assert (E : RequestRfpPage.mail_check (Some true) (mkForm [6])
              = (Return None, mkForm [7],
                 [FindElementByCss
                    "input[type='radio'][name='rfpDocument.mailToMit'][value='false']";
                  Click 7]))
    by (vm_compute; reflexivity).
  split; [ exact E | ].
  destruct (mail_check_inverts_mail_to_mit true _ _ _ _ E) as (e & He & _ & _ & _ & Hget).
  vm_compute in He. injection He as <-.
  apply Hget; vm_compute; reflexivity.
Defined.

(** With no button of the group checked, the get forms of the radio
    fields answer [None] ([citizen_alien]) and [False] ([is_mit],
    [mail_check]): they do not raise, and [mail_check] answers as it
    does when "Deliver check to MIT address" is checked. *)
Theorem radio_fields_with_nothing_checked :
  forall {W : Type} {browser : WebDriver W} (group_name : string) (w : W),
    drv_css ("input[type='radio'][name='" ++ group_name ++ "']:checked") w = [] ->
    result (BasePage._radio group_name None w) = Return None
    /\ browser_after (BasePage._radio group_name None w) = w
    /\ (group_name = "rfpDocument.payee.usCitizenType" ->
        result (RequestRfpPage.citizen_alien None w) = Return None)
    /\ (group_name = "payeeType" ->
        result (SearchForPayeePage.is_mit None w) = Return (Some false))
    /\ (group_name = "rfpDocument.mailToMit" ->
        result (RequestRfpPage.mail_check None w) = Return (Some false)).
Proof.
  intros W browser group_name w H.
  assert (R : BasePage._radio group_name None w
              = (Return None, w,
                 [FindElementByCss
                    ("input[type='radio'][name='" ++ group_name ++ "']:checked")]))
    by (rewrite _radio_get_run, H; reflexivity).
  split; [ rewrite R; reflexivity | ].
  split; [ rewrite R; reflexivity | ].
  split; [ | split ]; intros ->.
  - unfold RequestRfpPage.citizen_alien. rewrite R. reflexivity.
  - unfold SearchForPayeePage.is_mit. rewrite result_bind, R. reflexivity.
  - unfold RequestRfpPage.mail_check. rewrite result_bind, R. reflexivity.
Qed.

(** On the form with nothing checked. *)
Lemma radio_fields_with_nothing_checked_witness :
  result (RequestRfpPage.mail_check None (mkForm [])) = Return (Some false)
  /\ result (SearchForPayeePage.is_mit None (mkForm [])) = Return (Some false).
Proof.
  split.
  - apply (radio_fields_with_nothing_checked "rfpDocument.mailToMit" (mkForm []));
      reflexivity.
  - apply (radio_fields_with_nothing_checked "payeeType" (mkForm [])); reflexivity.
Defined.

(** [_try_datalist] never raises: it answers [None] exactly when
    [_datalist] raises (which can only be [NoSuchElementException], the
    row being absent) and what [_datalist] answers otherwise, after the
    same calls and without changing the browser. *)
Theorem try_datalist_never_raises :
  forall {W : Type} {browser : WebDriver W} (label : string) (w : W),
    BasePage._try_datalist label w
    = (match result (BasePage._datalist label w) with
       | Return t => Return (Some t)
       | Raise _ => Return None
       end, w, calls (BasePage._datalist label w))
    /\ (result (BasePage._datalist label w) = Raise NoSuchElementException
        \/ exists t, result (BasePage._datalist label w) = Return t).
Proof.
  intros W browser label w. split; [ apply _try_datalist_run | ].
  rewrite _datalist_run.
  destruct (drv_xpath (labelled_cell label) w) as [ | e es ];
    [ left; reflexivity | right; eexists; reflexivity ].
Qed.

(** The twelve optional fields of a displayed RFP always answer, a text
    or [None], and leave the browser as it is. *)
Theorem ViewOnlyPage_optional_fields_answer :
  forall {W : Type} {browser : WebDriver W} (w : W),
    Forall (fun field : M W (option string) =>
              exists v, result (field w) = Return v /\ browser_after (field w) = w)
      [ViewOnlyPage.inbox; ViewOnlyPage.mailing_instructions; ViewOnlyPage.addressee;
       ViewOnlyPage.phone; ViewOnlyPage.address; ViewOnlyPage.city; ViewOnlyPage.state;
       ViewOnlyPage.postal_code; ViewOnlyPage.country; ViewOnlyPage.tax_type;
       ViewOnlyPage.ssn_tin; ViewOnlyPage.office_note].
Proof.
  intros W browser w.
  assert (D : forall label,
             exists v, result (BasePage._try_datalist label w) = Return v
                       /\ browser_after (BasePage._try_datalist label w) = w).
  { intros label. rewrite _try_datalist_run.
    destruct (result (BasePage._datalist label w)); eexists; split; reflexivity. }
  assert (X : forall xpath,
             exists v,
               result
                 (try_except
                    (e <- find_element_by_xpath xpath;; t <- text e;; ret (Some t))
                    (fun ex => match ex with
                               | NoSuchElementException => Some (ret None)
                               | _ => None
                               end) w) = Return v
               /\ browser_after
                    (try_except
                       (e <- find_element_by_xpath xpath;; t <- text e;; ret (Some t))
                       (fun ex => match ex with
                                  | NoSuchElementException => Some (ret None)
                                  | _ => None
                                  end) w) = w).
  { intros xpath. rewrite optional_xpath_run.
    destruct (drv_xpath xpath w); eexists; split; reflexivity. }
  repeat constructor; try apply D; apply X.
Qed.

(** [is_cloneable] never raises and never changes the browser; it
    answers [False] exactly when the row has no "Clone" button, and
    then [clone] raises [NoSuchElementException] without having
    clicked.  When it answers [True], [clone] clicks the first element
    the lookup found, that button, and builds the [ViewAndEditPage]
    from the title alone: it does not look for error messages. *)
Theorem is_cloneable_agrees_with_clone :
  forall {W : Type} {browser : WebDriver W} (rfp : string) (w : W),
    (drv_xpath (row_clone_button rfp) w = []
     /\ InboxPage.is_cloneable rfp w
        = (Return false, w, [FindElementByXpath (row_clone_button rfp)])
     /\ InboxPage.clone rfp w
        = (Raise NoSuchElementException, w, [FindElementByXpath (row_clone_button rfp)]))
    \/ (exists e,
          hd_error (drv_xpath (row_clone_button rfp) w) = Some e
          /\ InboxPage.is_cloneable rfp w
             = (Return true, w, [FindElementByXpath (row_clone_button rfp)])
          /\ InboxPage.clone rfp w
             = (Return (ViewAndEdit
                          (if contains "Payment" (drv_title (drv_click e w)) then 1 else 2)),
                drv_click e w,
                [FindElementByXpath (row_clone_button rfp); Click e; Title])).
Proof.
  intros W browser rfp w.
  unfold InboxPage.is_cloneable, InboxPage.clone, try_except, bind.
  rewrite !_clone_button_run.
  unfold click, New.ViewAndEditPage, New.RequestRfpPage, BasePage.init, bind, title, ret.
  destruct (drv_xpath (row_clone_button rfp) w) as [ | e es ].
  - left. repeat split.
  - right. exists e. repeat split.
Qed.

(** [rfp_types] never answers.  It runs its three [_checkbox] calls
    (so the boxes asked for are clicked) and then raises [NameError]:
    it ends in the browser state and after the calls of the three, with
    their exception if one of them raised. *)
Theorem rfp_types_never_answers :
  forall {W : Type} {browser : WebDriver W} (parked posted deleted : option bool) (w : W),
    SearchPage.rfp_types parked posted deleted w
    = (match result (rfp_types_boxes parked posted deleted w) with
       | Return _ => Raise NameError
       | Raise e => Raise e
       end,
       browser_after (rfp_types_boxes parked posted deleted w),
       calls (rfp_types_boxes parked posted deleted w))
    /\ exists e, result (SearchPage.rfp_types parked posted deleted w) = Raise e.
Proof.
  intros W browser parked posted deleted w.
  assert (E : SearchPage.rfp_types parked posted deleted w
              = (match result (rfp_types_boxes parked posted deleted w) with
                 | Return _ => Raise NameError
                 | Raise e => Raise e
                 end,
                 browser_after (rfp_types_boxes parked posted deleted w),
                 calls (rfp_types_boxes parked posted deleted w))).
  { unfold SearchPage.rfp_types, rfp_types_boxes, bind, raise, ret,
      result, browser_after, calls.
    destruct (BasePage._checkbox "#parked" parked w) as [[[a | e] w1] l1];
      [ | reflexivity ].
    destruct (BasePage._checkbox "#posted" posted w1) as [[[b | e] w2] l2];
      [ | reflexivity ].
    destruct (BasePage._checkbox "#deleted" deleted w2) as [[[c | e] w3] l3];
      reflexivity. }
  split; [ exact E | ].
  rewrite E. unfold result at 1. cbn [fst].
  destruct (result (rfp_types_boxes parked posted deleted w)); eexists; reflexivity.
Qed.

(** ** Buttons, results and rows that are not there *)

Section EdgeLemmas.
Context {W : Type} {browser : WebDriver W}.

(** The loop of [_overlay_button] over buttons none of which shows
    [label], and up to the first that does. *)
Lemma click_button_none buttons label w :
  Forall (fun b => drv_text b w <> label) buttons ->
  AttachReceiptPage.click_button buttons label w
  = (Raise NoSuchElementException, w, map Text buttons).
Proof.
  induction 1 as [ | b bs Hb Hbs IH ]; [ reflexivity | ].
  cbn [AttachReceiptPage.click_button map]. unfold bind, text.
  apply String.eqb_neq in Hb. rewrite Hb, IH. reflexivity.
Qed.

Lemma click_button_first before b after label w :
  Forall (fun b' => drv_text b' w <> label) before ->
  drv_text b w = label ->
  AttachReceiptPage.click_button (before ++ b :: after) label w
  = (Return tt, drv_click b w, (map Text before ++ [Text b; Click b])%list).
Proof.
  intros Hbefore Hb. induction Hbefore as [ | b' bs Hb' Hbs IH ].
  - cbn [app AttachReceiptPage.click_button map]. unfold bind, text.
    apply String.eqb_eq in Hb. rewrite Hb. reflexivity.
  - cbn [app AttachReceiptPage.click_button map]. unfold bind, text.
    apply String.eqb_neq in Hb'. rewrite Hb', IH. reflexivity.
Qed.

Lemma bind_find_elements_css {B} selector (k : list WebElement -> M W B) w :
  bind (find_elements_by_css_selector selector) k w
  = (result (k (drv_css selector w) w), browser_after (k (drv_css selector w) w),
     FindElementsByCss selector :: calls (k (drv_css selector w) w)).
Proof.
  unfold bind, find_elements_by_css_selector.
  destruct (k (drv_css selector w) w) as [[r w'] l]. reflexivity.
Qed.

Lemma bind_find_elements_xpath {B} xpath (k : list WebElement -> M W B) w :
  bind (find_elements_by_xpath xpath) k w
  = (result (k (drv_xpath xpath w) w), browser_after (k (drv_xpath xpath w) w),
     FindElementsByXpath xpath :: calls (k (drv_xpath xpath w) w)).
Proof.
  unfold bind, find_elements_by_xpath.
  destruct (k (drv_xpath xpath w) w) as [[r w'] l]. reflexivity.
Qed.

Lemma getitem_out_of_range {A B} (l : list A) i (k : A -> M W B) w :
  length l <= i -> bind (getitem l i) k w = (Raise IndexError, w, []).
Proof.
  intros H. unfold bind, getitem.
  rewrite (proj2 (nth_error_None l i) H). reflexivity.
Qed.

(** A cell of a row, by position. *)
Lemma row_cell_out_of_range rfp i w :
  length (drv_xpath (row_cells rfp) w) <= i ->
  (cells <- BasePage._row_element rfp;; c <- getitem cells i;; text c) w
  = (Raise IndexError, w, [FindElementsByXpath (row_cells rfp)]).
Proof.
  intros H. unfold BasePage._row_element. fold (row_cells rfp).
  rewrite bind_find_elements_xpath, getitem_out_of_range by exact H. reflexivity.
Qed.

(** *** The exceptions a computation can end in *)

Lemma raises_only_ret {A} allowed (a : A) : raises_only allowed (ret (W:=W) a).
Proof. intros w. exact I. Qed.

Lemma raises_only_raise {A} allowed e :
  In e allowed -> raises_only allowed (raise (W:=W) (A:=A) e).
Proof. intros H w. exact H. Qed.

Lemma raises_only_bind {A B} allowed (m : M W A) (f : A -> M W B) :
  raises_only allowed m -> (forall a, raises_only allowed (f a)) ->
  raises_only allowed (bind m f).
Proof.
  intros Hm Hf w. rewrite result_bind. specialize (Hm w).
  destruct (result (m w)); [ apply Hf | exact Hm ].
Qed.

(** [try: m  except e0: h] *)
Lemma raises_only_try_except {A} allowed e0 (m : M W A) handler h :
  handler e0 = Some h -> (forall e, e <> e0 -> handler e = None) ->
  raises_only (e0 :: allowed) m -> raises_only allowed h ->
  raises_only allowed (try_except m handler).
Proof.
  intros H0 Hother Hm Hh w. unfold try_except. specialize (Hm w).
  destruct (m w) as [[[a | e] w1] l1]; [ exact I | ].
  unfold result in Hm. cbn [fst] in Hm.
  assert (D : e = e0 \/ e <> e0) by (destruct e, e0; auto; right; discriminate).
  destruct D as [-> | D].
  - rewrite H0. specialize (Hh w1). destruct (h w1) as [[r w2] l2]. exact Hh.
  - rewrite (Hother e D). destruct Hm as [Hm | Hm]; [ congruence | exact Hm ].
Qed.

Lemma raises_only_assert allowed c :
  In AssertionError allowed -> raises_only allowed (assert (W:=W) c).
Proof.
  intros H. destruct c; [ apply raises_only_ret | apply raises_only_raise, H ].
Qed.

Lemma raises_only_getitem {A} allowed (l : list A) i :
  In IndexError allowed -> raises_only allowed (getitem (W:=W) l i).
Proof.
  intros H. unfold getitem.
  destruct (nth_error l i); [ apply raises_only_ret | apply raises_only_raise, H ].
Qed.

Lemma raises_only_getitem_last {A} allowed (l : list A) :
  In IndexError allowed -> raises_only allowed (getitem_last (W:=W) l).
Proof.
  intros H. unfold getitem_last.
  destruct (rev l); [ apply raises_only_raise, H | apply raises_only_ret ].
Qed.

Lemma raises_only_first_or_raise allowed (found : W -> list WebElement) c :
  In NoSuchElementException allowed ->
  raises_only allowed (fun w => first_or_raise c (found w) w).
Proof. intros H w. unfold first_or_raise, result. simpl. destruct (found w); auto. Qed.

Lemma raises_only_find_element_by_css_selector allowed s :
  In NoSuchElementException allowed ->
  raises_only allowed (find_element_by_css_selector s).
Proof. apply raises_only_first_or_raise. Qed.

Lemma raises_only_find_element_by_xpath allowed s :
  In NoSuchElementException allowed -> raises_only allowed (find_element_by_xpath s).
Proof. apply raises_only_first_or_raise. Qed.

Lemma raises_only_elem_find_element_by_css_selector allowed e s :
  In NoSuchElementException allowed ->
  raises_only allowed (elem_find_element_by_css_selector e s).
Proof. apply raises_only_first_or_raise. Qed.

(** The other calls answer. *)
Lemma raises_only_answers {A} allowed (m : M W A) :
  (forall w, exists a, result (m w) = Return a) -> raises_only allowed m.
Proof. intros H w. destruct (H w) as [a ->]. exact I. Qed.

Lemma raises_only_texts allowed es : raises_only allowed (texts es).
Proof.
  apply raises_only_answers. intros w. rewrite texts_run. eexists. reflexivity.
Qed.

Lemma raises_only_stripped_texts allowed es : raises_only allowed (stripped_texts es).
Proof.
  apply raises_only_answers. intros w. rewrite stripped_texts_run. eexists. reflexivity.
Qed.

Lemma raises_only_inv {A} allowed (m : M W A) w e w' l :
  raises_only allowed m -> m w = (Raise e, w', l) -> In e allowed.
Proof. intros Hm H. specialize (Hm w). rewrite H in Hm. exact Hm. Qed.

End EdgeLemmas.

(** [raises_only allowed m], for [m] built from driver calls: what is
    left is that [allowed] holds the exceptions raised. *)
Ltac raises_step :=
  match goal with
  | |- raises_only _ (bind _ _) => apply raises_only_bind; [ | intros ]
  | |- raises_only _ (try_except _ _) =>
      first
        [ eapply (raises_only_try_except _ NoSuchElementException);
          [ reflexivity
          | let e := fresh "e" in let He := fresh "He" in
            intros e He; destruct e; try reflexivity; contradiction He; reflexivity
          | | ]
        | eapply (raises_only_try_except _ NameError);
          [ reflexivity
          | let e := fresh "e" in let He := fresh "He" in
            intros e He; destruct e; try reflexivity; contradiction He; reflexivity
          | | ] ]
  | |- raises_only _ (ret _) => apply raises_only_ret
  | |- raises_only _ (raise _) => apply raises_only_raise
  | |- raises_only _ (assert _) => apply raises_only_assert
  | |- raises_only _ (getitem _ _) => apply raises_only_getitem
  | |- raises_only _ (getitem_last _) => apply raises_only_getitem_last
  | |- raises_only _ (find_element_by_css_selector _) =>
      apply raises_only_find_element_by_css_selector
  | |- raises_only _ (find_element_by_xpath _) => apply raises_only_find_element_by_xpath
  | |- raises_only _ (elem_find_element_by_css_selector _ _) =>
      apply raises_only_elem_find_element_by_css_selector
  | |- raises_only _ (texts _) => apply raises_only_texts
  | |- raises_only _ (stripped_texts _) => apply raises_only_stripped_texts
  | |- raises_only _ (get _) => apply raises_only_answers; intros; eexists; reflexivity
  | |- raises_only _ title => apply raises_only_answers; intros; eexists; reflexivity
  | |- raises_only _ (find_elements_by_css_selector _) =>
      apply raises_only_answers; intros; eexists; reflexivity
  | |- raises_only _ (find_elements_by_xpath _) =>
      apply raises_only_answers; intros; eexists; reflexivity
  | |- raises_only _ (elem_find_elements_by_css_selector _ _) =>
      apply raises_only_answers; intros; eexists; reflexivity
  | |- raises_only _ (text _) => apply raises_only_answers; intros; eexists; reflexivity
  | |- raises_only _ (get_attribute _ _) =>
      apply raises_only_answers; intros; eexists; reflexivity
  | |- raises_only _ (is_selected _) =>
      apply raises_only_answers; intros; eexists; reflexivity
  | |- raises_only _ (is_displayed _) =>
      apply raises_only_answers; intros; eexists; reflexivity
  | |- raises_only _ (click _) => apply raises_only_answers; intros; eexists; reflexivity
  | |- raises_only _ (clear _) => apply raises_only_answers; intros; eexists; reflexivity
  | |- raises_only _ (send_keys _ _) =>
      apply raises_only_answers; intros; eexists; reflexivity
  | |- raises_only _ (match ?x with _ => _ end) => destruct x
  | |- In _ _ => solve [ simpl; auto 10 ]
  end.

Ltac raises := autounfold with pages; repeat raises_step.

Section HistoryLemmas.
Context {W : Type} {browser : WebDriver W}.

Lemma raises_only_history_rows cells indices :
  raises_only [IndexError] (ViewOnlyPage.history_rows (W:=W) cells indices).
Proof.
  induction indices as [ | i rest IH ]; [ apply raises_only_ret | ].
  cbn [ViewOnlyPage.history_rows]. repeat raises_step. exact IH.
Qed.

Lemma raises_only_history : raises_only [IndexError] (ViewOnlyPage.history (W:=W)).
Proof.
  unfold ViewOnlyPage.history. repeat raises_step. apply raises_only_history_rows.
Qed.

End HistoryLemmas.

(** When no button of the overlay shows the text asked for,
    [_overlay_button] raises [NoSuchElementException]: it has read the
    text of every button and has clicked nothing. *)
Theorem overlay_button_not_found :
  forall {W : Type} {browser : WebDriver W} (label : string) (w : W),
    Forall (fun b => drv_text b w <> label) (drv_css ".ui-dialog button" w) ->
    AttachReceiptPage._overlay_button label w
    = (Raise NoSuchElementException, w,
       FindElementsByCss ".ui-dialog button"
       :: map Text (drv_css ".ui-dialog button" w)).
Proof.
  intros W browser label w H.
  unfold AttachReceiptPage._overlay_button.
  rewrite bind_find_elements_css. unfold bind.
  rewrite (click_button_none _ _ _ H). reflexivity.
Qed.

(** The overlay of the scripted site has the buttons "Attach" and
    "Cancel", none "Save". *)
Lemma overlay_button_not_found_witness :
  AttachReceiptPage._overlay_button "Save" (Site.overlay [] Site.display)
  = (Raise NoSuchElementException, Site.overlay [] Site.display,
     [FindElementsByCss ".ui-dialog button"; Text 41; Text 42]).
Proof.
  etransitivity.
  - apply (overlay_button_not_found "Save" (Site.overlay [] Site.display)).
    repeat constructor; vm_compute; discriminate.
  - vm_compute. reflexivity.
Defined.

(** [_overlay_button] clicks the first button that shows the text, and
    it alone: the buttons after it are not read.  The page object it
    answers depends on the title after the click only, a
    [ViewOnlyPage] if it contains "Display RFP" and a
    [ViewAndEditPage] otherwise (whose constructor reads the title
    again); error messages are not looked for. *)
Theorem overlay_button_clicks_first_match :
  forall {W : Type} {browser : WebDriver W} (label : string) (w : W) before b after,
    drv_css ".ui-dialog button" w = (before ++ b :: after)%list ->
    Forall (fun b' => drv_text b' w <> label) before ->
    drv_text b w = label ->
    AttachReceiptPage._overlay_button label w
    = (Return (if contains "Display RFP" (drv_title (drv_click b w))
               then ViewOnly
               else ViewAndEdit
                      (if contains "Payment" (drv_title (drv_click b w)) then 1 else 2)),
       drv_click b w,
       (FindElementsByCss ".ui-dialog button"
        :: map Text before
        ++ [Text b; Click b; Title]
        ++ (if contains "Display RFP" (drv_title (drv_click b w)) then [] else [Title]))%list).
Proof.
  intros W browser label w before b after Hcss Hbefore Hb.
  unfold AttachReceiptPage._overlay_button.
  rewrite bind_find_elements_css, Hcss.
  unfold New.ViewOnlyPage, New.ViewAndEditPage, New.RequestRfpPage, BasePage.init,
    bind, title, ret, result, browser_after, calls.
  rewrite (click_button_first _ _ _ _ _ Hbefore Hb).
  destruct (contains "Display RFP" (drv_title (drv_click b w)));
    cbn [fst snd app]; rewrite <- app_assoc; reflexivity.
Qed.

(** "Cancel" is the second button of the overlay of the scripted site;
    it leads to the displayed RFP. *)
Lemma overlay_button_clicks_first_match_witness :
  AttachReceiptPage.cancel (Site.overlay [] Site.display)
  = (Return ViewOnly, Site.display,
     [FindElementsByCss ".ui-dialog button"; Text 41; Text 42; Click 42; Title]).
Proof.
  etransitivity.
  - apply (overlay_button_clicks_first_match "Cancel" (Site.overlay [] Site.display)
             [41] 42 []).
    + reflexivity.
    + repeat constructor; vm_compute; discriminate.
    + reflexivity.
  - vm_compute. reflexivity.
Defined.

(** Selecting a search result that is not there raises [IndexError]
    before anything is clicked: for the payee search, the recipient
    search and the search for RFPs. *)
Theorem results_out_of_range :
  forall {W : Type} {browser : WebDriver W} (index : nat) (w : W),
    (length (drv_css "#mit a" w) <= index ->
     SearchForPayeePage.results_at index w
     = (Raise IndexError, w, [FindElementsByCss "#mit a"]))
    /\ (length (drv_css "td.data label[for^='addressee-']" w) <= index ->
        SendToPage.results_at index w
        = (Raise IndexError, w, [FindElementsByCss "td.data label[for^='addressee-']"]))
    /\ (length (drv_css "td.data a[href^='SearchDrillDown']" w) <= index ->
        SearchPage.results_at index w
        = (Raise IndexError, w,
           [FindElementsByCss "td.data a[href^='SearchDrillDown']"])).
Proof.
  intros W browser index w. repeat split; intros H.
  - unfold SearchForPayeePage.results_at.
    rewrite bind_find_elements_css, getitem_out_of_range by exact H. reflexivity.
  - unfold SendToPage.results_at.
    rewrite bind_find_elements_css, getitem_out_of_range by exact H. reflexivity.
  - unfold SearchPage.results_at.
    rewrite bind_find_elements_css, getitem_out_of_range by exact H. reflexivity.
Qed.

(** The second of one result, on the scripted site. *)
Lemma results_out_of_range_witness :
  SearchPage.results_at 1 Site.one_listed
  = (Raise IndexError, Site.one_listed,
     [FindElementsByCss "td.data a[href^='SearchDrillDown']"])
  /\ SendToPage.results_at 0 (Site.send_to_results [])
     = (Raise IndexError, Site.send_to_results [],
        [FindElementsByCss "td.data label[for^='addressee-']"])
  /\ SearchForPayeePage.results_at 2 (Site.payee_search [5; 6] Site.display [])
     = (Raise IndexError, Site.payee_search [5; 6] Site.display [],
        [FindElementsByCss "#mit a"]).
Proof.
  split; [ | split ].
  - apply (proj2 (proj2 (results_out_of_range 1 Site.one_listed))).
    vm_compute. apply le_n.
  - apply (proj1 (proj2 (results_out_of_range 0 (Site.send_to_results [])))).
    vm_compute. apply le_n.
  - apply (proj1 (results_out_of_range 2 (Site.payee_search [5; 6] Site.display []))).
    vm_compute. apply le_n.
Defined.

(** The fields of a table row are read by position.  For an RFP that
    the table does not list, every one of them raises [IndexError]
    (the row is the empty list of cells), whereas [select], [clone] and
    [mark_for_deletion] raise [NoSuchElementException]; none touches
    the browser. *)
Theorem row_fields_of_an_unlisted_rfp :
  forall {W : Type} {browser : WebDriver W} (rfp : string) (w : W),
    drv_xpath (row_cells rfp) w = [] ->
    Forall (fun field : string -> M W string =>
              field rfp w = (Raise IndexError, w, [FindElementsByXpath (row_cells rfp)]))
      [InboxPage.creation_date; InboxPage.payee; InboxPage.created_by;
       InboxPage.cost_object; InboxPage.amount;
       SearchPage.result_creation_date; SearchPage.result_payee;
       SearchPage.result_created_by; SearchPage.result_rfp_name;
       SearchPage.result_location_status; SearchPage.result_cost_object;
       SearchPage.result_amount]
    /\ InboxPage.is_deletable rfp w
       = (Raise IndexError, w, [FindElementsByXpath (row_cells rfp)])
    /\ InboxPage.receipt rfp w
       = (Raise IndexError, w, [FindElementsByXpath (row_cells rfp)]).
Proof.
  intros W browser rfp w H.
  assert (L : forall i, length (drv_xpath (row_cells rfp) w) <= i)
    by (intros i; rewrite H; apply Nat.le_0_l).
  split; [ | split ].
  - repeat constructor; apply row_cell_out_of_range, L.
  - unfold InboxPage.is_deletable, BasePage._row_element. fold (row_cells rfp).
    rewrite bind_find_elements_xpath, getitem_out_of_range by apply L. reflexivity.
  - unfold InboxPage.receipt, BasePage._row_element. fold (row_cells rfp).
    rewrite bind_find_elements_xpath, getitem_out_of_range by apply L. reflexivity.
Qed.

(** The displayed RFP of the scripted site has no table of RFPs. *)
Lemma row_fields_of_an_unlisted_rfp_witness :
  InboxPage.payee "4500123" Site.display
  = (Raise IndexError, Site.display, [FindElementsByXpath (row_cells "4500123")])
  /\ InboxPage.is_deletable "4500123" Site.display
     = (Raise IndexError, Site.display, [FindElementsByXpath (row_cells "4500123")]).
Proof.
  destruct (@row_fields_of_an_unlisted_rfp Dom scripted "4500123" Site.display
              ltac:(vm_compute; reflexivity))
    as [F [D _]].
  split; [ | exact D ].
  inversion F as [ | ? ? _ F1 ]. inversion F1 as [ | ? ? P _ ]. exact P.
Defined.

(** [history] reads the cells of the last ".topHeadersTable" three at a
    time: when their number is not a multiple of three, or the page has
    no such table, it raises [IndexError], and the rows read so far are
    lost; the browser is not changed. *)
Theorem history_of_a_ragged_table :
  forall {W : Type} {browser : WebDriver W} (w : W),
    (drv_css ".topHeadersTable" w = []
     \/ exists table earlier,
          drv_css ".topHeadersTable" w = (earlier ++ [table])%list
          /\ length (drv_css_in table "td" w) mod 3 <> 0) ->
    result (ViewOnlyPage.history w) = Raise IndexError
    /\ browser_after (ViewOnlyPage.history w) = w.
Proof.
  intros W browser w H.
  split; [ | apply Reads_history ].
  destruct (ViewOnlyPage.history w) as [[[rows | e] w'] l] eqn:E.
  - exfalso. apply history_run in E.
    destruct E as (_ & table' & earlier' & Hcss & _ & Hlen).
    destruct H as [H | (table & earlier & H & Hmod)].
    + rewrite H in Hcss. destruct earlier'; discriminate Hcss.
    + rewrite H in Hcss. apply app_inj_tail in Hcss. destruct Hcss as [_ ->].
      apply Hmod. rewrite Hlen, Nat.mul_comm. apply Nat.Div0.mod_mul.
  - pose proof (raises_only_inv _ _ _ _ _ _ raises_only_history E) as [<- | []].
    reflexivity.
Qed.

(** A history table of four cells. *)
Lemma history_of_a_ragged_table_witness :
  result (ViewOnlyPage.history
            (mkDom "Display RFP" [(".topHeadersTable", [30])] []
               [(30, "td", [310; 311; 312; 313])] [] [] []))
  = Raise IndexError
  /\ result (ViewOnlyPage.history Site.one_listed) = Raise IndexError.
Proof.
  split.
  - apply (history_of_a_ragged_table
             (mkDom "Display RFP" [(".topHeadersTable", [30])] []
                [(30, "td", [310; 311; 312; 313])] [] [] [])).
    right. exists 30, []. split; [ reflexivity | vm_compute; discriminate ].
  - apply (history_of_a_ragged_table Site.one_listed). left. reflexivity.
Defined.

(** ** view, and the fields that are read *)

#[global] Hint Unfold
  BasePage.info BasePage.success BasePage._row_element
  InboxPage.is_deletable InboxPage.mark_for_deletion InboxPage.is_cloneable
  InboxPage.receipt InboxPage.creation_date InboxPage.payee InboxPage.created_by
  InboxPage.cost_object InboxPage.amount InboxPage.list
  RequestRfpPage.line_item_count RequestRfpPage.citizen_alien RequestRfpPage.mail_check
  RequestRfpPage.hold_check
  ViewAndEditPage.payee ViewAndEditPage.charge_to ViewAndEditPage.ssn_tin
  SearchPage.result_creation_date SearchPage.result_payee SearchPage.result_created_by
  SearchPage.result_rfp_name SearchPage.result_location_status
  SearchPage.result_cost_object SearchPage.result_amount
  : pages.

Section ViewRunLemmas.
Context {W : Type} {browser : WebDriver W}.

Lemma queries_typed l : Forall (fun c => is_query c = true) l -> typed l = [].
Proof.
  induction 1 as [ | c l Hc Hl IH ]; [ reflexivity | ].
  destruct c; try exact IH; discriminate Hc.
Qed.

Lemma queries_clicks l : Forall (fun c => is_query c = true) l -> clicks l = 0.
Proof.
  induction 1 as [ | c l Hc Hl IH ]; [ reflexivity | ].
  destruct c; try exact IH; discriminate Hc.
Qed.

Lemma errors_calls_queries (w : W) : Forall (fun c => is_query c = true) (errors_calls w).
Proof.
  unfold errors_calls. constructor; [ reflexivity | ].
  apply Forall_app. split.
  - apply Forall_forall. intros c Hc. apply in_map_iff in Hc.
    destruct Hc as [e [<- _]]. reflexivity.
  - constructor; [ reflexivity | ].
    apply Forall_forall. intros c Hc. apply in_map_iff in Hc.
    destruct Hc as [e [<- _]]. reflexivity.
Qed.

Lemma Traces_history_rows_queries cells indices :
  Traces (fun c => is_query c = true) (ViewOnlyPage.history_rows (W:=W) cells indices).
Proof.
  induction indices as [ | i rest IH ]; [ apply Traces_ret | ].
  cbn [ViewOnlyPage.history_rows]. repeat traces_step; try reflexivity. exact IH.
Qed.

Lemma Traces_view_line_items_queries indices :
  Traces (fun c => is_query c = true) (view_line_items (W:=W) indices).
Proof.
  induction indices as [ | i rest IH ]; [ apply Traces_ret | ].
  cbn [view_line_items]. traces; try reflexivity. exact IH.
Qed.

Lemma assert_inv c (w : W) u w' l :
  assert c w = (Return u, w', l) -> c = true /\ w' = w /\ l = [].
Proof.
  destruct c; [ | discriminate ]. unfold assert, ret.
  intros H. injection H as _ <- <-. auto.
Qed.

(** [SearchPage.search], step by step. *)
Lemma search_run w :
  SearchPage.search w
  = match drv_css "#searchButton" w with
    | [] => (Raise NoSuchElementException, w, [FindElementByCss "#searchButton"])
    | e :: _ =>
        (match errors_shown (drv_click e w) with
         | [] => Return (if contains "Display RFP" (drv_title (drv_click e w))
                         then ViewOnly else Search)
         | _ :: _ => Raise FailedTransitionError
         end,
         drv_click e w,
         (FindElementByCss "#searchButton" :: Click e
          :: errors_calls (drv_click e w)
          ++ match errors_shown (drv_click e w) with
             | [] => [Title]
             | _ :: _ => []
             end)%list)
    end.
Proof.
  unfold SearchPage.search. rewrite bind_find_css.
  destruct (drv_css "#searchButton" w) as [ | e es ]; [ reflexivity | ].
  unfold bind, click. rewrite _pre_transition_run.
  destruct (errors_shown (drv_click e w)) as [ | m ms ].
  - unfold title, New.ViewOnlyPage, BasePage.init, bind, ret, result, browser_after, calls.
    destruct (contains "Display RFP" (drv_title (drv_click e w))); reflexivity.
  - unfold result, browser_after, calls. cbn [fst snd app].
    rewrite app_nil_r. reflexivity.
Qed.

(** A successful start of [view]. *)
Lemma view_search_inv rfp_number w page w' l :
  view_search rfp_number w = (Return page, w', l) ->
  hd_error l
  = Some (Get "https://insidemit-apps.mit.edu/apps/rfp/SearchEntry.action?sapSystemId=PS1")
  /\ typed l = [rfp_number]
  /\ clicks l = 1
  /\ errors_shown w' = []
  /\ page = (if contains "Display RFP" (drv_title w') then ViewOnly else Search).
Proof.
  intros H. unfold view_search in H.
  bind_inv_tr H u1 H1 t1. bind_inv_tr H u2 H2 t2.
  unfold New.SearchPage, BasePage.init, get in H1. injection H1 as _ <- <-.
  apply _textbox_set_inv in H2. destruct H2 as [e2 ->].
  rewrite search_run in H.
  match type of H with
  | context [drv_css "#searchButton" ?x] =>
      destruct (drv_css "#searchButton" x) as [ | e es ]; [ discriminate H | ];
      destruct (errors_shown (drv_click e x)) as [ | m ms ] eqn:E; [ | discriminate H ];
      pose proof (errors_calls_queries (drv_click e x)) as Q;
      remember (errors_calls (drv_click e x)) as checks eqn:Echecks; clear Echecks
  end.
  injection H as <- <- <-.
  split; [ reflexivity | ].
  cbn [app typed clicks]. rewrite typed_app, clicks_app.
  rewrite (queries_typed _ Q), (queries_clicks _ Q).
  repeat split. exact E.
Qed.

(** [view] is its search and then the reading of the page, which only
    asks, and gives up at once on a page object that is not a
    [ViewOnlyPage]. *)
Lemma view_split rfp_number :
  exists k : Page -> M W Details.t,
    (forall w, view rfp_number w = bind (view_search rfp_number) k w)
    /\ (forall w, k Search w = (Raise AssertionError, w, []))
    /\ (forall page, Traces (fun c => is_query c = true) (k page))
    /\ (forall page, Reads (k page)).
Proof.
  eexists. split; [ | split; [ | split ] ].
  - intros w. unfold view, view_search. rewrite bind_assoc.
    apply bind_ext. intros u1 w1. rewrite bind_assoc.
    apply bind_ext. intros u2 w2. reflexivity.
  - intros w. reflexivity.
  - intros page. cbv beta.
    apply Traces_bind; [ apply Traces_assert | intros _ ].
    autounfold with pages.
    repeat first [ apply Traces_view_line_items_queries
                 | apply Traces_history_rows_queries
                 | traces_step ]; reflexivity.
  - intros page. cbv beta. reads.
Qed.

End ViewRunLemmas.

(** When the search of [view] ends on the [SearchPage] (the title of
    the page does not contain "Display RFP": results are listed, or
    none), [view] raises [AssertionError], having asked nothing of the
    page. *)
Theorem view_needs_a_displayed_rfp :
  forall {W : Type} {browser : WebDriver W} (rfp_number : string) (w : W),
    result (view_search rfp_number w) = Return Search ->
    view rfp_number w
    = (Raise AssertionError,
       browser_after (view_search rfp_number w),
       calls (view_search rfp_number w)).
Proof.
  intros W browser rfp_number w H.
  destruct (view_split (W:=W) rfp_number) as (k & Hk & Hgive & _ & _).
  rewrite Hk. unfold bind.
  destruct (view_search rfp_number w) as [[[page | e] w1] l1]; [ | discriminate H ].
  unfold result in H. cbn [fst] in H. injection H as ->.
  rewrite Hgive. unfold browser_after, calls. cbn [fst snd].
  rewrite app_nil_r. reflexivity.
Qed.

(** A search that lists one result under the title of the search. *)
Lemma view_needs_a_displayed_rfp_witness :
  result (view "4500123" (Site.start [] Site.one_listed)) = Raise AssertionError
  /\ clicks (calls (view "4500123" (Site.start [] Site.one_listed))) = 1.
Proof.
  rewrite (view_needs_a_displayed_rfp "4500123" (Site.start [] Site.one_listed));
    vm_compute; split; reflexivity.
Defined.

(** A successful [view] has loaded the search page first, has typed
    the RFP number and nothing else, and has clicked once, on the
    search button; it ends on a page whose title contains
    "Display RFP" and that shows no error message. *)
Theorem view_searches_once :
  forall {W : Type} {browser : WebDriver W} (rfp_number : string) (w : W)
         details w' l,
    view rfp_number w = (Return details, w', l) ->
    hd_error l
    = Some (Get "https://insidemit-apps.mit.edu/apps/rfp/SearchEntry.action?sapSystemId=PS1")
    /\ typed l = [rfp_number]
    /\ clicks l = 1
    /\ contains "Display RFP" (drv_title w') = true
    /\ errors_shown w' = []
    /\ w' = browser_after (view_search rfp_number w).
Proof.
  intros W browser rfp_number w details w' l H.
  destruct (view_split (W:=W) rfp_number) as (k & Hk & Hgive & Hq & Hr).
  rewrite Hk in H. bind_inv_tr H page Hs t1.
  assert (E : w' = w0) by exact (Reads_inv _ _ _ _ _ (Hr page) H). subst w'.
  pose proof (Traces_inv _ _ _ _ _ _ (Hq page) H) as Q.
  pose proof (view_search_inv _ _ _ _ _ Hs) as (Hhd & Ht & Hc & He & Hp).
  rewrite typed_app, clicks_app, (queries_typed _ Q), (queries_clicks _ Q), Ht, Hc.
  rewrite Hs. unfold browser_after. cbn [fst snd].
  repeat split; try exact He.
  - destruct t1; [ discriminate Hhd | exact Hhd ].
  - destruct (contains "Display RFP" (drv_title w0)); [ reflexivity | ].
    subst page. rewrite Hgive in H. discriminate H.
Qed.

(** The RFP 4500123 of the scripted site. *)
Lemma view_searches_once_witness :
  typed (calls (view "4500123" (Site.start [] Site.display))) = ["4500123"]
  /\ clicks (calls (view "4500123" (Site.start [] Site.display))) = 1.
Proof.
  destruct (view "4500123" (Site.start [] Site.display)) as [[[d | e] w'] l] eqn:E.
  - destruct (view_searches_once _ _ _ _ _ E) as (_ & Ht & Hc & _).
    split; assumption.
  - vm_compute in E. discriminate E.
Defined.

(** The result of a successful [view] is a snapshot of one page, the
    one the run ends on: each field is what its getter answers there,
    the line items are those of its ".lineItem" elements, and the RFP
    number it displays is the one asked for. *)
Theorem view_is_a_snapshot :
  forall {W : Type} {browser : WebDriver W} (rfp_number : string) (w : W)
         details w' l,
    view rfp_number w = (Return details, w', l) ->
    Details.rfp_number details = rfp_number
    /\ result (ViewOnlyPage.rfp_number w') = Return rfp_number
    /\ result (ViewOnlyPage.inbox w') = Return (Details.inbox details)
    /\ result (ViewOnlyPage.payee w') = Return (Details.payee details)
    /\ result (ViewOnlyPage.company_code w') = Return (Details.company_code details)
    /\ result (ViewOnlyPage.rfp_name w') = Return (Details.rfp_name details)
    /\ result (ViewOnlyPage.rfp_type w') = Return (Details.rfp_type details)
    /\ result (ViewOnlyPage.payment_method w') = Return (Details.payment_method details)
    /\ result (ViewOnlyPage.mailing_instructions w') = Return (Details.mailing_instructions details)
    /\ result (ViewOnlyPage.addressee w') = Return (Details.addressee details)
    /\ result (ViewOnlyPage.phone w') = Return (Details.phone details)
    /\ result (ViewOnlyPage.address w') = Return (Details.address details)
    /\ result (ViewOnlyPage.city w') = Return (Details.city details)
    /\ result (ViewOnlyPage.state w') = Return (Details.state details)
    /\ result (ViewOnlyPage.postal_code w') = Return (Details.postal_code details)
    /\ result (ViewOnlyPage.country w') = Return (Details.country details)
    /\ result (ViewOnlyPage.tax_type w') = Return (Details.tax_type details)
    /\ result (ViewOnlyPage.ssn_tin w') = Return (Details.ssn_tin details)
    /\ result (view_line_items (seq 0 (length (drv_css ".lineItem" w'))) w')
       = Return (Details.line_items details)
    /\ result (ViewOnlyPage.office_note w') = Return (Details.office_note details)
    /\ result (ViewOnlyPage.history w') = Return (Details.history details).
Proof.
  intros W browser rfp_number w details w' l H.
  unfold view in H.
  bind_inv_as H u1 H1. bind_inv_as H u2 H2. bind_inv_as H page H3.
  read_inv_as H a1 Ha1.
  read_inv_as H v_inbox H_inbox.
  read_inv_as H shown Hshown. read_inv_as H a2 Ha2.
  read_inv_as H v_payee H_payee.
  read_inv_as H v_company_code H_company_code.
  read_inv_as H v_rfp_name H_rfp_name.
  read_inv_as H v_rfp_type H_rfp_type.
  read_inv_as H v_payment_method H_payment_method.
  read_inv_as H v_mailing_instructions H_mailing_instructions.
  read_inv_as H v_addressee H_addressee.
  read_inv_as H v_phone H_phone.
  read_inv_as H v_address H_address.
  read_inv_as H v_city H_city.
  read_inv_as H v_state H_state.
  read_inv_as H v_postal_code H_postal_code.
  read_inv_as H v_country H_country.
  read_inv_as H v_tax_type H_tax_type.
  read_inv_as H v_ssn_tin H_ssn_tin.
  read_inv_as H n Hn. read_inv_as H items Hitems.
  read_inv_as H v_office_note H_office_note. read_inv_as H rows Hrows.
  injection H as <- <- _.
  cbn [Details.rfp_number Details.inbox Details.payee Details.company_code
       Details.rfp_name Details.rfp_type Details.payment_method
       Details.mailing_instructions Details.addressee Details.phone Details.address
       Details.city Details.state Details.postal_code Details.country Details.tax_type
       Details.ssn_tin Details.line_items Details.office_note Details.history].
  split; [ reflexivity | ].
  split.
  { apply assert_inv in Ha2. destruct Ha2 as (Heq & _ & _).
    apply String.eqb_eq in Heq. subst shown. rewrite Hshown. reflexivity. }
  split; [ rewrite H_inbox; reflexivity | ].
  split; [ rewrite H_payee; reflexivity | ].
  split; [ rewrite H_company_code; reflexivity | ].
  split; [ rewrite H_rfp_name; reflexivity | ].
  split; [ rewrite H_rfp_type; reflexivity | ].
  split; [ rewrite H_payment_method; reflexivity | ].
  split; [ rewrite H_mailing_instructions; reflexivity | ].
  split; [ rewrite H_addressee; reflexivity | ].
  split; [ rewrite H_phone; reflexivity | ].
  split; [ rewrite H_address; reflexivity | ].
  split; [ rewrite H_city; reflexivity | ].
  split; [ rewrite H_state; reflexivity | ].
  split; [ rewrite H_postal_code; reflexivity | ].
  split; [ rewrite H_country; reflexivity | ].
  split; [ rewrite H_tax_type; reflexivity | ].
  split; [ rewrite H_ssn_tin; reflexivity | ].
  split.
  { unfold ViewOnlyPage.line_item_count, bind, find_elements_by_css_selector, ret in Hn.
    injection Hn as <- _. rewrite Hitems. reflexivity. }
  split; [ rewrite H_office_note; reflexivity | ].
  rewrite Hrows. reflexivity.
Qed.

(** The RFP 4500123 of the scripted site: its payee and its city. *)
Lemma view_is_a_snapshot_witness :
  exists details,
    result (view "4500123" (Site.start [] Site.display)) = Return details
    /\ Details.payee details = "Ben Bitdiddle"
    /\ Details.city details = Some "Cambridge"
    /\ Details.state details = None.
Proof.
  destruct (view "4500123" (Site.start [] Site.display)) as [[[d | e] w'] l] eqn:E.
  - exists d. split; [ reflexivity | ].
    destruct (view_is_a_snapshot _ _ _ _ _ E)
      as (_ & _ & _ & Hpayee & _ & _ & _ & _ & _ & _ & _ & _ & Hcity & Hstate & _).
    vm_compute in E. injection E as _ <- _.
    vm_compute in Hpayee, Hcity, Hstate.
    injection Hpayee as Hpayee. injection Hcity as Hcity. injection Hstate as Hstate.
    repeat split; symmetry; assumption.
  - vm_compute in E. discriminate E.
Defined.

(** Reading never acts.  The get form of every kind of field, the
    message lists, the rows and cells of a table, the result lists and
    the whole reading of a displayed RFP leave the browser as it is and
    make only query calls: no navigation, click, clear or key entry. *)
Theorem reading_leaves_the_browser_alone :
  forall {W : Type} {browser : WebDriver W},
    (forall selector, Reads (BasePage._textbox (W:=W) selector None)
                      /\ Queries (BasePage._textbox (W:=W) selector None))
    /\ (forall fragment, Reads (BasePage._select (W:=W) fragment None)
                         /\ Queries (BasePage._select (W:=W) fragment None))
    /\ (forall group_name, Reads (BasePage._radio (W:=W) group_name None)
                           /\ Queries (BasePage._radio (W:=W) group_name None))
    /\ (forall selector, Reads (BasePage._checkbox (W:=W) selector None)
                         /\ Queries (BasePage._checkbox (W:=W) selector None))
    /\ (forall label, Reads (BasePage._datalist (W:=W) label)
                      /\ Queries (BasePage._datalist (W:=W) label))
    /\ (forall label, Reads (BasePage._try_datalist (W:=W) label)
                      /\ Queries (BasePage._try_datalist (W:=W) label))
    /\ (forall rfp, Reads (BasePage._row_element (W:=W) rfp)
                    /\ Queries (BasePage._row_element (W:=W) rfp))
    /\ (Reads (BasePage.errors (W:=W)) /\ Queries (BasePage.errors (W:=W)))
    /\ (Reads (BasePage.info (W:=W)) /\ Queries (BasePage.info (W:=W)))
    /\ (Reads (BasePage.success (W:=W)) /\ Queries (BasePage.success (W:=W)))
    /\ (Reads (InboxPage.list (W:=W)) /\ Queries (InboxPage.list (W:=W)))
    /\ (forall rfp, Reads (InboxPage.is_deletable (W:=W) rfp)
                    /\ Queries (InboxPage.is_deletable (W:=W) rfp))
    /\ (forall rfp, Reads (InboxPage.is_cloneable (W:=W) rfp)
                    /\ Queries (InboxPage.is_cloneable (W:=W) rfp))
    /\ (forall rfp, Reads (InboxPage.mark_for_deletion (W:=W) rfp None)
                    /\ Queries (InboxPage.mark_for_deletion (W:=W) rfp None))
    /\ (Reads (SearchForPayeePage.results (W:=W))
        /\ Queries (SearchForPayeePage.results (W:=W)))
    /\ (Reads (SendToPage.results (W:=W)) /\ Queries (SendToPage.results (W:=W)))
    /\ (Reads (SearchPage.results (W:=W)) /\ Queries (SearchPage.results (W:=W)))
    /\ (forall li, Reads (ViewOnlyPage.explanation (W:=W) li)
                   /\ Queries (ViewOnlyPage.explanation (W:=W) li))
    /\ (forall li, Reads (ViewOnlyPage._line_item_cells (W:=W) li)
                   /\ Queries (ViewOnlyPage._line_item_cells (W:=W) li))
    /\ (forall indices, Reads (view_line_items (W:=W) indices)
                        /\ Queries (view_line_items (W:=W) indices))
    /\ (Reads (ViewOnlyPage.history (W:=W)) /\ Queries (ViewOnlyPage.history (W:=W))).
Proof.
  intros W browser. unfold Queries.
  repeat match goal with
         | |- _ /\ _ => split
         | |- forall _, _ => intro
         end;
    try (reads; fail);
    try (autounfold with pages; cbv zeta;
         repeat first [ apply Traces_view_line_items_queries
                      | apply Traces_history_rows_queries
                      | traces_step ]; reflexivity).
Qed.

(** ** create: what it types, where it looks, how it fails *)

Section CreateRunLemmas.
Context {W : Type} {browser : WebDriver W}.

Lemma types_nothing_typed l : Forall types_nothing l -> typed l = [].
Proof.
  induction 1 as [ | c l Hc Hl IH ]; [ reflexivity | ].
  destruct c; try exact IH; contradiction Hc.
Qed.

Lemma no_lookup_located l : Forall (avoids (fun _ => true)) l -> located l = [].
Proof.
  induction 1 as [ | c l Hc Hl IH ]; [ reflexivity | ].
  destruct c; try exact IH; discriminate Hc.
Qed.

Lemma lookups_app s l l' : lookups s (l ++ l') = lookups s l + lookups s l'.
Proof. unfold lookups. rewrite located_app. apply count_occ_app. Qed.

Lemma avoids_lookups s l : Forall (avoids (String.eqb s)) l -> lookups s l = 0.
Proof.
  unfold lookups. induction 1 as [ | c l Hc Hl IH ]; [ reflexivity | ].
  destruct c; try exact IH.
  unfold avoids in Hc. cbn [located count_occ].
  destruct (string_dec selector s) as [-> | _]; [ | exact IH ].
  rewrite String.eqb_refl in Hc. discriminate Hc.
Qed.

Lemma Traces_click_button_any P buttons label :
  (forall e, P (Text e)) -> (forall e, P (Click e)) ->
  Traces P (AttachReceiptPage.click_button (W:=W) buttons label).
Proof.
  intros Ht Hc. induction buttons as [ | b bs IHb ]; simpl.
  - apply Traces_raise.
  - repeat traces_step; auto.
Qed.

Lemma Traces__overlay_button P label :
  (forall s, P (FindElementsByCss s)) -> (forall e, P (Text e)) ->
  (forall e, P (Click e)) -> P Title ->
  Traces P (AttachReceiptPage._overlay_button (W:=W) label).
Proof.
  intros H1 H2 H3 H4. unfold AttachReceiptPage._overlay_button.
  apply Traces_bind; [ apply Traces_find_elements_by_css_selector, H1 | intros buttons ].
  apply Traces_bind; [ apply Traces_click_button_any; assumption | intros _ ].
  traces; auto.
Qed.

(** The page object [_overlay_button] answers. *)
Lemma _overlay_button_page label w page w' l :
  AttachReceiptPage._overlay_button label w = (Return page, w', l) ->
  is_overlay page = false
  /\ (page = ViewOnly \/ exists index, page = ViewAndEdit index).
Proof.
  unfold AttachReceiptPage._overlay_button. intros H.
  bind_inv_as H buttons H1. bind_inv_as H u H2. bind_inv_as H t H3.
  destruct (contains "Display RFP" t).
  - bind_inv_as H u' H4. apply ret_inv in H. destruct H as (-> & _ & _).
    split; [ reflexivity | left; reflexivity ].
  - bind_inv_as H idx H4. apply ret_inv in H. destruct H as (-> & _ & _).
    split; [ reflexivity | right; exists idx; reflexivity ].
Qed.

#[local] Opaque String.append.

(** A successful set of a select field. *)
Lemma _select_set_inv fragment val w r w' l :
  BasePage._select fragment (Some val) w = (Return r, w', l) ->
  located l = select_selectors fragment val
  /\ typed l = [normalized fragment val w ++ BasePage.tab].
Proof.
  intros H. rewrite _select_set_run in H. cbv zeta in H.
  destruct (drv_css ("select" ++ fragment) w) as [ | sel sels ]; [ discriminate H | ].
  match type of H with
  | context [BasePage._select_get fragment ?x] =>
      rewrite (_select_get_run fragment x) in H;
      destruct (drv_css ("select" ++ fragment ++ " option:checked") x) as [ | c cs ]
  end; [ discriminate H | ].
  unfold result, calls in H. cbn [fst snd] in H.
  injection H as _ _ <-.
  match goal with
  | |- context [match ?x with [] => [] | _ :: _ => _ end] => destruct x
  end; split; reflexivity.
Qed.

(** A select field whose select element is missing. *)
Lemma _select_set_missing fragment val w :
  drv_css ("select" ++ fragment) w = [] ->
  result (BasePage._select fragment (Some val) w) = Raise NoSuchElementException
  /\ browser_after (BasePage._select fragment (Some val) w) = w
  /\ located (calls (BasePage._select fragment (Some val) w))
     = ["select" ++ fragment ++ " option[value='" ++ val ++ "']"; "select" ++ fragment].
Proof.
  intros H. rewrite _select_set_run. cbv zeta. rewrite H.
  unfold result, browser_after, calls. cbn [fst snd].
  repeat split.
  match goal with
  | |- context [match ?x with [] => [] | _ :: _ => _ end] => destruct x
  end; reflexivity.
Qed.

#[local] Transparent String.append.

Lemma raises_only__select fragment val :
  raises_only [NoSuchElementException; AssertionError]
    (BasePage._select (W:=W) fragment val).
Proof. raises. Qed.

(** [try: m(state)  except NameError: pass], with [state] bound. *)
Lemma try_with_state_bound {A B} (s : B) (m : B -> M W A) (K : M W unit) w :
  (forall e, result (m s w) = Raise e -> e <> NameError) ->
  bind
    (try_except
       (state <- ret s;; m state;; ret tt)
       (fun ex => match ex with
                  | NameError => Some (ret tt)
                  | _ => None
                  end))
    (fun _ => K) w
  = bind (m s) (fun _ => K) w.
Proof.
  intros H. unfold bind, try_except, ret.
  destruct (m s w) as [[[a | e] w1] l1]; cbn [app].
  - rewrite app_nil_r. reflexivity.
  - destruct e; try reflexivity. exfalso. apply (H NameError); reflexivity.
Qed.

(** The same with [state] unbound. *)
Lemma try_with_state_unbound {A B} (m : B -> M W A) (K : M W unit) w :
  bind
    (try_except
       (state <- raise NameError;; m state;; ret tt)
       (fun ex => match ex with
                  | NameError => Some (ret tt)
                  | _ => None
                  end))
    (fun _ => K) w
  = K w.
Proof.
  unfold bind, try_except, raise, ret. cbn [app].
  destruct (K w) as [[r w1] l1]. reflexivity.
Qed.

(** The mailing address, field by field. *)
Lemma create_mailing_address_four index a c p k w :
  create_mailing_address index (Some [a; c; p; k]) w
  = (create_address_until_state index k a c;;
     RequestRfpPage.postal_code index (Some p);;
     ret tt) w.
Proof.
  unfold create_mailing_address, create_address_until_state.
  rewrite bind_ret_l. cbv beta iota.
  rewrite !bind_assoc. apply bind_ext. intros u1 w1.
  rewrite !bind_assoc. apply bind_ext. intros u2 w2.
  rewrite !bind_assoc. apply bind_ext. intros u3 w3.
  rewrite bind_ret_l. apply try_with_state_unbound.
Qed.

Lemma create_mailing_address_five index a c s p k w :
  create_mailing_address index (Some [a; c; s; p; k]) w
  = (create_address_until_state index k a c;;
     RequestRfpPage.state index (Some s);;
     RequestRfpPage.postal_code index (Some p);;
     ret tt) w.
Proof.
  unfold create_mailing_address, create_address_until_state.
  rewrite bind_ret_l. cbv beta iota.
  rewrite !bind_assoc. apply bind_ext. intros u1 w1.
  rewrite !bind_assoc. apply bind_ext. intros u2 w2.
  rewrite !bind_assoc. apply bind_ext. intros u3 w3.
  rewrite bind_ret_l.
  apply (try_with_state_bound s (fun state => RequestRfpPage.state index (Some state))).
  intros e He ->.
  pose proof (raises_only__select ("#region" ++ fmt_d index) (Some s) w3) as R.
  unfold RequestRfpPage.state in He. rewrite He in R.
  destruct R as [R | [R | []]]; discriminate R.
Qed.

End CreateRunLemmas.

Section AddressRunLemmas.
Context {W : Type} {browser : WebDriver W}.

#[local] Opaque String.append.

(** A successful entry of country, address line and city. *)
Lemma create_address_until_state_inv index k a c w u w' l :
  create_address_until_state index k a c w = (Return u, w', l) ->
  located l
  = (select_selectors ("#country" ++ fmt_d index) k
     ++ [("#address" ++ fmt_d index)%string; ("#city" ++ fmt_d index)%string])%list
  /\ typed l = [normalized ("#country" ++ fmt_d index) k w ++ BasePage.tab; a; c].
Proof.
  intros H. unfold create_address_until_state in H.
  bind_inv_tr H u1 H1 t1. bind_inv_tr H u2 H2 t2. bind_inv_tr H u3 H3 t3.
  apply ret_inv in H. destruct H as (_ & _ & ->).
  unfold RequestRfpPage.country in H1. apply _select_set_inv in H1.
  destruct H1 as [L1 T1].
  unfold RequestRfpPage.address in H2. apply _textbox_set_inv in H2.
  destruct H2 as [e2 ->].
  unfold RequestRfpPage.city in H3. apply _textbox_set_inv in H3.
  destruct H3 as [e3 ->].
  rewrite !located_app, !typed_app, L1, T1. split; reflexivity.
Qed.

#[local] Transparent String.append.

Lemma Traces_create_address_until_state bad index k a c :
  (forall s, bad ("select#country" ++ s) = false) ->
  (forall s, bad ("#address" ++ s) = false) ->
  (forall s, bad ("#city" ++ s) = false) ->
  Traces (avoids bad) (create_address_until_state (W:=W) index k a c).
Proof.
  intros H1 H2 H3.
  unfold create_address_until_state. autounfold with pages. cbv zeta.
  repeat traces_step; try exact I; unfold avoids;
    try apply H2; try apply H3;
    match goal with
    | |- bad ("select" ++ ("#country" ++ ?x) ++ ?r) = false => exact (H1 (x ++ r))
    | |- bad ("select" ++ "#country" ++ ?x) = false => exact (H1 x)
    end.
Qed.

End AddressRunLemmas.

(** With an address of four fields (no state) [create] never looks up
    the state select: the unbound [state] makes [page.state(state)]
    raise [NameError] before the call, the handler passes, and the
    mailing address is entered as country, address line, city and
    postal code. *)
Theorem create_without_a_state_skips_the_select :
  forall {W : Type} {browser : WebDriver W} name payee a c p k line_items office_note
         receipts send_to (index : nat) (w : W),
    Forall (avoids (String.prefix "select#region"))
      (calls (create name payee (Some [a; c; p; k]) line_items office_note receipts
                send_to w))
    /\ create_mailing_address index (Some [a; c; p; k]) w
       = (create_address_until_state index k a c;;
          RequestRfpPage.postal_code index (Some p);;
          ret tt) w.
Proof.
  intros W browser name payee a c p k line_items office_note receipts send_to index w.
  split; [ | apply create_mailing_address_four ].
  assert (A : forall i, Traces (avoids (String.prefix "select#region"))
                          (create_mailing_address (W:=W) i (Some [a; c; p; k]))).
  { intros i w0. rewrite create_mailing_address_four.
    revert w0. change (Traces (avoids (String.prefix "select#region"))
                         (create_address_until_state i k a c;;
                          RequestRfpPage.postal_code i (Some p);; ret tt)).
    create_traces. }
  assert (T : Traces (avoids (String.prefix "select#region"))
                (create name payee (Some [a; c; p; k]) line_items office_note receipts
                   send_to)).
  { unfold create, create_search_for_payee, create_send_to, page_cancel,
      page_rfp_number, page_send_to.
    autounfold with pages.
    repeat first [ apply A | create_traces_step ];
      try exact I; try (vm_compute; reflexivity). }
  apply T.
Qed.

(** With a state, on a page that has no state select once country,
    address line and city are entered, the mailing address of [create]
    ends in [NoSuchElementException] ([except NameError] does not catch
    it): the postal code is not looked up, and the browser stays as the
    three fields left it. *)
Theorem create_with_a_state_needs_the_select :
  forall {W : Type} {browser : WebDriver W} (index : nat) a c s p k (w : W),
    result (create_address_until_state index k a c w) = Return tt ->
    drv_css ("select#region" ++ fmt_d index)
      (browser_after (create_address_until_state index k a c w)) = [] ->
    result (create_mailing_address index (Some [a; c; s; p; k]) w)
    = Raise NoSuchElementException
    /\ browser_after (create_mailing_address index (Some [a; c; s; p; k]) w)
       = browser_after (create_address_until_state index k a c w)
    /\ lookups ("#zip" ++ fmt_d index)
         (calls (create_mailing_address index (Some [a; c; s; p; k]) w)) = 0.
Proof.
  intros W browser index a c s p k w Hr Hcss.
  rewrite create_mailing_address_five.
  assert (Z : lookups ("#zip" ++ fmt_d index)
                (calls (create_address_until_state index k a c w)) = 0).
  { apply avoids_lookups.
    apply (Traces_create_address_until_state (String.eqb ("#zip" ++ fmt_d index)));
      reflexivity. }
  destruct (create_address_until_state index k a c w) as [[[u | e] w1] l1] eqn:E;
    [ | discriminate Hr ].
  unfold browser_after in Hcss. cbn [fst snd] in Hcss.
  destruct (_select_set_missing ("#region" ++ fmt_d index) s w1 Hcss) as (R & B & L).
  unfold calls in Z. cbn [snd] in Z.
  rewrite result_bind, browser_after_bind, calls_bind, E.
  unfold result at 1 3 4, browser_after at 1 3 4 6, calls at 1. cbn [fst snd].
  rewrite result_bind, browser_after_bind, calls_bind.
  unfold RequestRfpPage.state. rewrite R, B.
  repeat split.
  rewrite lookups_app, Z. unfold lookups. rewrite L. cbn [count_occ].
  destruct (string_dec _ _) as [X | _]; [ discriminate X | ].
  destruct (string_dec _ _) as [X | _]; [ discriminate X | ].
  reflexivity.
Qed.

(** A payee in France, on a page without a state select, given a state. *)
Lemma create_with_a_state_needs_the_select_witness :
  result (create_mailing_address 2
            (Some ["1 rue de Rivoli"; "Paris"; "IDF"; "75001"; "FR"])
            (Site.request "FR" [] [62] 3 0))
  = Raise NoSuchElementException
  /\ lookups "#zip2"
       (calls (create_mailing_address 2
                 (Some ["1 rue de Rivoli"; "Paris"; "IDF"; "75001"; "FR"])
                 (Site.request "FR" [] [62] 3 0))) = 0.
Proof.
  destruct (@create_with_a_state_needs_the_select Dom scripted 2
              "1 rue de Rivoli" "Paris" "IDF" "75001" "FR"
              (Site.request "FR" [] [62] 3 0)
              ltac:(vm_compute; reflexivity) ltac:(vm_compute; reflexivity))
    as (R & _ & Z).
  split; [ exact R | exact Z ].
Defined.

(** A successful entry of the mailing address. *)
Lemma create_mailing_address_inv :
  forall {W : Type} {browser : WebDriver W} (index : nat) address (w : W) u w' l,
    create_mailing_address index (Some address) w = (Return u, w', l) ->
    (address = [] /\ l = [] /\ w' = w)
    \/ (exists a c p k,
          address = [a; c; p; k]
          /\ located l = address_selectors index k None
          /\ typed l
             = [normalized ("#country" ++ fmt_d index) k w ++ BasePage.tab; a; c; p])
    \/ (exists a c s p k,
          address = [a; c; s; p; k]
          /\ located l = address_selectors index k (Some s)
          /\ typed l
             = [normalized ("#country" ++ fmt_d index) k w ++ BasePage.tab; a; c;
                normalized ("#region" ++ fmt_d index) s
                  (browser_after (create_address_until_state index k a c w))
                ++ BasePage.tab;
                p]).
Proof.
  intros W browser index address w u w' l H.
  destruct address as [ | a [ | c [ | x [ | y [ | z [ | extra rest ] ] ] ] ] ];
    try discriminate H.
  - left. apply ret_inv in H. destruct H as (_ & -> & ->). auto.
  - right. left. exists a, c, x, y. split; [ reflexivity | ].
    rewrite create_mailing_address_four in H.
    bind_inv_tr H u1 H1 t1. bind_inv_tr H u2 H2 t2.
    apply ret_inv in H. destruct H as (_ & _ & ->).
    apply create_address_until_state_inv in H1. destruct H1 as [L1 T1].
    unfold RequestRfpPage.postal_code in H2. apply _textbox_set_inv in H2.
    destruct H2 as [e2 ->].
    rewrite !located_app, !typed_app, L1, T1. unfold address_selectors.
    rewrite <- !app_assoc. split; reflexivity.
  - right. right.
    rewrite create_mailing_address_five in H.
    bind_inv_tr H u1 H1 t1. bind_inv_tr H u2 H2 t2. bind_inv_tr H u3 H3 t3.
    apply ret_inv in H. destruct H as (_ & _ & ->).
    pose proof (create_address_until_state_inv _ _ _ _ _ _ _ _ H1) as [L1 T1].
    unfold RequestRfpPage.state in H2.
    pose proof (_select_set_inv _ _ _ _ _ _ H2) as [L2 T2].
    unfold RequestRfpPage.postal_code in H3. apply _textbox_set_inv in H3.
    destruct H3 as [e3 ->].
    exists a, c, x, y, z. split; [ reflexivity | ].
    rewrite H1. unfold browser_after. cbn [fst snd].
    rewrite !located_app, !typed_app, L1, T1, L2, T2. unfold address_selectors.
    rewrite <- !app_assoc. split; reflexivity.
Qed.

(** A mailing address that is entered is entered in the order country,
    address line, city, state (if one is given), postal code, each
    field located by the selector of the page's [index]; what is typed
    is the values given, but for the country and the state: for them,
    the stripped text of the option of their select that has the value
    given (the country's in the browser [create] found, the state's in
    the browser that the entry of country, address line and city left),
    or the value given when no option has it, followed by a tab. *)
Theorem create_fills_the_address_in_order :
  forall {W : Type} {browser : WebDriver W} (index : nat) address (w : W) u w' l,
    create_mailing_address index (Some address) w = (Return u, w', l) ->
    (address = [] /\ l = [] /\ w' = w)
    \/ (exists a c p k,
          address = [a; c; p; k]
          /\ located l = address_selectors index k None
          /\ typed l
             = [normalized ("#country" ++ fmt_d index) k w ++ BasePage.tab; a; c; p])
    \/ (exists a c s p k,
          address = [a; c; s; p; k]
          /\ located l = address_selectors index k (Some s)
          /\ typed l
             = [normalized ("#country" ++ fmt_d index) k w ++ BasePage.tab; a; c;
                normalized ("#region" ++ fmt_d index) s
                  (browser_after (create_address_until_state index k a c w))
                ++ BasePage.tab;
                p]).
Proof.
  intros W browser index address w u w' l H.
  exact (create_mailing_address_inv index address w u w' l H).
Qed.

(** An address in Massachusetts, on the scripted site. *)
Lemma create_fills_the_address_in_order_witness :
  located
    (calls (create_mailing_address 2
              (Some ["77 Mass Ave"; "Cambridge"; "MA"; "02139"; "US"])
              (Site.request "US" [16] [62] 3 0)))
  = address_selectors 2 "US" (Some "MA")
  /\ typed
       (calls (create_mailing_address 2
                 (Some ["77 Mass Ave"; "Cambridge"; "MA"; "02139"; "US"])
                 (Site.request "US" [16] [62] 3 0)))
     = ["United States" ++ BasePage.tab; "77 Mass Ave"; "Cambridge";
        "Massachusetts" ++ BasePage.tab; "02139"].
Proof.
  destruct (create_mailing_address 2
              (Some ["77 Mass Ave"; "Cambridge"; "MA"; "02139"; "US"])
              (Site.request "US" [16] [62] 3 0)) as [[[u | e] w'] l] eqn:E.
  - destruct (create_fills_the_address_in_order _ _ _ _ _ _ E)
      as [(X & _) | [(a & c & p & k & X & _) | (a & c & s & p & k & X & L & T)]];
      try discriminate X.
    injection X as <- <- <- <- <-. split; [ exact L | ].
    etransitivity; [ exact T | vm_compute; reflexivity ].
  - vm_compute in E. discriminate E.
Defined.

Section SendToRunLemmas.
Context {W : Type} {browser : WebDriver W}.

Lemma find_css_inv selector (w : W) e w' l :
  find_element_by_css_selector selector w = (Return e, w', l) ->
  hd_error (drv_css selector w) = Some e /\ w' = w /\ l = [FindElementByCss selector].
Proof.
  unfold find_element_by_css_selector, first_or_raise.
  destruct (drv_css selector w) as [ | x xs ]; [ discriminate | ].
  intros H. injection H as <- <- <-. auto.
Qed.

Lemma click_inv e (w : W) u w' l :
  click e w = (Return u, w', l) -> w' = drv_click e w /\ l = [Click e].
Proof. unfold click. intros H. injection H as _ <- <-. auto. Qed.

(** A successful checked transition: one click, no keys. *)
Lemma click_then_check_inv {B} selector (next : M W B) w p w' l :
  Traces (fun c => is_query c = true) next ->
  (e <- find_element_by_css_selector selector;;
   click e;; BasePage._pre_transition;; next) w = (Return p, w', l) ->
  clicks l = 1 /\ typed l = [].
Proof.
  intros Hq H.
  bind_inv_tr H e H1 t1. bind_inv_tr H u2 H2 t2. bind_inv_tr H u3 H3 t3.
  apply find_css_inv in H1. destruct H1 as (_ & -> & ->).
  apply click_inv in H2. destruct H2 as (-> & ->).
  rewrite _pre_transition_run in H3. injection H3 as _ <- <-.
  pose proof (Traces_inv _ _ _ _ _ _ Hq H) as Q.
  pose proof (errors_calls_queries (drv_click e w)) as Q'.
  rewrite !clicks_app, !typed_app.
  rewrite (queries_clicks _ Q), (queries_typed _ Q), (queries_clicks _ Q'),
    (queries_typed _ Q').
  split; reflexivity.
Qed.

(** A successful click on an element located by a selector. *)
Lemma locate_and_click_inv selector w (u : unit) w' l :
  (e <- find_element_by_css_selector selector;; click e) w = (Return u, w', l) ->
  clicks l = 1 /\ typed l = [].
Proof.
  intros H. bind_inv_tr H e H1 t1.
  apply find_css_inv in H1. destruct H1 as (_ & -> & ->).
  apply click_inv in H. destruct H as (-> & ->). split; reflexivity.
Qed.

Lemma _textbox_set_typed selector val w r w' l :
  BasePage._textbox selector (Some val) w = (Return r, w', l) ->
  typed l = [val] /\ clicks l = 0.
Proof.
  intros H. apply _textbox_set_inv in H. destruct H as [e ->]. split; reflexivity.
Qed.

(** The search for the recipient, when it succeeds. *)
Lemma create_recipient_search_inv recipient w u w' l :
  create_recipient_search recipient w = (Return u, w', l) ->
  typed l = [recipient] /\ clicks l = 2.
Proof.
  intros H. unfold create_recipient_search in H.
  bind_inv_tr H p1 H1 t1. bind_inv_tr H u2 H2 t2.
  unfold ViewAndEditPage.send_to in H1.
  apply click_then_check_inv in H1; [ | traces; reflexivity ].
  destruct H1 as [C1 T1].
  unfold SendToPage.recipient_name in H2. apply _textbox_set_typed in H2.
  destruct H2 as [T2 C2].
  unfold SendToPage.search in H. apply locate_and_click_inv in H.
  destruct H as [C3 T3].
  rewrite !typed_app, !clicks_app, T1, T2, T3, C1, C2, C3. split; reflexivity.
Qed.

(** "Send To?" is the search for the recipient and then the rest. *)
Lemma create_send_to_split idx recipient note w :
  create_send_to (ViewAndEdit idx) (Some (recipient, note)) w
  = (create_recipient_search recipient;;
     rs <- SendToPage.results;;
     assert (length rs =? 1)%nat;;
     SendToPage.note (Some note);;
     SendToPage.send;;
     ret tt) w.
Proof.
  unfold create_send_to, create_recipient_search, page_send_to.
  rewrite !bind_assoc. apply bind_ext. intros p1 w1.
  rewrite !bind_assoc. reflexivity.
Qed.

Lemma results_run w :
  SendToPage.results w
  = (Return (shown_stripped (drv_css "td.data label[for^='addressee-']" w) w), w,
     FindElementsByCss "td.data label[for^='addressee-']"
     :: map Text (drv_css "td.data label[for^='addressee-']" w)).
Proof.
  unfold SendToPage.results. rewrite bind_find_elements_css, stripped_texts_run.
  reflexivity.
Qed.

End SendToRunLemmas.

(** "Send To?" in [create] goes on only when the search for the
    recipient shows exactly one result.  Otherwise it raises
    [AssertionError] once the search is made: the note is not typed,
    "Send" is not clicked, and the browser stays on the results of the
    search. *)
Theorem create_send_to_needs_one_recipient :
  forall {W : Type} {browser : WebDriver W} (idx : nat) (recipient note : string)
         (w : W),
    result (create_recipient_search recipient w) = Return tt ->
    length (drv_css "td.data label[for^='addressee-']"
              (browser_after (create_recipient_search recipient w))) <> 1 ->
    result (create_send_to (ViewAndEdit idx) (Some (recipient, note)) w)
    = Raise AssertionError
    /\ browser_after (create_send_to (ViewAndEdit idx) (Some (recipient, note)) w)
       = browser_after (create_recipient_search recipient w)
    /\ typed (calls (create_send_to (ViewAndEdit idx) (Some (recipient, note)) w))
       = [recipient]
    /\ clicks (calls (create_send_to (ViewAndEdit idx) (Some (recipient, note)) w)) = 2.
Proof.
  intros W browser idx recipient note w Hr Hn.
  rewrite create_send_to_split.
  destruct (create_recipient_search recipient w) as [[[u | e] w1] l1] eqn:E;
    [ | discriminate Hr ].
  pose proof (create_recipient_search_inv _ _ _ _ _ E) as [T C].
  unfold browser_after in Hn. cbn [fst snd] in Hn.
  apply Nat.eqb_neq in Hn.
  assert (R : (create_recipient_search recipient;;
               rs <- SendToPage.results;;
               assert (length rs =? 1)%nat;;
               SendToPage.note (Some note);;
               SendToPage.send;;
               ret tt) w
              = (Raise AssertionError, w1,
                 (l1 ++ FindElementsByCss "td.data label[for^='addressee-']"
                  :: map Text (drv_css "td.data label[for^='addressee-']" w1))%list)).
  { unfold bind at 1. rewrite E. unfold bind at 1. rewrite results_run.
    unfold shown_stripped. rewrite length_map, Hn.
    unfold assert, raise, bind. rewrite app_nil_r. reflexivity. }
  rewrite R. unfold result, browser_after, calls. cbn [fst snd].
  rewrite typed_app, clicks_app, T, C.
  assert (Q : Forall (fun c => is_query c = true)
                (FindElementsByCss "td.data label[for^='addressee-']"
                 :: map Text (drv_css "td.data label[for^='addressee-']" w1))).
  { constructor; [ reflexivity | ].
    apply Forall_forall. intros c Hc. apply in_map_iff in Hc.
    destruct Hc as [x [<- _]]. reflexivity. }
  rewrite (queries_typed _ Q), (queries_clicks _ Q).
  repeat split.
Qed.

(** Two recipients found, on the scripted site. *)
Lemma create_send_to_needs_one_recipient_witness :
  result (create_send_to (ViewAndEdit 2) (Some ("Hacker", "please approve"))
            (Site.edit [62; 65] 0))
  = Raise AssertionError
  /\ typed (calls (create_send_to (ViewAndEdit 2) (Some ("Hacker", "please approve"))
                     (Site.edit [62; 65] 0)))
     = ["Hacker"].
Proof.
  destruct (@create_send_to_needs_one_recipient Dom scripted 2 "Hacker" "please approve"
              (Site.edit [62; 65] 0)
              ltac:(vm_compute; reflexivity) ltac:(vm_compute; discriminate))
    as (R & _ & T & _).
  split; [ exact R | exact T ].
Defined.

(** ** create, from start to end *)

(** A successful step that sends no keys. *)
Ltac types_nothing_in H :=
  match type of H with
  | ?m ?w = (_, _, ?l) =>
      let F := fresh "F" in
      assert (F : typed l = [])
        by (apply types_nothing_typed; refine (Traces_inv _ m w _ _ _ _ H);
            unfold page_cancel, page_rfp_number, page_send_to;
            autounfold with pages;
            repeat first [ apply Traces_click_button_any; intros | traces_step ];
            exact I)
  end.

(** A successful step that does not look up [selector]. *)
Ltac no_lookup_in selector H :=
  match type of H with
  | ?m ?w = (_, _, ?l) =>
      let F := fresh "F" in
      assert (F : lookups selector l = 0)
        by (apply avoids_lookups;
            refine (Traces_inv _ m w _ _ _ _ H); create_traces)
  end.

Section CreateTraceLemmas.
Context {W : Type} {browser : WebDriver W}.

Lemma create_search_for_payee_typed is_mit payee_name w idx w' l :
  create_search_for_payee is_mit payee_name w = (Return idx, w', l) ->
  typed l = [payee_name].
Proof.
  intros H. unfold create_search_for_payee in H.
  bind_inv_tr H u1 H1 t1. bind_inv_tr H u2 H2 t2. bind_inv_tr H u3 H3 t3.
  bind_inv_tr H u4 H4 t4. bind_inv_tr H rs H5 t5. bind_inv_tr H u6 H6 t6.
  types_nothing_in H1. types_nothing_in H2.
  unfold SearchForPayeePage.payee_name in H3. apply _textbox_set_typed in H3.
  destruct H3 as [T3 _].
  types_nothing_in H4. types_nothing_in H5. types_nothing_in H6. types_nothing_in H.
  rewrite !typed_app. rewrite F, F0, T3, F1, F2, F3, F4. reflexivity.
Qed.

Lemma create_send_to_typed page send_to w u w' l :
  create_send_to page send_to w = (Return u, w', l) ->
  typed l = match send_to with
            | Some (recipient, note) => [recipient; note]
            | None => []
            end.
Proof.
  intros H. destruct send_to as [[recipient note] | ].
  - unfold create_send_to in H.
    bind_inv_tr H p1 H1 t1. bind_inv_tr H u2 H2 t2. bind_inv_tr H u3 H3 t3.
    bind_inv_tr H rs H4 t4. bind_inv_tr H u5 H5 t5. bind_inv_tr H u6 H6 t6.
    bind_inv_tr H p7 H7 t7. apply ret_inv in H. destruct H as (_ & _ & ->).
    types_nothing_in H1.
    unfold SendToPage.recipient_name in H2. apply _textbox_set_typed in H2.
    destruct H2 as [T2 _].
    types_nothing_in H3. types_nothing_in H4. types_nothing_in H5.
    unfold SendToPage.note in H6. apply _textbox_set_typed in H6.
    destruct H6 as [T6 _].
    types_nothing_in H7.
    rewrite !typed_app. rewrite F, T2, F0, F1, F2, T6, F3. reflexivity.
  - apply ret_inv in H. destruct H as (_ & _ & ->). reflexivity.
Qed.

(** What the loop over the receipts has looked up and typed. *)
Lemma create_attach_receipts_trace receipts : forall page w page' w' l,
  create_attach_receipts page receipts w = (Return page', w', l) ->
  located l = receipt_selectors (is_overlay page) receipts /\ typed l = receipts.
Proof.
  induction receipts as [ | receipt rest IH ]; intros page w page' w' l H.
  - apply ret_inv in H. destruct H as (_ & _ & ->). split; reflexivity.
  - cbn [create_attach_receipts] in H.
    bind_inv_tr H p1 H1 t1. bind_inv_tr H u2 H2 t2. bind_inv_tr H p3 H3 t3.
    assert (P1 : p1 = AttachReceipt).
    { destruct p1; try discriminate H2. reflexivity. }
    subst p1. cbn [page_select_file page_attach] in H2, H3.
    assert (L1 : located t1
                 = if is_overlay page then [] else [".attachReceipts"; "#doUpload"]).
    { destruct page; try (apply ret_inv in H1; destruct H1 as (X & _ & _);
                          discriminate X).
      - unfold ViewAndEditPage.attach_receipt, New.AttachReceiptPage, BasePage.init in H1.
        bind_inv_tr H1 e H11 s1. bind_inv_tr H1 u12 H12 s2.
        bind_inv_tr H1 u13 H13 s3. apply ret_inv in H1. destruct H1 as (_ & _ & ->).
        apply find_css_inv in H11. destruct H11 as (_ & _ & ->).
        apply click_inv in H12. destruct H12 as (_ & ->).
        bind_inv_tr H13 u14 H14 s4. apply ret_inv in H14. destruct H14 as (_ & _ & ->).
        bind_inv_tr H13 e2 H15 s5. apply find_css_inv in H15.
        destruct H15 as (_ & _ & ->).
        bind_inv_tr H13 shown H16 s6. unfold is_displayed in H16.
        injection H16 as _ _ <-.
        destruct (negb shown); [ discriminate H13 | ].
        apply ret_inv in H13. destruct H13 as (_ & _ & ->). reflexivity.
      - apply ret_inv in H1. destruct H1 as (_ & _ & ->). reflexivity. }
    assert (T1 : typed t1 = []).
    { destruct page; try (apply ret_inv in H1; destruct H1 as (_ & _ & ->);
                          reflexivity).
      types_nothing_in H1. assumption. }
    unfold AttachReceiptPage.select_file in H2.
    bind_inv_tr H2 e H21 s1. apply find_css_inv in H21. destruct H21 as (_ & _ & ->).
    unfold send_keys in H2. injection H2 as _ _ <-.
    assert (L3 : located t3 = []).
    { apply no_lookup_located.
      refine (Traces_inv _ _ _ _ _ _ _ H3).
      apply Traces__overlay_button; intros; exact I. }
    assert (T3 : typed t3 = []).
    { apply types_nothing_typed.
      refine (Traces_inv _ _ _ _ _ _ _ H3).
      apply Traces__overlay_button; intros; exact I. }
    apply _overlay_button_page in H3. destruct H3 as [O3 _].
    apply IH in H. destruct H as [L T]. rewrite O3 in L.
    rewrite !located_app, !typed_app, L1, T1, L3, T3, L, T.
    cbn [receipt_selectors located typed app]. split; reflexivity.
Qed.

Lemma count_upload_selectors receipts : forall opened,
  count_occ string_dec (receipt_selectors opened receipts) "#upload" = length receipts.
Proof.
  induction receipts as [ | receipt rest IH ]; intros opened; [ reflexivity | ].
  cbn [receipt_selectors length]. rewrite count_occ_app.
  destruct opened; cbn [count_occ app];
    repeat (destruct (string_dec _ _) as [X | X];
            [ try discriminate X | try (exfalso; apply X; reflexivity) ]);
    rewrite IH; reflexivity.
Qed.

Lemma save_page w page w' l :
  RequestRfpPage.save w = (Return page, w', l) -> page = AttachReceipt.
Proof.
  unfold RequestRfpPage.save. intros H.
  do 4 bind_inv H. apply ret_inv in H. destruct H as (-> & _ & _). reflexivity.
Qed.

(** *** The exceptions of the loops *)

Lemma raises_only_click_button allowed buttons label :
  In NoSuchElementException allowed ->
  raises_only allowed (AttachReceiptPage.click_button (W:=W) buttons label).
Proof.
  intros H. induction buttons as [ | b bs IHb ]; simpl.
  - apply raises_only_raise, H.
  - repeat raises_step. exact IHb.
Qed.

Lemma raises_only_history_rows_in allowed cells indices :
  In IndexError allowed ->
  raises_only allowed (ViewOnlyPage.history_rows (W:=W) cells indices).
Proof.
  intros H. induction indices as [ | i rest IH ]; [ apply raises_only_ret | ].
  cbn [ViewOnlyPage.history_rows]. repeat raises_step. exact IH.
Qed.

Lemma raises_only_view_line_items allowed indices :
  In IndexError allowed -> In NoSuchElementException allowed ->
  raises_only allowed (view_line_items (W:=W) indices).
Proof.
  intros H H'. induction indices as [ | i rest IH ]; [ apply raises_only_ret | ].
  cbn [view_line_items]. raises. exact IH.
Qed.

Lemma raises_only_create_line_items allowed items :
  In NoSuchElementException allowed ->
  forall i, raises_only allowed (create_line_items (W:=W) i items).
Proof.
  intros H. induction items as [ | [[[[d g] c] a] e] rest IH ]; intros i.
  - apply raises_only_ret.
  - cbn [create_line_items]. raises. apply IH.
Qed.

Lemma raises_only_create_attach_receipts allowed receipts :
  In NoSuchElementException allowed -> In FailedTransitionError allowed ->
  In AttributeError allowed ->
  forall page, raises_only allowed (create_attach_receipts (W:=W) page receipts).
Proof.
  intros H1 H2 H3. induction receipts as [ | receipt rest IH ]; intros page.
  - apply raises_only_ret.
  - cbn [create_attach_receipts]. unfold page_select_file, page_attach.
    autounfold with pages.
    repeat first [ apply raises_only_click_button | apply IH | raises_step ].
Qed.

End CreateTraceLemmas.

(** What a successful [create] has typed, in order: the name of the
    payee, the name of the RFP, the fields of the mailing address (as
    many keys as the address has fields, none without an address), the
    five values of each line item, the office note, the path of each
    receipt and, when the RFP is sent on, the recipient and the note.
    Nothing else is typed. *)
Theorem create_types_its_arguments :
  forall {W : Type} {browser : WebDriver W} name is_mit payee_name address line_items
         office_note receipts send_to (w : W) n w' l,
    create name (Some (is_mit, payee_name)) address line_items office_note receipts
      send_to w
    = (Return n, w', l) ->
    exists address_keys,
      typed l
      = (payee_name :: name
         :: address_keys
         ++ line_item_keys line_items
         ++ office_note
         :: receipts
         ++ match send_to with
            | Some (recipient, note) => [recipient; note]
            | None => []
            end)%list
      /\ length address_keys = match address with
                               | Some fields => length fields
                               | None => 0
                               end.
Proof.
  intros W browser name is_mit payee_name address line_items office_note receipts
    send_to w n w' l H.
  unfold create in H.
  bind_inv_tr H p Hp t0. apply ret_inv in Hp. destruct Hp as (-> & -> & ->).
  bind_inv_tr H idx H1 t1. bind_inv_tr H u2 H2 t2. bind_inv_tr H u3 H3 t3.
  bind_inv_tr H u4 H4 t4. bind_inv_tr H u5 H5 t5. bind_inv_tr H page6 H6 t6.
  bind_inv_tr H page7 H7 t7. bind_inv_tr H page8 H8 t8. bind_inv_tr H n9 H9 t9.
  bind_inv_tr H u10 H10 t10. apply ret_inv in H. destruct H as (_ & _ & ->).
  apply create_search_for_payee_typed in H1.
  unfold RequestRfpPage.rfp_name in H2. apply _textbox_set_typed in H2.
  destruct H2 as [T2 _].
  apply create_line_items_trace in H4. destruct H4 as [_ T4].
  unfold RequestRfpPage.office_note in H5. apply _textbox_set_typed in H5.
  destruct H5 as [T5 _].
  types_nothing_in H6.
  apply create_attach_receipts_trace in H7. destruct H7 as [_ T7].
  assert (T8 : typed t8 = []).
  { destruct receipts; [ types_nothing_in H8; assumption | ].
    apply ret_inv in H8. destruct H8 as (_ & _ & ->). reflexivity. }
  types_nothing_in H9.
  apply create_send_to_typed in H10.
  exists (typed t3). split.
  - cbn [app]. rewrite !typed_app.
    rewrite H1, T2, T4, T5, F, T7, T8, F0, H10. cbn [app typed].
    rewrite app_nil_r. reflexivity.
  - destruct address as [address | ].
    + destruct (create_mailing_address_inv idx address _ _ _ _ H3)
        as [(-> & -> & _) | [(a & c & p & k & -> & _ & ->)
                            | (a & c & s & p & k & -> & _ & ->)]];
        reflexivity.
    + apply ret_inv in H3. destruct H3 as (_ & _ & ->). reflexivity.
Qed.

(** The full run on the scripted site. *)
Lemma create_types_its_arguments_witness :
  typed
    (calls (create "Lunch" (Some (false, "Ben")) None
              [("11/01/2013", "420050", "2720209", "12.50", "Sandwiches")]
              "thanks" ["a.pdf"; "b.pdf"] (Some ("Alyssa", "please approve"))
              Site.us))
  = ["Ben"; "Lunch"; "11/01/2013"; "420050"; "2720209"; "12.50"; "Sandwiches";
     "thanks"; "a.pdf"; "b.pdf"; "Alyssa"; "please approve"].
Proof.
  destruct (create "Lunch" (Some (false, "Ben")) None
              [("11/01/2013", "420050", "2720209", "12.50", "Sandwiches")]
              "thanks" ["a.pdf"; "b.pdf"] (Some ("Alyssa", "please approve"))
              Site.us) as [[[n | e] w'] l] eqn:E.
  - destruct (create_types_its_arguments _ _ _ _ _ _ _ _ _ _ _ _ E)
      as (keys & T & L).
    destruct keys; [ exact T | discriminate L ].
  - vm_compute in E. discriminate E.
Defined.

(** A successful [create] looks up "#upload" once per receipt.  The
    calls of the loop over the receipts are a segment of the trace,
    with no lookup of "#upload" before or after it; in the segment the
    first receipt finds the overlay open, every further one is
    preceded by ".attachReceipts" and the "#doUpload" of the overlay
    that click opens, and the keys sent are the paths, in order. *)
Theorem create_attaches_each_receipt :
  forall {W : Type} {browser : WebDriver W} name payee address line_items
         office_note receipts send_to (w : W) n w' l,
    create name payee address line_items office_note receipts send_to w
    = (Return n, w', l) ->
    lookups "#upload" l = length receipts
    /\ exists before loop after,
         l = (before ++ loop ++ after)%list
         /\ lookups "#upload" before = 0
         /\ lookups "#upload" after = 0
         /\ located loop = receipt_selectors true receipts
         /\ typed loop = receipts.
Proof.
  intros W browser name payee address line_items office_note receipts send_to
    w n w' l H.
  destruct payee as [[is_mit payee_name] | ]; [ | discriminate H ].
  unfold create in H.
  bind_inv_tr H p Hp t0. apply ret_inv in Hp. destruct Hp as (-> & -> & ->).
  bind_inv_tr H idx H1 t1. bind_inv_tr H u2 H2 t2. bind_inv_tr H u3 H3 t3.
  bind_inv_tr H u4 H4 t4. bind_inv_tr H u5 H5 t5. bind_inv_tr H page6 H6 t6.
  bind_inv_tr H page7 H7 t7. bind_inv_tr H page8 H8 t8. bind_inv_tr H n9 H9 t9.
  bind_inv_tr H u10 H10 t10. apply ret_inv in H. destruct H as (_ & _ & ->).
  no_lookup_in "#upload" H1. no_lookup_in "#upload" H2. no_lookup_in "#upload" H3.
  no_lookup_in "#upload" H4. no_lookup_in "#upload" H5. no_lookup_in "#upload" H6.
  assert (F8 : lookups "#upload" t8 = 0).
  { destruct receipts; [ no_lookup_in "#upload" H8; assumption | ].
    apply ret_inv in H8. destruct H8 as (_ & _ & ->). reflexivity. }
  no_lookup_in "#upload" H9. no_lookup_in "#upload" H10.
  pose proof (save_page _ _ _ _ H6) as ->.
  apply create_attach_receipts_trace in H7. destruct H7 as [Hl Ht].
  cbn [is_overlay] in Hl.
  assert (Hloop : lookups "#upload" t7 = length receipts).
  { unfold lookups. rewrite Hl. apply count_upload_selectors. }
  split.
  - cbn [app]. rewrite !lookups_app.
    change (lookups "#upload" []) with 0. lia.
  - exists (t1 ++ t2 ++ t3 ++ t4 ++ t5 ++ t6)%list, t7, (t8 ++ t9 ++ t10)%list.
    repeat split.
    + cbn [app]. rewrite <- !app_assoc, app_nil_r. reflexivity.
    + rewrite !lookups_app. lia.
    + rewrite !lookups_app. lia.
    + exact Hl.
    + exact Ht.
Qed.

(** Two receipts on the scripted site. *)
Lemma create_attaches_each_receipt_witness :
  lookups "#upload"
    (calls (create "Lunch" (Some (false, "Ben")) None
              [("11/01/2013", "420050", "2720209", "12.50", "Sandwiches")]
              "thanks" ["a.pdf"; "b.pdf"] None Site.us)) = 2.
Proof.
  destruct (create "Lunch" (Some (false, "Ben")) None
              [("11/01/2013", "420050", "2720209", "12.50", "Sandwiches")]
              "thanks" ["a.pdf"; "b.pdf"] None Site.us) as [[[n | e] w'] l] eqn:E.
  - exact (proj1 (create_attaches_each_receipt _ _ _ _ _ _ _ _ _ _ _ E)).
  - vm_compute in E. discriminate E.
Defined.

(** The exceptions of [create], for arguments of the documented shapes
    and a driver that raises only [NoSuchElementException]: [TypeError]
    (no payee), [NoSuchElementException], [AssertionError],
    [IndexError], [FailedTransitionError] and [AttributeError] (a
    method asked of a page object that lacks it).  The [NameError] of
    the unbound [state] never leaves it. *)
Theorem create_raises_only :
  forall {W : Type} {browser : WebDriver W} name payee address line_items office_note
         receipts send_to,
    raises_only
      [TypeError; NoSuchElementException; AssertionError; IndexError;
       FailedTransitionError; AttributeError]
      (create (W:=W) name payee address line_items office_note receipts send_to).
Proof.
  intros W browser name payee address line_items office_note receipts send_to.
  unfold create, create_search_for_payee, create_mailing_address, create_send_to,
    page_cancel, page_rfp_number, page_send_to.
  autounfold with pages.
  repeat first [ apply raises_only_click_button
               | apply raises_only_create_line_items
               | apply raises_only_create_attach_receipts
               | raises_step ].
Qed.

(** The exceptions of [view]: [NoSuchElementException],
    [AssertionError], [IndexError] and [FailedTransitionError]. *)
Theorem view_raises_only :
  forall {W : Type} {browser : WebDriver W} rfp_number,
    raises_only
      [NoSuchElementException; AssertionError; IndexError; FailedTransitionError]
      (view (W:=W) rfp_number).
Proof.
  intros W browser rfp_number.
  unfold view. autounfold with pages.
  repeat first [ apply raises_only_view_line_items
               | apply raises_only_history_rows_in
               | raises_step ].
Qed.

(** [create] cannot go on from a displayed RFP.  When an upload ends on
    a page whose title contains "Display RFP", [_overlay_button]
    answers a [ViewOnlyPage], which is no [ViewAndEditPage] and has
    neither [select_file] nor [send_to]: a further receipt raises
    [AttributeError] with no further driver call, and so does
    "Send To?". *)
Theorem create_cannot_go_on_from_a_displayed_rfp :
  forall {W : Type} {browser : WebDriver W} (receipt next : string) (rest : list string)
         (recipient note : string) (w w1 : W) l1,
    (AttachReceiptPage.select_file receipt;; AttachReceiptPage.attach) w
    = (Return ViewOnly, w1, l1) ->
    contains "Display RFP" (drv_title w1) = true
    /\ create_attach_receipts AttachReceipt (receipt :: next :: rest) w
       = (Raise AttributeError, w1, l1)
    /\ create_send_to ViewOnly (Some (recipient, note)) w1
       = (Raise AttributeError, w1, []).
Proof.
  intros W browser receipt next rest recipient note w w1 l1 H.
  split; [ | split ].
  - bind_inv_tr H u1 H1 t1. unfold AttachReceiptPage.attach in H.
    unfold AttachReceiptPage._overlay_button in H.
    bind_inv_tr H buttons H2 t2. bind_inv_tr H u3 H3 t3. bind_inv_tr H t H4 t4.
    unfold title in H4. injection H4 as <- <- _.
    destruct (contains "Display RFP" (drv_title w3)) eqn:E.
    + bind_inv_tr H u5 H5 t5. unfold New.ViewOnlyPage, BasePage.init in H5.
      apply ret_inv in H5. destruct H5 as (_ & -> & _).
      apply ret_inv in H. destruct H as (_ & -> & _). exact E.
    + bind_inv_tr H idx H5 t5. apply ret_inv in H. destruct H as (X & _ & _).
      discriminate X.
  - bind_inv_tr H u1 H1 t1.
    cbn [create_attach_receipts]. rewrite bind_ret_l.
    cbn [page_select_file page_attach].
    unfold bind at 1. rewrite H1. unfold bind at 1. rewrite H.
    unfold bind, ret, raise. cbn [page_select_file app].
    unfold raise. rewrite app_nil_r. reflexivity.
  - reflexivity.
Qed.

(** On the scripted site the overlay closes onto the displayed RFP. *)
Lemma create_cannot_go_on_from_a_displayed_rfp_witness :
  result (create_attach_receipts AttachReceipt ["a.pdf"; "b.pdf"]
            (Site.overlay [] Site.display))
  = Raise AttributeError
  /\ typed (calls (create_attach_receipts AttachReceipt ["a.pdf"; "b.pdf"]
                     (Site.overlay [] Site.display)))
     = ["a.pdf"].
Proof.
  destruct ((AttachReceiptPage.select_file "a.pdf";; AttachReceiptPage.attach)
              (Site.overlay [] Site.display)) as [[r w1] l1] eqn:E.
  assert (R : r = Return ViewOnly) by (vm_compute in E; congruence).
  subst r.
  destruct (create_cannot_go_on_from_a_displayed_rfp "a.pdf" "b.pdf" [] "" "" _ _ _ E)
    as (_ & -> & _).
  vm_compute in E. injection E as _ <-. split; reflexivity.
Defined.
